(** * Express training guide: role guard, token issuer, e-mail verification

    A shallow embedding of the three pieces of the guide that carry logic:

    - [checkRoles]   (5.Auth-Roles/src/middleware/bearAuth.ts), the role
      checking middleware;
    - [loginUser]    (user.service.ts of the Auth-Roles lesson), which mints
      the token;
    - [setVerificationCode], [verifyUser] (8.unit-testing/src/repositories/
      user.repository.ts) and the service functions [createUser] and
      [verifyUser] of the Sending-Mails lesson.

    Around them: the first guard [isAuthenticated], the todo service with
    its controllers and routes, the user controllers, the rate limiter
    and the logger with the chain of the app, and BasicUtils of the
    unit-testing lesson.

    Asynchronous functions are run to completion one at a time; a promise
    that rejects is a computation that throws.  The libraries the code calls
    (jsonwebtoken, bcrypt, nodemailer, Math.random, Date.now) are parameters
    of the definitions; [Jwt] gives a symbolic instance of jsonwebtoken and
    [RateLimiterMemory] one of rate-limiter-flexible.  Identifiers and
    timestamps are integers; the one computation with fractions, the
    verification code, is done in [Double], which rounds as binary64
    does. *)

From Stdlib Require Import String Ascii List ZArith QArith Qround Bool Lia.
From Stdlib Require Import DecimalString Lqa Qabs Qpower.
Import ListNotations.
Open Scope string_scope.
Set Warnings "-register-all".

(* ------------------------------------------------------------------ *)
(** ** JavaScript values and the string operations the code uses       *)
(* ------------------------------------------------------------------ *)

Module Js.

(** The values a decoded token, a response body or a row field can hold.
    Numbers that occur here are identifiers and timestamps, hence [Z]. *)
Inductive value : Type :=
| undefined
| null
| boolean (b : bool)
| number (z : Z)
| str (s : string)
| array (items : list value)
| object (fields : list (string * value)).

(** Thrown values: [new Error(msg)] and the error classes of jsonwebtoken. *)
Record error : Type := mkError { err_name : string; err_message : string }.

Definition Error (msg : string) : error := mkError "Error" msg.

(** [typeof v === 'object'] *)
Definition typeof_object (v : value) : bool :=
  match v with
  | null | array _ | object _ => true
  | _ => false
  end.

(** [v !== null] *)
Definition not_null (v : value) : bool :=
  match v with
  | null => false
  | _ => true
  end.

Definition string_of_nat (n : nat) : string :=
  NilZero.string_of_uint (Nat.to_uint n).

Fixpoint assoc (key : string) (fields : list (string * value)) : option value :=
  match fields with
  | [] => None
  | (k, v) :: rest => if String.eqb k key then Some v else assoc key rest
  end.

(** [key in v] for a value that passed the two tests above.  An object has
    the keys of its fields, an array its indices and [length]; members
    inherited from the prototypes are left out. *)
Definition has_property (key : string) (v : value) : bool :=
  match v with
  | object fields =>
      match assoc key fields with Some _ => true | None => false end
  | array items =>
      String.eqb key "length"
      || existsb (fun i => String.eqb key (string_of_nat i)) (seq 0 (length items))
  | _ => false
  end.

(** [v.key], for the objects and arrays that [has_property] speaks of; the
    code never reads a member of another kind of value. *)
Definition get (v : value) (key : string) : value :=
  match v with
  | object fields =>
      match assoc key fields with Some x => x | None => undefined end
  | array items =>
      if String.eqb key "length" then number (Z.of_nat (length items))
      else
        match find (fun i => String.eqb key (string_of_nat i)) (seq 0 (length items)) with
        | Some i => nth i items undefined
        | None => undefined
        end
  | _ => undefined
  end.

(** [v === s] for a string literal [s] *)
Definition strict_eq_str (v : value) (s : string) : bool :=
  match v with
  | str t => String.eqb t s
  | _ => false
  end.

(** [!h] for [h : string | undefined] *)
Definition falsy (h : option string) : bool :=
  match h with
  | None => true
  | Some s => String.eqb s ""
  end.

(** [h.startsWith(p)] *)
Definition startsWith (h : string) (p : string) : bool := String.prefix p h.

(** [s.split(c)] for a one-character separator *)
Fixpoint split (s : string) (sep : ascii) : list string :=
  match s with
  | EmptyString => [EmptyString]
  | String c rest =>
      if Ascii.eqb c sep then EmptyString :: split rest sep
      else match split rest sep with
           | [] => [String c EmptyString]
           | w :: ws => String c w :: ws
           end
  end.

(** [s.includes(c)] for one character *)
Fixpoint includes (s : string) (c : ascii) : bool :=
  match s with
  | EmptyString => false
  | String a rest => Ascii.eqb a c || includes rest c
  end.

(** [xs[i]]: [None] is [undefined] *)
Definition index {A : Type} (xs : list A) (i : nat) : option A := nth_error xs i.

(** [n.toString()] for an integer *)
Definition toString (z : Z) : string := NilZero.string_of_int (Z.to_int z).

(** [{ message: m }] *)
Definition message (m : string) : value := object [("message", str m)].

(** [JSON.stringify(s)] for a string without characters to escape *)
Definition stringify (s : string) : string :=
  String (ascii_of_nat 34) (s ++ String (ascii_of_nat 34) EmptyString).

End Js.

(* ------------------------------------------------------------------ *)
(** ** JavaScript numbers with a fraction                              *)
(* ------------------------------------------------------------------ *)

Module Double.

(** A JavaScript number is an IEEE 754 binary64: here the rational it
    denotes.  Each arithmetic operation gives the exact result rounded to
    the nearest double, ties to the even one.  Infinities, NaN and the
    sign of zero are left out, so this is the arithmetic for results
    below [2^1024] in magnitude. *)

(** The binade of a rational other than zero: the [e] with
    [2^e <= |q| < 2^(e+1)]. *)
Definition exponent (q : Q) : Z :=
  let e := (Z.log2 (Z.abs (Qnum q)) - Z.log2 (Zpos (Qden q)))%Z in
  if Qle_bool (2 ^ e) (Qabs q) then e else (e - 1)%Z.

(** The step between neighbouring doubles around [q]: 52 binary places
    below the leading one, and [2^-1074] for the subnormal numbers. *)
Definition ulp (q : Q) : Q := (2 ^ (Z.max (exponent q) (-1022) - 52))%Q.

(** The nearest integer, the even one of two that are equally near. *)
Definition nearest_even (q : Q) : Z :=
  let k := Qfloor q in
  match Qcompare (q - inject_Z k) (1 # 2) with
  | Lt => k
  | Gt => (k + 1)%Z
  | Eq => if Z.even k then k else (k + 1)%Z
  end.

(** The double nearest to [q]. *)
Definition round (q : Q) : Q := (inject_Z (nearest_even (q / ulp q)) * ulp q)%Q.

(** [a * b] and [a + b] on numbers *)
Definition mul (a b : Q) : Q := round (a * b).
Definition add (a b : Q) : Q := round (a + b).

(** [q] is a double. *)
Definition is_double (q : Q) : Prop := (round q == q)%Q.

End Double.

(* ------------------------------------------------------------------ *)
(** ** Computations with state and exceptions                          *)
(* ------------------------------------------------------------------ *)

Module Eff.

Inductive outcome (A : Type) : Type :=
| Returned (a : A)
| Thrown (e : Js.error).
Arguments Returned {A} a.
Arguments Thrown {A} e.

(** A computation over a state [S]: a JavaScript function body run to
    completion. *)
Definition t (S A : Type) : Type := S -> outcome A * S.

Definition ret {S A : Type} (a : A) : t S A := fun s => (Returned a, s).

Definition throw {S A : Type} (e : Js.error) : t S A := fun s => (Thrown e, s).

Definition bind {S A B : Type} (c : t S A) (k : A -> t S B) : t S B :=
  fun s =>
    match c s with
    | (Returned a, s') => k a s'
    | (Thrown e, s') => (Thrown e, s')
    end.

(** [try { body } catch (error) { handler }]: what [body] did to the state
    before it threw stays done. *)
Definition try_catch {S A : Type} (body : t S A) (handler : Js.error -> t S A)
  : t S A :=
  fun s =>
    match body s with
    | (Returned a, s') => (Returned a, s')
    | (Thrown e, s') => handler e s'
    end.

Definition read {S A : Type} (f : S -> A) : t S A := fun s => (Returned (f s), s).

Definition modify {S : Type} (f : S -> S) : t S unit := fun s => (Returned tt, f s).

End Eff.

Import Eff.

Declare Scope eff_scope.
Delimit Scope eff_scope with eff.
Notation "x <- c ;; k" := (Eff.bind c (fun x => k))
  (at level 61, c at next level, right associativity) : eff_scope.
Notation "c ;;; k" := (Eff.bind c (fun _ => k))
  (at level 61, right associativity) : eff_scope.

(* ------------------------------------------------------------------ *)
(** ** The role guard (5.Auth-Roles/src/middleware/bearAuth.ts)        *)
(* ------------------------------------------------------------------ *)

Module Guard.

(** [requiredRole: "admin" | "user" | "both"] *)
Inductive RequiredRole : Type := admin | user | both.

Definition role_name (r : RequiredRole) : string :=
  match r with
  | admin => "admin"
  | user => "user"
  | both => "both"
  end.

(** What the middleware does to the outside, in order. *)
Inductive event : Type :=
| next_called
| json_sent (status : Z) (body : Js.value).

(** The request and response pair the middleware works on:
    [req.headers.authorization], [req.user] and what went out so far. *)
Record exchange : Type := mkExchange {
  authorization : option string;
  req_user : option Js.value;
  events : list event
}.

(** What surrounds the middleware: the environment variable, the library
    call [jwt.verify(token, secret)] (it returns the decoded payload or
    throws) and the callback [next], which may itself throw. *)
Record env : Type := mkEnv {
  JWT_SECRET : option string;
  jwt_verify : option string -> option string -> outcome Js.value;
  next_throws : option Js.error
}.

Definition emit (e : event) : Eff.t exchange unit :=
  Eff.modify (fun x => mkExchange (authorization x) (req_user x) (events x ++ [e])).

Definition message := Js.message.

(** [res.status(code).json(body)] *)
Definition res_status_json (code : Z) (body : Js.value) : Eff.t exchange unit :=
  emit (json_sent code body).

(** [next()] *)
Definition next (E : env) : Eff.t exchange unit :=
  (emit next_called ;;;
   match next_throws E with
   | None => Eff.ret tt
   | Some e => Eff.throw e
   end)%eff.

(** [(req as any).user = decoded] *)
Definition set_req_user (decoded : Js.value) : Eff.t exchange unit :=
  Eff.modify (fun x => mkExchange (authorization x) (Some decoded) (events x)).

(** [jwt.verify(token, process.env.JWT_SECRET as string)] *)
Definition verify (E : env) (token : option string) : Eff.t exchange Js.value :=
  fun x => (jwt_verify E token (JWT_SECRET E), x).

Definition checkRoles (E : env) (requiredRole : RequiredRole) : Eff.t exchange unit :=
  (authHeader <- Eff.read authorization ;;
   if Js.falsy authHeader
      || negb (match authHeader with
               | Some h => Js.startsWith h "Bearer "
               | None => false
               end)
   then res_status_json 401 (message "Unauthorized")
   else
     let token :=
       match authHeader with
       | Some h => Js.index (Js.split h " "%char) 1
       | None => None
       end in
     Eff.try_catch
       (decoded <- verify E token ;;
        set_req_user decoded ;;;
        if Js.typeof_object decoded && Js.not_null decoded
           && Js.has_property "role" decoded
        then
          match requiredRole with
          | both =>
              if Js.strict_eq_str (Js.get decoded "role") "admin"
                 || Js.strict_eq_str (Js.get decoded "role") "user"
              then next E
              else res_status_json 401 (message "Unauthorized")
          | _ =>
              if Js.strict_eq_str (Js.get decoded "role") (role_name requiredRole)
              then next E
              else res_status_json 401 (message "Unauthorized")
          end
        else res_status_json 401 (message "Invalid Token Payload"))
       (fun _ => res_status_json 401 (message "Invalid Token")))%eff.

Definition adminOnly (E : env) := checkRoles E admin.
Definition userOnly (E : env) := checkRoles E user.
Definition adminUser (E : env) := checkRoles E both.

(** A fresh request carrying the given header, before any middleware ran. *)
Definition incoming (header : option string) : exchange :=
  mkExchange header None [].

(** Everything the guard did for a header: how it ended, what it attached
    to the request, and what it sent or called. *)
Definition handle (E : env) (requiredRole : RequiredRole) (header : option string)
  : outcome unit * option Js.value * list event :=
  let '(r, x) := checkRoles E requiredRole (incoming header) in
  (r, req_user x, events x).

Definition is_next (e : event) : bool :=
  match e with
  | next_called => true
  | json_sent _ _ => false
  end.

(** The request went on to the route handler. *)
Definition proceeds (evs : list event) : bool := existsb is_next evs.

(** A header of the exact shape [Bearer <token>]: the scheme, one space, one
    non-empty token without a space. *)
Definition exact_bearer (h : string) : bool :=
  Js.startsWith h "Bearer "
  && match Js.split h " "%char with
     | [_; tok] => negb (String.eqb tok "")
     | _ => false
     end.

End Guard.

(* ------------------------------------------------------------------ *)
(** ** jsonwebtoken, symbolically                                      *)
(* ------------------------------------------------------------------ *)

Module Jwt.

(** The library is not part of the guide.  This instance follows its
    documented behaviour: a token stands for the payload it carries and the
    key its signature was made with; [verify] goes through the library's
    checks in the library's order. *)
Record token : Type := mkToken { payload : Js.value; key : string }.

Definition JsonWebTokenError (msg : string) : Js.error :=
  Js.mkError "JsonWebTokenError" msg.

Definition TokenExpiredError : Js.error :=
  Js.mkError "TokenExpiredError" "jwt expired".

(** [jwt.sign(payload, secret)] at clock [now] (seconds): an object payload
    gets [iat], the issue time. *)
Definition sign (now : Z) (p : Js.value) (secret : string) : token :=
  match p with
  | Js.object fields => mkToken (Js.object (fields ++ [("iat", Js.number now)])) secret
  | _ => mkToken p secret
  end.

(** [jwt.decode(token)]: the payload, unverified. *)
Definition decode (t : token) : Js.value := payload t.

(** [jwt.verify(token, secret)] at clock [now] (seconds), for a reading
    [parse] of compact serializations. *)
Definition verify (parse : string -> option token) (now : Z)
    (jwtString : option string) (secretOrPublicKey : option string)
  : outcome Js.value :=
  if Js.falsy jwtString then Thrown (JsonWebTokenError "jwt must be provided")
  else
    match jwtString with
    | None => Thrown (JsonWebTokenError "jwt must be provided")
    | Some s =>
        match parse s with
        | None => Thrown (JsonWebTokenError "jwt malformed")
        | Some t =>
            if Js.falsy secretOrPublicKey
            then Thrown (JsonWebTokenError "secret or public key must be provided")
            else if negb (match secretOrPublicKey with
                          | Some k => String.eqb k (key t)
                          | None => false
                          end)
            then Thrown (JsonWebTokenError "invalid signature")
            else
              match Js.get (payload t) "exp" with
              | Js.undefined => Returned (payload t)
              | Js.number exp =>
                  if (exp <=? now)%Z then Thrown TokenExpiredError
                  else Returned (payload t)
              | _ => Thrown (JsonWebTokenError "invalid exp value")
              end
        end
    end.

(** A reading of serializations given by a finite table. *)
Fixpoint lookup (table : list (string * token)) (s : string) : option token :=
  match table with
  | [] => None
  | (w, t) :: rest => if String.eqb w s then Some t else lookup rest s
  end.

(** The guard's surroundings when the library is this instance. *)
Definition guard_env (parse : string -> option token) (now : Z)
    (secret : option string) (next_throws : option Js.error) : Guard.env :=
  Guard.mkEnv secret (verify parse now) next_throws.

End Jwt.

(* ------------------------------------------------------------------ *)
(** ** The Users table and its repository (user.repository.ts)         *)
(* ------------------------------------------------------------------ *)

Module userRepositories.

(** A row of [Users], with the columns of the guide's CREATE TABLE:
    [role VARCHAR(20) DEFAULT 'user'], [verification_code VARCHAR(10)]
    (NULL is [None]) and [is_verified BIT DEFAULT 0]. *)
Record User : Type := mkUser {
  userid : Z;
  first_name : string;
  last_name : string;
  email : string;
  phone_number : string;
  password : string;
  role : string;
  verification_code : option string;
  is_verified : bool
}.

Record NewUser : Type := mkNewUser {
  new_first_name : string;
  new_last_name : string;
  new_email : string;
  new_phone_number : string;
  new_password : string
}.

(** The table: its rows in key order and the next IDENTITY value. *)
Record table : Type := mkTable { rows : list User; identity : Z }.

(** [WHERE email = @email], read as equality of strings. *)
Definition matches (e : string) (u : User) : bool := String.eqb (email u) e.

(** [UPDATE Users SET ... WHERE email = @email] *)
Definition update_where (e : string) (set : User -> User) (t : table) : table :=
  mkTable (map (fun u => if matches e u then set u else u) (rows t)) (identity t).

(** [SELECT * FROM Users WHERE email = @email], then [recordset[0] || null] *)
Definition getUserByEmail (e : string) : Eff.t table (option User) :=
  Eff.read (fun t => find (matches e) (rows t)).

Definition unique_violation : Js.error :=
  Js.mkError "RequestError" "Violation of UNIQUE KEY constraint".

(** [INSERT INTO Users (first_name, last_name, email, phone_number,
    password) VALUES (...)]: the other columns take their defaults, and
    [email] is UNIQUE, so a second row with the same email is refused. *)
Definition inserted (user : NewUser) (id : Z) : User :=
  mkUser id (new_first_name user) (new_last_name user) (new_email user)
         (new_phone_number user) (new_password user) "user" None false.

Definition createUser (user : NewUser) : Eff.t table Js.value :=
  fun t =>
    if existsb (matches (new_email user)) (rows t)
    then (Thrown unique_violation, t)
    else
      (Returned (Js.message "User created successfully"),
       mkTable (rows t ++ [inserted user (identity t)]) (identity t + 1)).

(** [SET verification_code = @code, is_verified = 0] *)
Definition set_code (code : string) (u : User) : User :=
  mkUser (userid u) (first_name u) (last_name u) (email u) (phone_number u)
         (password u) (role u) (Some code) false.

(** [SET is_verified = 1, verification_code = NULL] *)
Definition set_verified (u : User) : User :=
  mkUser (userid u) (first_name u) (last_name u) (email u) (phone_number u)
         (password u) (role u) None true.

(** [UPDATE Users SET verification_code = @code, is_verified = 0
    WHERE email = @email] *)
Definition setVerificationCode (e : string) (code : string) : Eff.t table Js.value :=
  (Eff.modify (update_where e (set_code code)) ;;;
   Eff.ret (Js.message "Verification code saved"))%eff.

(** [UPDATE Users SET is_verified = 1, verification_code = NULL
    WHERE email = @email] *)
Definition verifyUser (e : string) : Eff.t table Js.value :=
  (Eff.modify (update_where e set_verified) ;;;
   Eff.ret (Js.message "User verified successfully"))%eff.

End userRepositories.

(* ------------------------------------------------------------------ *)
(** ** The mailer (mailer.ts)                                          *)
(* ------------------------------------------------------------------ *)

Module mailer.

Record mail : Type := mkMail { to : string; subject : string; html : string }.

(** What [transporter.sendMail] resolves to. *)
Record mailRes : Type := mkMailRes { accepted : list string; rejected : list string }.

(** [sendEmail(to, subject, html)]: the transport is asked once; whatever
    it answers, and also when it throws, a string comes back. *)
Definition sendEmail {S : Type} (transport : mail -> outcome mailRes)
    (record : mail -> S -> S) (to subject html : string) : Eff.t S string :=
  Eff.try_catch
    (Eff.modify (record (mkMail to subject html)) ;;;
     mailRes <- (fun s => (transport (mkMail to subject html), s)) ;;
     if (0 <? length (accepted mailRes))%nat then Eff.ret "Email sent successfully"
     else if (0 <? length (rejected mailRes))%nat then Eff.ret "Email not sent"
     else Eff.ret "Email server not responding")%eff
    (fun error => Eff.ret (Js.stringify (Js.err_message error))).

End mailer.

(* ------------------------------------------------------------------ *)
(** ** The user service (user.service.ts)                              *)
(* ------------------------------------------------------------------ *)

Module userService.

Import userRepositories.

(** What the service runs against: the table and the mails handed to the
    transport so far. *)
Record world : Type := mkWorld { Users : table; outbox : list mailer.mail }.

(** The libraries and the process state around the service.  [Token] is
    what [jwt.sign] gives back; [Date_now] is in milliseconds;
    [Math_random] is the draw in [0, 1). *)
Record env (Token : Type) : Type := mkEnv {
  JWT_SECRET : option string;
  jwt_sign : Js.value -> string -> Token;
  bcrypt_hash : string -> string;
  bcrypt_compare : string -> string -> bool;
  Date_now : Z;
  Math_random : Q;
  transport : mailer.mail -> outcome mailer.mailRes;
  template_verify : string -> string -> string;
  template_verifiedSuccess : string -> string
}.
Arguments JWT_SECRET {Token} _.
Arguments jwt_sign {Token} _ _ _.
Arguments bcrypt_hash {Token} _ _.
Arguments bcrypt_compare {Token} _ _ _.
Arguments Date_now {Token} _.
Arguments Math_random {Token} _.
Arguments transport {Token} _ _.
Arguments template_verify {Token} _ _ _.
Arguments template_verifiedSuccess {Token} _ _.

(** A repository call made from the service. *)
Definition on_table {A : Type} (c : Eff.t table A) : Eff.t world A :=
  fun w =>
    let '(r, t) := c (Users w) in
    (r, mkWorld t (outbox w)).

Definition sendEmail {Token : Type} (E : env Token) (to subject html : string)
  : Eff.t world string :=
  mailer.sendEmail (transport E)
    (fun m w => mkWorld (Users w) (outbox w ++ [m])) to subject html.

(** [Math.floor(100000 + Math.random() * 900000).toString()]: the product
    and the sum are each rounded to a double, [Math.floor] is exact. *)
Definition verificationCode (random : Q) : string :=
  Js.toString (Qfloor (Double.add 100000 (Double.mul random 900000))).

(** [user.password = hashed] *)
Definition with_password (user : NewUser) (hashed : string) : NewUser :=
  mkNewUser (new_first_name user) (new_last_name user) (new_email user)
            (new_phone_number user) hashed.

(** [if (user.password) { user.password = await bcrypt.hash(user.password, 10) }] *)
Definition hash_password {Token : Type} (E : env Token) (user : NewUser) : NewUser :=
  if negb (String.eqb (new_password user) "")
  then with_password user (bcrypt_hash E (new_password user))
  else user.

(** [createUser] of the Sending-Mails lesson. *)
Definition createUser {Token : Type} (E : env Token) (user : NewUser)
  : Eff.t world Js.value :=
  (let user := hash_password E user in
   let verificationCode := verificationCode (Math_random E) in
   result <- on_table (userRepositories.createUser user) ;;
   on_table (setVerificationCode (new_email user) verificationCode) ;;;
   sendEmail E (new_email user) "Verify your email for Todo App"
     (template_verify E (new_first_name user) verificationCode) ;;;
   Eff.ret (Js.message "User created successfully. Verification code sent to email"))%eff.

(** [user.verification_code !== code] *)
Definition code_differs (stored : option string) (code : string) : bool :=
  match stored with
  | Some c => negb (String.eqb c code)
  | None => true
  end.

(** [verifyUser(email, code)] of the service *)
Definition verifyUser {Token : Type} (E : env Token) (e : string) (code : string)
  : Eff.t world Js.value :=
  (user <- on_table (getUserByEmail e) ;;
   match user with
   | None => Eff.throw (Js.Error "User not found")
   | Some user =>
       if code_differs (verification_code user) code
       then Eff.throw (Js.Error "Invalid verification code")
       else
         on_table (userRepositories.verifyUser e) ;;;
         sendEmail E (email user) "Your email has been verified - Todo App"
           (template_verifiedSuccess E (first_name user)) ;;;
         Eff.ret (Js.message "User verified successfully")
   end)%eff.

(** What [loginUser] returns: [{ message, token, user }]. *)
Record LoginResult (Token : Type) : Type := mkLoginResult {
  login_message : string;
  token : Token;
  user : Js.value
}.
Arguments mkLoginResult {Token} _ _ _.
Arguments login_message {Token} _.
Arguments token {Token} _.
Arguments user {Token} _.

(** The payload [loginUser] signs. *)
Definition login_payload (now : Z) (u : User) : Js.value :=
  Js.object
    [("sub", Js.number (userid u));
     ("first_name", Js.str (first_name u));
     ("last_name", Js.str (last_name u));
     ("role", Js.str (role u));
     ("exp", Js.number (now / 1000 + 60 * 60))].

(** [loginUser(email, password)] *)
Definition loginUser {Token : Type} (E : env Token) (e : string) (pw : string)
  : Eff.t world (LoginResult Token) :=
  (user <- on_table (getUserByEmail e) ;;
   match user with
   | None => Eff.throw (Js.Error "User not found")
   | Some user =>
       let isMatch := bcrypt_compare E pw (password user) in
       if negb isMatch then Eff.throw (Js.Error "Invalid credentials")
       else
         let payload := login_payload (Date_now E) user in
         let secret := JWT_SECRET E in
         if Js.falsy secret then Eff.throw (Js.Error "JWT secret not defined")
         else
           match secret with
           | None => Eff.throw (Js.Error "JWT secret not defined")
           | Some secret =>
               let token := jwt_sign E payload secret in
               Eff.ret
                 (mkLoginResult "Login successful" token
                    (Js.object
                       [("userid", Js.number (userid user));
                        ("first_name", Js.str (first_name user));
                        ("last_name", Js.str (last_name user));
                        ("email", Js.str (email user));
                        ("phone_number", Js.str (phone_number user))]))
           end
   end)%eff.

End userService.

(* ------------------------------------------------------------------ *)
(** ** Sequences of verification operations                            *)
(* ------------------------------------------------------------------ *)

Module Lifecycle.

Import userRepositories userService.

(** The operations that touch [is_verified]: the repository's
    [setVerificationCode] on its own, registration through the service's
    [createUser] (which draws the code), and the service's [verifyUser]. *)
Inductive operation : Type :=
| issueCode (e : string) (code : string)
| register (random : Q) (u : NewUser)
| confirmCode (e : string) (code : string).

Definition with_random {Token : Type} (E : env Token) (random : Q) : env Token :=
  mkEnv Token (JWT_SECRET E) (jwt_sign E) (bcrypt_hash E) (bcrypt_compare E)
        (Date_now E) random (transport E) (template_verify E)
        (template_verifiedSuccess E).

(** One operation; a caller that sees it throw carries on with the state
    it left. *)
Definition step {Token : Type} (E : env Token) (o : operation) (w : world) : world :=
  match o with
  | issueCode e code => snd (on_table (setVerificationCode e code) w)
  | register random u => snd (userService.createUser (with_random E random) u w)
  | confirmCode e code => snd (userService.verifyUser E e code w)
  end.

(** The states a sequence goes through, the first one included. *)
Fixpoint states {Token : Type} (E : env Token) (ops : list operation) (w : world)
  : list world :=
  w :: match ops with
       | [] => []
       | o :: rest => states E rest (step E o w)
       end.

(** [is_verified] of the record with the given email; [None] when there is
    no such record. *)
Definition flag (e : string) (w : world) : option bool :=
  option_map is_verified (find (matches e) (rows (Users w))).

(** The stored code of the record with the given email. *)
Definition stored_code (e : string) (w : world) : option string :=
  match find (matches e) (rows (Users w)) with
  | Some u => verification_code u
  | None => None
  end.

Definition history {Token : Type} (E : env Token) (ops : list operation)
    (w : world) (e : string) : list (option bool) :=
  map (flag e) (states E ops w).

Definition rise (a b : option bool) : bool :=
  match a, b with
  | Some false, Some true => true
  | _, _ => false
  end.


(** How many adjacent pairs of a history satisfy [p]. *)
Fixpoint count_adjacent (p : option bool -> option bool -> bool)
    (h : list (option bool)) : nat :=
  match h with
  | a :: (b :: _) as rest => (if p a b then 1 else 0) + count_adjacent p rest
  | _ => 0
  end.

Definition rises := count_adjacent rise.




End Lifecycle.

(* ------------------------------------------------------------------ *)
(** ** Concrete surroundings used in the examples                      *)
(* ------------------------------------------------------------------ *)

Module Sample.

Import userRepositories.

Definition secret : string := "s3cret".

Definition admin_claims : Js.value :=
  Js.object [("sub", Js.number 1); ("role", Js.str "admin"); ("exp", Js.number 2000)].

Definition user_claims : Js.value :=
  Js.object [("sub", Js.number 2); ("role", Js.str "user"); ("exp", Js.number 2000)].

(** Serializations the sample reader knows: two good tokens, one that
    expired at 500, one signed with another key, one without a role, one
    whose payload is a string. *)
Definition wire : list (string * Jwt.token) :=
  [("good", Jwt.mkToken admin_claims secret);
   ("usertoken", Jwt.mkToken user_claims secret);
   ("old", Jwt.mkToken
             (Js.object [("sub", Js.number 1); ("role", Js.str "admin");
                         ("exp", Js.number 500)]) secret);
   ("forged", Jwt.mkToken admin_claims "other");
   ("norole", Jwt.mkToken (Js.object [("sub", Js.number 3)]) secret);
   ("text", Jwt.mkToken (Js.str "hello") secret)].

(** The guard at clock 1000 with the secret set and a [next] that returns. *)
Definition guard : Guard.env :=
  Jwt.guard_env (Jwt.lookup wire) 1000 (Some secret) None.

(** The same with [JWT_SECRET] missing from the environment. *)
Definition guard_no_secret : Guard.env :=
  Jwt.guard_env (Jwt.lookup wire) 1000 None None.

Definition accepting_transport (m : mailer.mail) : outcome mailer.mailRes :=
  Returned (mailer.mkMailRes [mailer.to m] []).

(** The service at clock 1000 s; [bcrypt] is stood for by a tag in front of
    the plain text; the draw gives the code 482913. *)
Definition service (s : option string) : userService.env Jwt.token :=
  userService.mkEnv Jwt.token s
    (Jwt.sign 1000)
    (fun pw => "hash:" ++ pw)
    (fun pw h => String.eqb ("hash:" ++ pw) h)
    1000000
    (382913 # 900000)
    accepting_transport
    (fun name code => name ++ ": " ++ code)
    (fun name => name ++ ": verified").

Definition alice : User :=
  mkUser 1 "Alice" "Mwangi" "a@x.com" "0711000001" "hash:password123" "admin"
         None false.

Definition alice_pending : User :=
  mkUser 1 "Alice" "Mwangi" "a@x.com" "0711000001" "hash:password123" "admin"
         (Some "482913") false.

Definition world_of (u : User) : userService.world :=
  userService.mkWorld (mkTable [u] 2) [].

Definition empty_world : userService.world :=
  userService.mkWorld (mkTable [] 1) [].

Definition brian : NewUser :=
  mkNewUser "Brian" "Kemboi" "b@x.com" "0711000002" "password123".

(** A login whose body lacks a string: the case of a missing password,
    which [bcrypt.compare] refuses. *)
Definition login_without_strings (email password : Js.value)
  : Eff.t userService.world (userService.LoginResult Jwt.token) :=
  Eff.throw (Js.Error "data and hash arguments required").

End Sample.

(* ------------------------------------------------------------------ *)
(** ** What the guard decides, as one expression                       *)
(* ------------------------------------------------------------------ *)

Module Verdict.

Import Guard.

Definition token_of (header : option string) : option string :=
  match header with
  | Some h => Js.index (Js.split h " "%char) 1
  | None => None
  end.

Definition rejected_header (header : option string) : bool :=
  Js.falsy header
  || negb (match header with
           | Some h => Js.startsWith h "Bearer "
           | None => false
           end).

Definition has_role (d : Js.value) : bool :=
  Js.typeof_object d && Js.not_null d && Js.has_property "role" d.

Definition accepts (r : RequiredRole) (d : Js.value) : bool :=
  match r with
  | both =>
      Js.strict_eq_str (Js.get d "role") "admin"
      || Js.strict_eq_str (Js.get d "role") "user"
  | _ => Js.strict_eq_str (Js.get d "role") (role_name r)
  end.

Definition deny (m : string) : event := json_sent 401 (message m).

(** The payload attached to the request, if any, and the events added. *)
Definition verdict (E : env) (r : RequiredRole) (header : option string)
  : option Js.value * list event :=
  if rejected_header header then (None, [deny "Unauthorized"])
  else
    match jwt_verify E (token_of header) (JWT_SECRET E) with
    | Thrown _ => (None, [deny "Invalid Token"])
    | Returned d =>
        (Some d,
         if has_role d then
           if accepts r d then
             next_called :: match next_throws E with
                            | None => []
                            | Some _ => [deny "Invalid Token"]
                            end
           else [deny "Unauthorized"]
         else [deny "Invalid Token Payload"])
    end.

End Verdict.

(* ------------------------------------------------------------------ *)
(** ** More of JavaScript: truthiness and a few string methods         *)
(* ------------------------------------------------------------------ *)

Module JsText.

(** [!!v] *)
Definition truthy (v : Js.value) : bool :=
  match v with
  | Js.undefined | Js.null => false
  | Js.boolean b => b
  | Js.number z => negb (z =? 0)%Z
  | Js.str s => negb (String.eqb s "")
  | Js.array _ | Js.object _ => true
  end.

Definition is_upper (c : ascii) : bool :=
  (nat_of_ascii "A" <=? nat_of_ascii c)%nat && (nat_of_ascii c <=? nat_of_ascii "Z")%nat.

Definition lower_char (c : ascii) : ascii :=
  if is_upper c then ascii_of_nat (nat_of_ascii c + 32) else c.

(** [s.toLowerCase()].  JavaScript lowers every cased character; this is
    the method on ASCII text, which is all the properties below speak of. *)
Fixpoint toLowerCase (s : string) : string :=
  match s with
  | EmptyString => EmptyString
  | String c rest => String (lower_char c) (toLowerCase rest)
  end.

(** Some character is one of A to Z. *)
Fixpoint has_upper (s : string) : bool :=
  match s with
  | EmptyString => false
  | String c rest => is_upper c || has_upper rest
  end.

(** Every character is below 128. *)
Fixpoint ascii_only (s : string) : bool :=
  match s with
  | EmptyString => true
  | String c rest => (nat_of_ascii c <? 128)%nat && ascii_only rest
  end.

(** [s.split("")]: one string per character *)
Fixpoint chars (s : string) : list string :=
  match s with
  | EmptyString => []
  | String c rest => String c EmptyString :: chars rest
  end.

(** [xs.join("")] *)
Definition join (xs : list string) : string := String.concat "" xs.

End JsText.

(* ------------------------------------------------------------------ *)
(** ** The first guard (4.Authorization/src/middleware/bearAuth.ts)    *)
(* ------------------------------------------------------------------ *)

Module Authorization.

Import Guard.

Definition isAuthenticated (E : env) : Eff.t exchange unit :=
  (authHeader <- Eff.read authorization ;;
   if Js.falsy authHeader
      || negb (match authHeader with
               | Some h => Js.startsWith h "Bearer "
               | None => false
               end)
   then res_status_json 401 (message "Unauthorized")
   else
     let token :=
       match authHeader with
       | Some h => Js.index (Js.split h " "%char) 1
       | None => None
       end in
     if Js.falsy token
     then res_status_json 401 (message "Unauthorized")
     else
       Eff.try_catch
         (decode <- verify E token ;;
          set_req_user decode ;;;
          next E)
         (fun _ => res_status_json 401 (message "Unauthorized")))%eff.

(** Everything [isAuthenticated] did for a header on a fresh request. *)
Definition handle (E : env) (header : option string)
  : outcome unit * option Js.value * list event :=
  let '(r, x) := isAuthenticated E (incoming header) in
  (r, req_user x, events x).

End Authorization.

(* ------------------------------------------------------------------ *)
(** ** Controllers: a store and the responses sent                     *)
(* ------------------------------------------------------------------ *)

Module Http.

(** What a controller works on: the state behind the services and the
    responses written so far. *)
Record served (S : Type) : Type := mkServed {
  store : S;
  replies : list Guard.event
}.
Arguments mkServed {S} _ _.
Arguments store {S} _.
Arguments replies {S} _.

(** A service call made from a controller. *)
Definition on_store {S A : Type} (c : Eff.t S A) : Eff.t (served S) A :=
  fun x =>
    let '(r, s) := c (store x) in
    (r, mkServed s (replies x)).

(** [res.status(code).json(body)] *)
Definition res_status_json {S : Type} (code : Z) (body : Js.value)
  : Eff.t (served S) unit :=
  Eff.modify (fun x => mkServed (store x) (replies x ++ [Guard.json_sent code body])).

(** [{ error: m }] *)
Definition error_body (m : string) : Js.value := Js.object [("error", Js.str m)].

(** A request arriving at a controller. *)
Definition arriving {S : Type} (s : S) : served S := mkServed s [].

End Http.

(* ------------------------------------------------------------------ *)
(** ** Todos: service (todo.service.ts) and controllers                *)
(* ------------------------------------------------------------------ *)

Module todoServices.

(** The repository behind the service is not part of what is modelled; its
    functions are taken as they come.  A lookup gives the row or
    [undefined]. *)
Record repository (S : Type) : Type := mkRepository {
  getAllTodos : Eff.t S Js.value;
  getTodoById : Z -> Eff.t S Js.value;
  repo_createTodo : Js.value -> Eff.t S Js.value;
  deleteTodo : Z -> Eff.t S Js.value;
  repo_updateTodo : Z -> Js.value -> Eff.t S Js.value
}.
Arguments getAllTodos {S} _.
Arguments getTodoById {S} _ _.
Arguments repo_createTodo {S} _ _.
Arguments deleteTodo {S} _ _.
Arguments repo_updateTodo {S} _ _ _.

Definition listTodos {S : Type} (R : repository S) : Eff.t S Js.value :=
  getAllTodos R.

(** The id is a number: [None] is [NaN]. *)
Definition getTodo {S : Type} (R : repository S) (id : option Z) : Eff.t S Js.value :=
  match id with
  | None => Eff.throw (Js.Error "Inavlid todoid")
  | Some n =>
      (existingtodo <- getTodoById R n ;;
       if negb (JsText.truthy existingtodo)
       then Eff.throw (Js.Error "Todo not found")
       else Eff.ret existingtodo)%eff
  end.

Definition createTodo {S : Type} (R : repository S) (todo : Js.value)
  : Eff.t S Js.value :=
  repo_createTodo R todo.

Definition deletTodo {S : Type} (R : repository S) (id : option Z) : Eff.t S Js.value :=
  match id with
  | None => Eff.throw (Js.Error "Inavlid todoid")
  | Some n =>
      (existingtodo <- getTodoById R n ;;
       if negb (JsText.truthy existingtodo)
       then Eff.throw (Js.Error "Todo not found")
       else deleteTodo R n)%eff
  end.

Definition updateTodo {S : Type} (R : repository S) (id : option Z) (todo : Js.value)
  : Eff.t S Js.value :=
  match id with
  | None => Eff.throw (Js.Error "Inavlid todoid")
  | Some n =>
      (existingtodo <- getTodoById R n ;;
       if negb (JsText.truthy existingtodo)
       then Eff.throw (Js.Error "Todo not found")
       else repo_updateTodo R n todo)%eff
  end.

End todoServices.

Module todoController.

Import Http.

(** The [catch] block shared by the three controllers that take an id. *)
Definition by_message {S : Type} (error : Js.error) : Eff.t (served S) unit :=
  if String.eqb (Js.err_message error) "Inavlid todoid"
  then res_status_json 400 (Js.message "Inavlid todoid")
  else if String.eqb (Js.err_message error) "Todo not found"
  then res_status_json 404 (Js.message "Todo not found")
  else res_status_json 500 (error_body "Internal server error").

Definition getTodos {S : Type} (R : todoServices.repository S) : Eff.t (served S) unit :=
  Eff.try_catch
    (todos <- on_store (todoServices.listTodos R) ;;
     res_status_json 200 todos)%eff
    (fun error => res_status_json 500 (error_body (Js.err_message error))).

(** [id] is what [parseInt(req.params.id)] gave. *)
Definition getTodoById {S : Type} (R : todoServices.repository S) (id : option Z)
  : Eff.t (served S) unit :=
  Eff.try_catch
    (todo <- on_store (todoServices.getTodo R id) ;;
     res_status_json 200 todo)%eff
    by_message.

Definition createTodo {S : Type} (R : todoServices.repository S) (todo : Js.value)
  : Eff.t (served S) unit :=
  Eff.try_catch
    (result <- on_store (todoServices.createTodo R todo) ;;
     res_status_json 201 result)%eff
    (fun error => res_status_json 500 (error_body (Js.err_message error))).

Definition updateTodo {S : Type} (R : todoServices.repository S) (id : option Z)
    (todo : Js.value) : Eff.t (served S) unit :=
  Eff.try_catch
    (result <- on_store (todoServices.updateTodo R id todo) ;;
     res_status_json 200 result)%eff
    by_message.

Definition deleteTodo {S : Type} (R : todoServices.repository S) (id : option Z)
  : Eff.t (served S) unit :=
  Eff.try_catch
    (result <- on_store (todoServices.deletTodo R id) ;;
     res_status_json 204 result)%eff
    by_message.

End todoController.

(* ------------------------------------------------------------------ *)
(** ** User service of the Auth lessons and the user controllers       *)
(* ------------------------------------------------------------------ *)

Module authService.

Import userRepositories userService.

(** [createUser] of the Authentication and Auth-Roles lessons: hash, then
    insert (the [console.log] of the hash is left out). *)
Definition createUser {Token : Type} (E : env Token) (user : NewUser)
  : Eff.t world Js.value :=
  let user := hash_password E user in
  on_table (userRepositories.createUser user).

(** The surroundings with another mail transport. *)
Definition with_transport {Token : Type} (E : env Token)
    (tr : mailer.mail -> outcome mailer.mailRes) : env Token :=
  mkEnv Token (JWT_SECRET E) (jwt_sign E) (bcrypt_hash E) (bcrypt_compare E)
        (Date_now E) (Math_random E) tr (template_verify E)
        (template_verifiedSuccess E).

End authService.

Module userController.

Import Http userService.

(** The answer to a body without an email or a code. *)
Definition fields_required : Guard.event :=
  Guard.json_sent 400 (Js.message "Email and verification code are required").

(** [verifyUser] of the Sending-Mails lesson.  [email] and [code] are the
    members of [req.body], [None] when a member is missing. *)
Definition verifyUser {Token : Type} (E : env Token) (email code : option string)
  : Eff.t (served world) unit :=
  Eff.try_catch
    (if Js.falsy email || Js.falsy code
     then res_status_json 400 (Js.message "Email and verification code are required")
     else
       match email, code with
       | Some email, Some code =>
           (result <- on_store (userService.verifyUser E email code) ;;
            res_status_json 200 result)%eff
       | _, _ =>
           res_status_json 400 (Js.message "Email and verification code are required")
       end)
    (fun error => res_status_json 400 (Js.message (Js.err_message error))).

(** [{ message, token, user }] as it goes out; [text] is the token as the
    string it is in JavaScript. *)
Definition login_body {Token : Type} (text : Token -> string) (r : LoginResult Token)
  : Js.value :=
  Js.object
    [("message", Js.str (login_message r));
     ("token", Js.str (text (token r)));
     ("user", user r)].

(** [userServices.loginUser(email, password)] as the controller calls it.
    The members of [req.body] go to the service unchecked.  For two
    strings the call is the service above.  For anything else (a missing
    member is [undefined]) what happens is up to the database driver and
    to [bcrypt.compare], which refuses a missing password with an error
    of its own; [untyped] stands for that outcome, whatever it is. *)
Definition loginUser_call {Token : Type} (E : env Token)
    (untyped : Js.value -> Js.value -> Eff.t world (LoginResult Token))
    (email password : Js.value) : Eff.t world (LoginResult Token) :=
  match email, password with
  | Js.str email, Js.str password => userService.loginUser E email password
  | _, _ => untyped email password
  end.

(** [loginUser] of the Authentication lesson.  [email] and [password] are
    the members of [req.body], of any kind. *)
Definition loginUser {Token : Type} (E : env Token)
    (untyped : Js.value -> Js.value -> Eff.t world (LoginResult Token))
    (text : Token -> string) (email password : Js.value)
  : Eff.t (served world) unit :=
  Eff.try_catch
    (result <- on_store (loginUser_call E untyped email password) ;;
     res_status_json 200 (login_body text result))%eff
    (fun error =>
       if String.eqb (Js.err_message error) "User not found"
       then res_status_json 404 (error_body (Js.err_message error))
       else if String.eqb (Js.err_message error) "Invalid credentials"
       then res_status_json 401 (error_body (Js.err_message error))
       else res_status_json 500 (error_body (Js.err_message error))).

End userController.

(* ------------------------------------------------------------------ *)
(** ** Logger and rate limiter (logger.ts, rateLimiter.ts, index.ts)   *)
(* ------------------------------------------------------------------ *)

Module RateLimiterMemory.

(** rate-limiter-flexible is not part of the guide.  This instance follows
    its memory limiter: per key, the points consumed and the time (ms) the
    count expires; a first or expired key starts a window of [duration]
    seconds; a count above [points] is a rejection, and still counted. *)
Definition storage : Type := list (string * (Z * Z)).

Fixpoint lookup (st : storage) (key : string) : option (Z * Z) :=
  match st with
  | [] => None
  | (k, v) :: rest => if String.eqb k key then Some v else lookup rest key
  end.

Fixpoint set (st : storage) (key : string) (v : Z * Z) : storage :=
  match st with
  | [] => [(key, v)]
  | (k, old) :: rest =>
      if String.eqb k key then (k, v) :: rest else (k, old) :: set rest key v
  end.

(** [incrby(key, 1, duration)] at clock [now]: the new record. *)
Definition incrby (st : storage) (now : Z) (key : string) (duration : Z) : Z * Z :=
  match lookup st key with
  | Some (consumed, expiresAt) =>
      if (now <? expiresAt)%Z then (consumed + 1, expiresAt)%Z
      else (1, now + duration * 1000)%Z
  | None => (1, now + duration * 1000)%Z
  end.

Definition rejected : Js.error := Js.mkError "RateLimiterRes" "".

(** [limiter.consume(key)] at clock [now] *)
Definition consume (points duration : Z) (now : Z) (key : string)
  : Eff.t storage unit :=
  fun st =>
    let r := incrby st now key duration in
    ((if (points <? fst r)%Z then Thrown rejected else Returned tt),
     set st key r).

End RateLimiterMemory.

Module middleware.

(** The request as the two middlewares read it. *)
Record request : Type := mkRequest {
  ip : option string;
  method : string;
  url : string
}.

(** What they work on: the limiter's state, the console and the responses. *)
Record served (L : Type) : Type := mkServed {
  limiter : L;
  console : list string;
  replies : list Guard.event
}.
Arguments mkServed {L} _ _ _.
Arguments limiter {L} _.
Arguments console {L} _.
Arguments replies {L} _.

(** [console.log(line)] *)
Definition console_log {L : Type} (line : string) : Eff.t (served L) unit :=
  Eff.modify (fun x => mkServed (limiter x) (console x ++ [line]) (replies x)).

Definition res_status_json {L : Type} (code : Z) (body : Js.value)
  : Eff.t (served L) unit :=
  Eff.modify
    (fun x => mkServed (limiter x) (console x) (replies x ++ [Guard.json_sent code body])).

Definition on_limiter {L A : Type} (c : Eff.t L A) : Eff.t (served L) A :=
  fun x =>
    let '(r, l) := c (limiter x) in
    (r, mkServed l (console x) (replies x)).

(** [`${req.ip}`] *)
Definition ip_text (r : request) : string :=
  match ip r with
  | Some a => a
  | None => "undefined"
  end.

(** [req.ip || 'unknown'] *)
Definition limiter_key (r : request) : string :=
  match ip r with
  | Some a => if String.eqb a "" then "unknown" else a
  | None => "unknown"
  end.

(** [points: 10], [duration: 60] *)
Definition points : Z := 10.
Definition duration : Z := 60.

(** [rateLimiterMiddleware]; [consume] is [rateLimiter.consume] and [next]
    is what the rest of the chain does. *)
Definition rateLimiterMiddleware {L : Type} (consume : string -> Eff.t L unit)
    (req : request) (next : Eff.t (served L) unit) : Eff.t (served L) unit :=
  Eff.try_catch
    (on_limiter (consume (limiter_key req)) ;;;
     console_log ("Rate limit check passed for IP: " ++ ip_text req) ;;;
     next)%eff
    (fun _ =>
       (console_log ("Rate limit exceeded for IP: " ++ ip_text req) ;;;
        res_status_json 429 (Js.message "Too Many Requests, please try again later"))%eff).

(** [logger]; [now] is [new Date().toISOString()]. *)
Definition logger {L : Type} (now : string) (req : request)
    (next : Eff.t (served L) unit) : Eff.t (served L) unit :=
  (console_log (method req ++ " " ++ url req ++ " - " ++ now) ;;;
   next)%eff.

(** The chain [initializeApp] sets up: limiter, logger, then the routes. *)
Definition app {L : Type} (consume : string -> Eff.t L unit) (now : string)
    (routes : request -> Eff.t (served L) unit) (req : request)
  : Eff.t (served L) unit :=
  rateLimiterMiddleware consume req (logger now req (routes req)).

(** The limiter of the guide at clock [clock] (ms). *)
Definition rateLimiter (clock : Z) : string -> Eff.t RateLimiterMemory.storage unit :=
  RateLimiterMemory.consume points duration clock.

(** Requests of one client through the limiter alone, each at its own
    clock; the answer says whether the request went on. *)
Fixpoint arrivals (req : request) (clocks : list Z) (st : RateLimiterMemory.storage)
  : list bool :=
  match clocks with
  | [] => []
  | c :: rest =>
      let '(r, st') := rateLimiter c (limiter_key req) st in
      (match r with Returned _ => true | Thrown _ => false end)
      :: arrivals req rest st'
  end.

(** Whether [rateLimiterMiddleware] lets a request that arrives at [clock]
    go on to [next], that is, sends no 429; and the limiter's state
    afterwards. *)
Definition admitted (clock : Z) (req : request) (st : RateLimiterMemory.storage)
  : bool * RateLimiterMemory.storage :=
  let '(_, x) :=
    rateLimiterMiddleware (rateLimiter clock) req (Eff.ret tt) (mkServed st [] []) in
  (match replies x with [] => true | _ :: _ => false end, limiter x).

(** Requests of any clients in the order they arrive, each with its clock,
    through the middleware: per request, the key it is counted under and
    whether it went on. *)
Fixpoint traffic (reqs : list (request * Z)) (st : RateLimiterMemory.storage)
  : list (string * bool) :=
  match reqs with
  | [] => []
  | (req, clock) :: rest =>
      let '(ok, st') := admitted clock req st in
      (limiter_key req, ok) :: traffic rest st'
  end.

(** The answers given to the requests counted under [key], in order. *)
Definition answers_to (key : string) (log : list (string * bool)) : list bool :=
  map snd (filter (fun a => String.eqb (fst a) key) log).

(** The clocks of the requests counted under [key], in order. *)
Definition clocks_of (key : string) (reqs : list (request * Z)) : list Z :=
  map snd (filter (fun r => String.eqb (limiter_key (fst r)) key) reqs).

End middleware.

(* ------------------------------------------------------------------ *)
(** ** BasicUtils.ts of the unit-testing lesson                        *)
(* ------------------------------------------------------------------ *)

Module BasicUtils.

Record UserDetails : Type := mkUserDetails { name : string; details_role : string }.

Record IAuthData : Type := mkAuthData {
  usernameToLower : string;
  usernameCharacters : list string;
  userDetails : UserDetails;
  isAuthenticated : bool
}.

Definition authenticateUser (username password : string) : IAuthData :=
  let authStatus := String.eqb username "deveLOPER" && String.eqb password "dev" in
  mkAuthData (JsText.toLowerCase username) (JsText.chars username)
             (mkUserDetails "Developer" "admin") authStatus.

Definition UserNameToLowerCase (username : string) : outcome string :=
  if String.eqb username ""
  then Thrown (Js.Error "Username cannot be empty")
  else Returned (JsText.toLowerCase username).

End BasicUtils.

(* ------------------------------------------------------------------ *)
(** ** Todo routes of the Auth-Roles lesson (router/todo.routes.ts)    *)
(* ------------------------------------------------------------------ *)

Module todoRoutes.

Import Http.

(** The routes that go through the service; [id] is what [parseInt] made
    of the path parameter and [todo] is [req.body]. *)
Inductive route : Type :=
| get_todos
| get_todo_by_id (id : option Z)
| post_todos (todo : Js.value)
| put_todo (id : option Z) (todo : Js.value)
| delete_todo (id : option Z).

(** The middleware registered in front of the controller, if any:
    [adminUser], none, [adminOnly], [adminUser], [adminOnly]. *)
Definition guard_of (r : route) : option Guard.RequiredRole :=
  match r with
  | get_todos => Some Guard.both
  | get_todo_by_id _ => None
  | post_todos _ => Some Guard.admin
  | put_todo _ _ => Some Guard.both
  | delete_todo _ => Some Guard.admin
  end.

Definition controller_of {S : Type} (R : todoServices.repository S) (r : route)
  : Eff.t (served S) unit :=
  match r with
  | get_todos => todoController.getTodos R
  | get_todo_by_id id => todoController.getTodoById R id
  | post_todos todo => todoController.createTodo R todo
  | put_todo id todo => todoController.updateTodo R id todo
  | delete_todo id => todoController.deleteTodo R id
  end.

(** One request through a route: the guard first; the controller runs when
    the guard calls [next], otherwise the guard's response stands.  The
    guard's [next] is the controller, an async function, whose call
    returns. *)
Definition serve {S : Type} (E : Guard.env) (R : todoServices.repository S)
    (header : option string) (r : route) : Eff.t (served S) unit :=
  match guard_of r with
  | None => controller_of R r
  | Some required =>
      fun x =>
        let '(_, _, evs) :=
          Guard.handle (Guard.mkEnv (Guard.JWT_SECRET E) (Guard.jwt_verify E) None)
                       required header in
        if Guard.proceeds evs then controller_of R r x
        else (Returned tt, mkServed (store x) (replies x ++ evs))
  end.

End todoRoutes.

(* ------------------------------------------------------------------ *)
(** ** The Authentication lesson's login and the first user controllers *)
(* ------------------------------------------------------------------ *)

Module authentication.

Import userRepositories userService.

(** The payload the first [loginUser] signs: no [role] yet. *)
Definition login_payload (now : Z) (u : User) : Js.value :=
  Js.object
    [("sub", Js.number (userid u));
     ("first_name", Js.str (first_name u));
     ("last_name", Js.str (last_name u));
     ("exp", Js.number (now / 1000 + 60 * 60))].

(** [loginUser(email, password)] of the Authentication lesson *)
Definition loginUser {Token : Type} (E : env Token) (e : string) (pw : string)
  : Eff.t world (LoginResult Token) :=
  (user <- on_table (getUserByEmail e) ;;
   match user with
   | None => Eff.throw (Js.Error "User not found")
   | Some user =>
       let isMatch := bcrypt_compare E pw (password user) in
       if negb isMatch then Eff.throw (Js.Error "Invalid credentials")
       else
         let payload := login_payload (Date_now E) user in
         let secret := JWT_SECRET E in
         if Js.falsy secret then Eff.throw (Js.Error "JWT secret not defined")
         else
           match secret with
           | None => Eff.throw (Js.Error "JWT secret not defined")
           | Some secret =>
               let token := jwt_sign E payload secret in
               Eff.ret
                 (mkLoginResult "Login successful" token
                    (Js.object
                       [("userid", Js.number (userid user));
                        ("first_name", Js.str (first_name user));
                        ("last_name", Js.str (last_name user));
                        ("email", Js.str (email user));
                        ("phone_number", Js.str (phone_number user))]))
           end
   end)%eff.

End authentication.

Module userCrud.

Import Http.

(** The user service as the first user controllers see it; an id is a
    number, [None] for [NaN], and a lookup gives the row or [undefined]. *)
Record services (S : Type) : Type := mkServices {
  listUsers : Eff.t S Js.value;
  getUser : option Z -> Eff.t S Js.value;
  createUser : Js.value -> Eff.t S Js.value;
  updateUser : option Z -> Js.value -> Eff.t S Js.value;
  deleteUser : option Z -> Eff.t S Js.value
}.
Arguments listUsers {S} _.
Arguments getUser {S} _ _.
Arguments createUser {S} _ _.
Arguments updateUser {S} _ _ _.
Arguments deleteUser {S} _ _.

(** [getUserById] of the controller; [id] is [parseInt(req.params.id)]. *)
Definition getUserById_controller {S : Type} (V : services S) (id : option Z)
  : Eff.t (served S) unit :=
  Eff.try_catch
    (user <- on_store (getUser V id) ;;
     if JsText.truthy user
     then res_status_json 200 user
     else res_status_json 404 (Js.message "User not found"))%eff
    (fun error => res_status_json 500 (error_body (Js.err_message error))).

(** [updateUser] of the controller: the two checks come before the [try]. *)
Definition updateUser_controller {S : Type} (V : services S) (id : option Z)
    (user : Js.value) : Eff.t (served S) unit :=
  match id with
  | None => res_status_json 400 (Js.message "Invalid user id")
  | Some _ =>
      (existingUser <- on_store (getUser V id) ;;
       if negb (JsText.truthy existingUser)
       then res_status_json 404 (Js.message "User not found")
       else
         Eff.try_catch
           (result <- on_store (updateUser V id user) ;;
            res_status_json 200 result)
           (fun error => res_status_json 500 (error_body (Js.err_message error))))%eff
  end.

(** [deleteUser] of the controller, built the same way. *)
Definition deleteUser_controller {S : Type} (V : services S) (id : option Z)
  : Eff.t (served S) unit :=
  match id with
  | None => res_status_json 400 (Js.message "Invalid user id")
  | Some _ =>
      (user <- on_store (getUser V id) ;;
       if negb (JsText.truthy user)
       then res_status_json 404 (Js.message "User not found")
       else
         Eff.try_catch
           (result <- on_store (deleteUser V id) ;;
            res_status_json 200 result)
           (fun error => res_status_json 500 (error_body (Js.err_message error))))%eff
  end.

End userCrud.

(* ================================================================== *)
(** * Properties                                                       *)
(* ================================================================== *)

(** ** The guard *)

Section GuardFacts.

Import Guard Verdict.

Lemma checkRoles_run (E : env) (r : RequiredRole) (x : exchange) :
  checkRoles E r x =
  (Returned tt,
   mkExchange (authorization x)
     (match fst (verdict E r (authorization x)) with
      | Some d => Some d
      | None => req_user x
      end)
     (events x ++ snd (verdict E r (authorization x)))).
Proof.
  destruct x as [hdr usr evs].
  unfold checkRoles, verdict, Eff.bind, Eff.read, Eff.try_catch, verify. cbn [authorization req_user events].
  fold (rejected_header hdr). fold (token_of hdr).
  destruct (rejected_header hdr); [reflexivity|].
  destruct (jwt_verify E (token_of hdr) (JWT_SECRET E)) as [d|e]; [|reflexivity].
  cbn. fold (has_role d).
  destruct (has_role d); [|reflexivity].
  unfold accepts, next, Eff.bind, emit, Eff.modify.
  destruct r; cbn;
    match goal with |- context [if ?c then _ else _] => destruct c end;
    try reflexivity;
    destruct (next_throws E); cbn;
    unfold res_status_json, emit, Eff.modify; cbn;
    rewrite <- ?app_assoc; reflexivity.
Qed.

Lemma handle_verdict (E : env) (r : RequiredRole) (header : option string) :
  handle E r header =
  (Returned tt, fst (verdict E r header), snd (verdict E r header)).
Proof.
  unfold handle. rewrite checkRoles_run. cbn.
  destruct (fst (verdict E r header)); reflexivity.
Qed.

(** Whatever [jwt.verify] throws, the caller sees the same answer. *)
Lemma handle_verify_throws (E : env) (r : RequiredRole) (h : string) (e : Js.error) :
  Js.startsWith h "Bearer " = true ->
  jwt_verify E (token_of (Some h)) (JWT_SECRET E) = Thrown e ->
  handle E r (Some h) = (Returned tt, None, [deny "Invalid Token"]).
Proof.
  intros Hp Hv. rewrite handle_verdict. unfold verdict, rejected_header.
  assert (Hf : Js.falsy (Some h) = false).
  { destruct h; [discriminate Hp | reflexivity]. }
  rewrite Hf, Hp, Hv. reflexivity.
Qed.

Lemma handle_verify_returns (E : env) (r : RequiredRole) (h : string) (d : Js.value) :
  Js.startsWith h "Bearer " = true ->
  jwt_verify E (token_of (Some h)) (JWT_SECRET E) = Returned d ->
  handle E r (Some h) = (Returned tt, fst (verdict E r (Some h)), snd (verdict E r (Some h)))
  /\ verdict E r (Some h) =
     (Some d,
      if has_role d then
        if accepts r d then
          next_called :: match next_throws E with
                         | None => []
                         | Some _ => [deny "Invalid Token"]
                         end
        else [deny "Unauthorized"]
      else [deny "Invalid Token Payload"]).
Proof.
  intros Hp Hv. split; [apply handle_verdict|].
  unfold verdict, rejected_header.
  assert (Hf : Js.falsy (Some h) = false).
  { destruct h; [discriminate Hp | reflexivity]. }
  rewrite Hf, Hp, Hv. reflexivity.
Qed.

Lemma strict_eq_str_iff (v : Js.value) (s : string) :
  Js.strict_eq_str v s = true <-> v = Js.str s.
Proof.
  destruct v; cbn; split; intro H; try discriminate.
  - apply String.eqb_eq in H. now subst.
  - injection H as ->. apply String.eqb_refl.
Qed.

Lemma accepts_iff (r : RequiredRole) (d : Js.value) :
  accepts r d = true <->
  match r with
  | both => Js.get d "role" = Js.str "admin" \/ Js.get d "role" = Js.str "user"
  | _ => Js.get d "role" = Js.str (role_name r)
  end.
Proof.
  destruct r; unfold accepts; cbn [role_name];
    rewrite ?orb_true_iff, !strict_eq_str_iff; reflexivity.
Qed.

Lemma split_without_separator (s : string) (c : ascii) :
  Js.includes s c = false -> Js.split s c = [s].
Proof.
  induction s as [|a s IH]; cbn; [reflexivity|].
  intros H. apply orb_false_iff in H as [Ha Hs].
  rewrite Ha, (IH Hs). reflexivity.
Qed.

Lemma split_at_first_separator (a b : string) (c : ascii) :
  Js.includes a c = false ->
  Js.split (a ++ String c b) c = a :: Js.split b c.
Proof.
  induction a as [|x a IH]; cbn.
  - intros _. now rewrite Ascii.eqb_refl.
  - intros H. apply orb_false_iff in H as [Hx Ha].
    rewrite Hx, (IH Ha). reflexivity.
Qed.

Example split_bearer : Js.split "Bearer abc.def.ghi" " "%char = ["Bearer"; "abc.def.ghi"].
Proof. reflexivity. Qed.

Example split_two_spaces : Js.split "Bearer  abc" " "%char = ["Bearer"; ""; "abc"].
Proof. reflexivity. Qed.

Example split_scheme_only : Js.split "Bearer " " "%char = ["Bearer"; ""].
Proof. reflexivity. Qed.

Example lower_case_scheme : rejected_header (Some "bearer abc") = true.
Proof. reflexivity. Qed.

Lemma rejected_header_bearer (rest : string) :
  rejected_header (Some ("Bearer " ++ rest)) = false.
Proof. destruct rest; reflexivity. Qed.

Lemma token_of_bearer (tok : string) :
  Js.includes tok " "%char = false ->
  token_of (Some ("Bearer " ++ tok)) = Some tok.
Proof.
  intros H. unfold token_of.
  change ("Bearer " ++ tok) with ("Bearer" ++ String " "%char tok).
  rewrite split_at_first_separator by reflexivity.
  rewrite (split_without_separator _ _ H). reflexivity.
Qed.

Lemma token_of_bearer_more (tok rest : string) :
  Js.includes tok " "%char = false ->
  token_of (Some ("Bearer " ++ tok ++ " " ++ rest)) = Some tok.
Proof.
  intros H. unfold token_of.
  change ("Bearer " ++ tok ++ " " ++ rest)
    with ("Bearer" ++ String " "%char (tok ++ String " "%char rest)).
  rewrite split_at_first_separator by reflexivity.
  rewrite (split_at_first_separator _ _ _ H). reflexivity.
Qed.

(** The symbolic [jwt.verify] throws on a token that has expired, whatever
    key signed it. *)
Lemma verify_expired_throws (parse : string -> option Jwt.token) (now exp : Z)
    (tok : option string) (s : string) (t : Jwt.token) (secret : option string) :
  tok = Some s ->
  parse s = Some t ->
  Js.get (Jwt.payload t) "exp" = Js.number exp ->
  (exp <= now)%Z ->
  exists e, Jwt.verify parse now tok secret = Thrown e.
Proof.
  intros -> Hp He Hle. unfold Jwt.verify.
  destruct (Js.falsy (Some s)); [eexists; reflexivity|].
  rewrite Hp.
  destruct (Js.falsy secret); [eexists; reflexivity|].
  destruct (negb _); [eexists; reflexivity|].
  rewrite He. apply Z.leb_le in Hle. rewrite Hle. eexists; reflexivity.
Qed.

(** It throws as well on a token signed with another key. *)
Lemma verify_forged_throws (parse : string -> option Jwt.token) (now : Z)
    (tok : option string) (s : string) (t : Jwt.token) (secret : option string) :
  tok = Some s ->
  parse s = Some t ->
  secret <> Some (Jwt.key t) ->
  exists e, Jwt.verify parse now tok secret = Thrown e.
Proof.
  intros -> Hp Hk. unfold Jwt.verify.
  destruct (Js.falsy (Some s)); [eexists; reflexivity|].
  rewrite Hp.
  destruct (Js.falsy secret); [eexists; reflexivity|].
  destruct secret as [k|]; cbn; [|eexists; reflexivity].
  destruct (String.eqb_spec k (Jwt.key t)) as [->|Hne]; [now elim Hk|].
  eexists; reflexivity.
Qed.

End GuardFacts.

Section GuardClaims.

Import Guard Verdict.

(** C2. For every request, every required role and every behaviour of
    [jwt.verify], [checkRoles] returns normally: no exception escapes, not
    even one thrown by the verification call.  When [next] returns, as
    Express has it, the middleware adds exactly one event to the exchange,
    and that event is either the call of [next] or a 401 response. *)
Theorem checkRoles_single_outcome (E : env) (r : RequiredRole) (x : exchange) :
  fst (checkRoles E r x) = Returned tt /\
  (next_throws E = None ->
   exists ev,
     events (snd (checkRoles E r x)) = (events x ++ [ev])%list /\
     (ev = next_called \/ exists m, ev = json_sent 401 (message m))).
Proof.
  rewrite checkRoles_run. cbn [fst snd events]. split; [reflexivity|].
  intros Hn. unfold verdict.
  destruct (rejected_header (authorization x)).
  { eexists; split; [reflexivity|]. right. eexists. reflexivity. }
  destruct (jwt_verify E _ _) as [d|e]; cbn [snd].
  - destruct (has_role d).
    + destruct (accepts r d).
      * rewrite Hn. eexists; split; [reflexivity|]. now left.
      * eexists; split; [reflexivity|]. right. eexists. reflexivity.
    + eexists; split; [reflexivity|]. right. eexists. reflexivity.
  - eexists; split; [reflexivity|]. right. eexists. reflexivity.
Qed.

Lemma checkRoles_single_outcome_witness :
  fst (checkRoles Sample.guard admin (incoming (Some "Bearer forged"))) = Returned tt /\
  (next_throws Sample.guard = None ->
   exists ev,
     events (snd (checkRoles Sample.guard admin (incoming (Some "Bearer forged"))))
     = (events (incoming (Some "Bearer forged")) ++ [ev])%list /\
     (ev = next_called \/ exists m, ev = json_sent 401 (message m))).
Proof.
  exact (checkRoles_single_outcome Sample.guard admin (incoming (Some "Bearer forged"))).
Defined.

(** C3. For a header that carries a token which [jwt.verify] accepts and
    whose payload is an object with a [role] member: under required role
    [both] the request goes on exactly when the role is "admin" or "user",
    under [admin] or [user] exactly when the role is that very string; a
    request that does not go on gets 401 "Unauthorized".  So a token with
    role "user" is refused by the admin guard and let through by the guard
    for both. *)
Theorem checkRoles_role_policy (E : env) (h : string) (d : Js.value) :
  Js.startsWith h "Bearer " = true ->
  jwt_verify E (Js.index (Js.split h " "%char) 1) (JWT_SECRET E) = Returned d ->
  Js.typeof_object d = true ->
  Js.not_null d = true ->
  Js.has_property "role" d = true ->
  (forall r,
     (proceeds (snd (handle E r (Some h))) = true <->
      match r with
      | both => Js.get d "role" = Js.str "admin" \/ Js.get d "role" = Js.str "user"
      | _ => Js.get d "role" = Js.str (role_name r)
      end) /\
     (proceeds (snd (handle E r (Some h))) = false ->
      handle E r (Some h) =
      (Returned tt, Some d, [json_sent 401 (message "Unauthorized")]))) /\
  (Js.get d "role" = Js.str "user" ->
   proceeds (snd (handle E admin (Some h))) = false /\
   proceeds (snd (handle E both (Some h))) = true).
Proof.
  intros Hp Hv Ho Hn Hr.
  assert (Hrole : has_role d = true).
  { unfold has_role. now rewrite Ho, Hn, Hr. }
  assert (Hall : forall r,
    handle E r (Some h) =
    (Returned tt, Some d,
     if accepts r d then
       next_called :: match next_throws E with
                      | None => []
                      | Some _ => [deny "Invalid Token"]
                      end
     else [deny "Unauthorized"])).
  { intros r. destruct (handle_verify_returns E r h d Hp Hv) as [H1 H2].
    rewrite H1, H2, Hrole. reflexivity. }
  assert (Hgo : forall r, proceeds (snd (handle E r (Some h))) = accepts r d).
  { intros r. rewrite Hall. cbn [snd]. destruct (accepts r d); reflexivity. }
  split.
  - intros r. split.
    + rewrite Hgo. apply accepts_iff.
    + rewrite Hgo. intros Hacc. rewrite Hall, Hacc. reflexivity.
  - intros Hu. rewrite !Hgo. unfold accepts. rewrite Hu. split; reflexivity.
Qed.

Lemma checkRoles_role_policy_witness :
  (forall r,
     (proceeds (snd (handle Sample.guard r (Some "Bearer usertoken"))) = true <->
      match r with
      | both => Js.get Sample.user_claims "role" = Js.str "admin"
                \/ Js.get Sample.user_claims "role" = Js.str "user"
      | _ => Js.get Sample.user_claims "role" = Js.str (role_name r)
      end) /\
     (proceeds (snd (handle Sample.guard r (Some "Bearer usertoken"))) = false ->
      handle Sample.guard r (Some "Bearer usertoken") =
      (Returned tt, Some Sample.user_claims, [json_sent 401 (message "Unauthorized")]))) /\
  (Js.get Sample.user_claims "role" = Js.str "user" ->
   proceeds (snd (handle Sample.guard admin (Some "Bearer usertoken"))) = false /\
   proceeds (snd (handle Sample.guard both (Some "Bearer usertoken"))) = true).
Proof.
  apply (checkRoles_role_policy Sample.guard "Bearer usertoken" Sample.user_claims);
    reflexivity.
Defined.

(** C10. When [jwt.verify] accepts the token but the payload is not an
    object, is null, or has no [role] member, the guard answers 401
    "Invalid Token Payload" for every required role and never calls
    [next]; the payload has been attached to the request by then. *)
Theorem checkRoles_invalid_payload (E : env) (r : RequiredRole) (h : string)
    (d : Js.value) :
  Js.startsWith h "Bearer " = true ->
  jwt_verify E (Js.index (Js.split h " "%char) 1) (JWT_SECRET E) = Returned d ->
  Js.typeof_object d = false \/ d = Js.null \/ Js.has_property "role" d = false ->
  handle E r (Some h) =
  (Returned tt, Some d, [json_sent 401 (message "Invalid Token Payload")])
  /\ proceeds (snd (handle E r (Some h))) = false.
Proof.
  intros Hp Hv Hbad.
  assert (Hrole : has_role d = false).
  { unfold has_role. destruct Hbad as [H | [H | H]].
    - now rewrite H.
    - subst d. reflexivity.
    - rewrite H. apply andb_false_r. }
  destruct (handle_verify_returns E r h d Hp Hv) as [H1 H2].
  rewrite H1, H2, Hrole. split; reflexivity.
Qed.

Lemma checkRoles_invalid_payload_witness :
  handle Sample.guard both (Some "Bearer text") =
  (Returned tt, Some (Js.str "hello"), [json_sent 401 (message "Invalid Token Payload")])
  /\ proceeds (snd (handle Sample.guard both (Some "Bearer text"))) = false.
Proof.
  apply (checkRoles_invalid_payload Sample.guard both "Bearer text" (Js.str "hello"));
    [reflexivity | reflexivity | left; reflexivity].
Defined.

(** C6. With jsonwebtoken read symbolically: a token whose [exp] is not
    after the clock is refused with 401 "Invalid Token", whether or not
    the key that signed it is the server's, and a token signed with a
    wrong key gets the very same answer: the caller cannot tell the two
    causes apart. *)
Theorem checkRoles_expired_like_forged
    (parse : string -> option Jwt.token) (now : Z) (secret : option string)
    (nt : option Js.error) (r : RequiredRole)
    (h tok : string) (t : Jwt.token) (exp : Z)
    (h' tok' : string) (t' : Jwt.token) :
  Js.startsWith h "Bearer " = true ->
  Js.index (Js.split h " "%char) 1 = Some tok ->
  parse tok = Some t ->
  Js.get (Jwt.payload t) "exp" = Js.number exp ->
  (exp <= now)%Z ->
  Js.startsWith h' "Bearer " = true ->
  Js.index (Js.split h' " "%char) 1 = Some tok' ->
  parse tok' = Some t' ->
  secret <> Some (Jwt.key t') ->
  handle (Jwt.guard_env parse now secret nt) r (Some h) =
  (Returned tt, None, [json_sent 401 (message "Invalid Token")])
  /\ handle (Jwt.guard_env parse now secret nt) r (Some h') =
     handle (Jwt.guard_env parse now secret nt) r (Some h).
Proof.
  intros Hp Ht Hparse Hexp Hle Hp' Ht' Hparse' Hkey.
  destruct (verify_expired_throws parse now exp _ tok t secret Ht Hparse Hexp Hle)
    as [e He].
  destruct (verify_forged_throws parse now _ tok' t' secret Ht' Hparse' Hkey)
    as [e' He'].
  rewrite (handle_verify_throws (Jwt.guard_env parse now secret nt) r h e Hp He).
  rewrite (handle_verify_throws (Jwt.guard_env parse now secret nt) r h' e' Hp' He').
  split; reflexivity.
Qed.

Lemma checkRoles_expired_like_forged_witness :
  handle Sample.guard admin (Some "Bearer old") =
  (Returned tt, None, [json_sent 401 (message "Invalid Token")])
  /\ handle Sample.guard admin (Some "Bearer forged") =
     handle Sample.guard admin (Some "Bearer old").
Proof.
  apply (checkRoles_expired_like_forged (Jwt.lookup Sample.wire) 1000
           (Some Sample.secret) None admin
           "Bearer old" "old"
           (Jwt.mkToken
              (Js.object [("sub", Js.number 1); ("role", Js.str "admin");
                          ("exp", Js.number 500)]) Sample.secret)
           500
           "Bearer forged" "forged" (Jwt.mkToken Sample.admin_claims "other"));
    try reflexivity; [lia | discriminate].
Defined.

(** C4, as the code has it.  A header that does not begin with the
    case-sensitive prefix "Bearer " (so also "Token abc123") is answered
    exactly as a missing header: 401 "Unauthorized", nothing attached,
    [jwt.verify] not consulted.  A header that begins with the prefix is
    read up to the second space: whatever follows the token is ignored. *)
Theorem checkRoles_header_prefix (E : env) (r : RequiredRole) :
  handle E r None = (Returned tt, None, [json_sent 401 (message "Unauthorized")])
  /\ (forall h, Js.startsWith h "Bearer " = false ->
             handle E r (Some h) = handle E r None)
  /\ handle E r (Some "Token abc123") = handle E r None
  /\ (forall tok rest, Js.includes tok " "%char = false ->
        handle E r (Some ("Bearer " ++ tok ++ " " ++ rest)) =
        handle E r (Some ("Bearer " ++ tok))).
Proof.
  assert (Hno : forall h, Js.startsWith h "Bearer " = false ->
                          handle E r (Some h) = handle E r None).
  { intros h Hh. rewrite !handle_verdict. unfold verdict, rejected_header.
    rewrite Hh. cbn [negb]. rewrite orb_true_r. reflexivity. }
  split; [rewrite handle_verdict; reflexivity|].
  split; [exact Hno|].
  split; [apply Hno; reflexivity|].
  intros tok rest Hs. rewrite !handle_verdict. unfold verdict.
  rewrite (token_of_bearer_more tok rest Hs), (token_of_bearer tok Hs).
  rewrite !rejected_header_bearer. reflexivity.
Qed.

(** C4 as stated fails: "Bearer good extra" is not of the shape
    [Bearer <token>], yet the admin guard lets it through, while a request
    without the header is refused. *)
Lemma checkRoles_extra_part_accepted :
  exact_bearer "Bearer good extra" = false
  /\ handle Sample.guard admin (Some "Bearer good extra") =
     (Returned tt, Some Sample.admin_claims, [next_called])
  /\ handle Sample.guard admin None =
     (Returned tt, None, [json_sent 401 (message "Unauthorized")])
  /\ handle Sample.guard admin (Some "Bearer good extra")
     <> handle Sample.guard admin None.
Proof.
  repeat split; try reflexivity. discriminate.
Qed.

End GuardClaims.

(** ** The table and the service *)

Section ServiceFacts.

Import userRepositories userService Lifecycle.

Context {Token : Type}.

Lemma find_none_existsb (e : string) (l : list User) :
  find (matches e) l = None -> existsb (matches e) l = false.
Proof.
  induction l as [|u l IH]; cbn; [reflexivity|].
  destruct (matches e u); [discriminate | exact IH].
Qed.

Lemma find_some_existsb (e : string) (l : list User) (u : User) :
  find (matches e) l = Some u -> existsb (matches e) l = true.
Proof.
  induction l as [|x l IH]; cbn; [discriminate|].
  destruct (matches e x); [reflexivity | exact IH].
Qed.

(** An UPDATE that leaves [email] alone does not change which row a
    lookup by email finds, only what is in it. *)
Lemma find_update_where (e e' : string) (set : User -> User) (t : table) :
  (forall u, email (set u) = email u) ->
  find (matches e) (rows (update_where e' set t)) =
  option_map (fun u => if matches e' u then set u else u)
             (find (matches e) (rows t)).
Proof.
  intros Hset. unfold update_where. cbn [rows].
  induction (rows t) as [|u l IH]; cbn; [reflexivity|].
  assert (Hm : matches e (if matches e' u then set u else u) = matches e u).
  { destruct (matches e' u); [|reflexivity]. unfold matches. now rewrite Hset. }
  rewrite Hm. destruct (matches e u); [reflexivity | exact IH].
Qed.

Lemma find_matches (e : string) (l : list User) (u : User) :
  find (matches e) l = Some u -> matches e u = true.
Proof. intros H. now apply find_some in H. Qed.

Lemma find_app_other (e : string) (l : list User) (u : User) :
  matches e u = false -> find (matches e) (l ++ [u]) = find (matches e) l.
Proof.
  intros Hu. induction l as [|x l IH]; cbn.
  - now rewrite Hu.
  - destruct (matches e x); [reflexivity | exact IH].
Qed.

Lemma find_app_new (e : string) (l : list User) (u : User) :
  find (matches e) l = None -> matches e u = true ->
  find (matches e) (l ++ [u]) = Some u.
Proof.
  intros Hl Hu. induction l as [|x l IH]; cbn in *.
  - now rewrite Hu.
  - destruct (matches e x); [discriminate | now apply IH].
Qed.

(** [sendEmail] always comes back with a string; it hands one mail to the
    transport and leaves the table alone. *)
Lemma sendEmail_returns (E : env Token) (to subject html : string) (w : world) :
  exists answer,
    sendEmail E to subject html w =
    (Returned answer,
     mkWorld (Users w) (outbox w ++ [mailer.mkMail to subject html])).
Proof.
  unfold sendEmail, mailer.sendEmail, Eff.try_catch, Eff.bind, Eff.modify. cbn.
  destruct (transport E _) as [res|err]; cbn.
  - destruct (mailer.accepted res); destruct (mailer.rejected res);
      eexists; reflexivity.
  - eexists; reflexivity.
Qed.

(** The three ways the service's [verifyUser] can go. *)
Lemma verifyUser_run (E : env Token) (e code : string) (w : world) :
  verifyUser E e code w =
  match find (matches e) (rows (Users w)) with
  | None => (Thrown (Js.Error "User not found"), w)
  | Some u =>
      if code_differs (verification_code u) code
      then (Thrown (Js.Error "Invalid verification code"), w)
      else
        (Returned (Js.message "User verified successfully"),
         mkWorld (update_where e set_verified (Users w))
           (outbox w ++
            [mailer.mkMail (email u) "Your email has been verified - Todo App"
                           (template_verifiedSuccess E (first_name u))]))
  end.
Proof.
  destruct w as [t out].
  unfold verifyUser, Eff.bind, on_table, getUserByEmail, Eff.read. cbn.
  destruct (find (matches e) (rows t)) as [u|]; [|reflexivity].
  destruct (code_differs (verification_code u) code); [reflexivity|].
  unfold userRepositories.verifyUser, Eff.bind, Eff.modify. cbn.
  destruct (sendEmail_returns E (email u) "Your email has been verified - Todo App"
              (template_verifiedSuccess E (first_name u))
              (mkWorld (update_where e set_verified t) out)) as [answer Hs].
  rewrite Hs. reflexivity.
Qed.

Example code_of_draw : verificationCode (382913 # 900000) = "482913".
Proof. reflexivity. Qed.

Example code_of_least_draw : verificationCode 0 = "100000".
Proof. reflexivity. Qed.

Lemma hash_password_email (E : env Token) (u : NewUser) :
  new_email (hash_password E u) = new_email u.
Proof. unfold hash_password. destruct (negb _); reflexivity. Qed.

(** Registration: refused by the UNIQUE constraint with nothing written,
    or a new row with the drawn code and one mail handed over. *)
Lemma createUser_run (E : env Token) (u : NewUser) (w : world) :
  createUser E u w =
  if existsb (matches (new_email u)) (rows (Users w))
  then (Thrown unique_violation, w)
  else
    (Returned (Js.message "User created successfully. Verification code sent to email"),
     mkWorld
       (update_where (new_email u) (set_code (verificationCode (Math_random E)))
          (mkTable (rows (Users w) ++ [inserted (hash_password E u) (identity (Users w))])
                   (identity (Users w) + 1)))
       (outbox w ++
        [mailer.mkMail (new_email u) "Verify your email for Todo App"
           (template_verify E (new_first_name (hash_password E u))
              (verificationCode (Math_random E)))])).
Proof.
  destruct w as [t out].
  unfold createUser, Eff.bind, on_table, userRepositories.createUser. cbn.
  rewrite hash_password_email.
  destruct (existsb (matches (new_email u)) (rows t)); [reflexivity|].
  unfold setVerificationCode, Eff.bind, Eff.modify. cbn.
  match goal with
  | |- context [sendEmail E ?a ?b ?c ?d] =>
      destruct (sendEmail_returns E a b c d) as [answer Hs]; rewrite Hs
  end.
  reflexivity.
Qed.

Lemma email_set_code (code : string) (u : User) : email (set_code code u) = email u.
Proof. reflexivity. Qed.

Lemma email_set_verified (u : User) : email (set_verified u) = email u.
Proof. reflexivity. Qed.

(** A stored code differs from a submitted one unless it is that code. *)
Lemma code_differs_false (stored : option string) (code : string) :
  code_differs stored code = false <-> stored = Some code.
Proof.
  destruct stored as [c|]; cbn; split; intro H; try discriminate.
  - apply negb_false_iff, String.eqb_eq in H. now subst.
  - injection H as ->. now rewrite String.eqb_refl.
Qed.











(** [loginUser] reads the table and writes nothing. *)
Lemma loginUser_run (E : env Token) (e pw : string) (w : world) :
  loginUser E e pw w =
  match find (matches e) (rows (Users w)) with
  | None => (Thrown (Js.Error "User not found"), w)
  | Some u =>
      if negb (bcrypt_compare E pw (password u))
      then (Thrown (Js.Error "Invalid credentials"), w)
      else
        match JWT_SECRET E with
        | None => (Thrown (Js.Error "JWT secret not defined"), w)
        | Some s =>
            if String.eqb s "" then (Thrown (Js.Error "JWT secret not defined"), w)
            else
              (Returned
                 (mkLoginResult "Login successful"
                    (jwt_sign E (login_payload (Date_now E) u) s)
                    (Js.object
                       [("userid", Js.number (userid u));
                        ("first_name", Js.str (first_name u));
                        ("last_name", Js.str (last_name u));
                        ("email", Js.str (email u));
                        ("phone_number", Js.str (phone_number u))])),
               w)
        end
  end.
Proof.
  destruct w as [t out].
  unfold loginUser, Eff.bind, on_table, getUserByEmail, Eff.read. cbn.
  destruct (find (matches e) (rows t)) as [u|]; [|reflexivity].
  destruct (bcrypt_compare E pw (password u)); [|reflexivity]. cbn.
  destruct (JWT_SECRET E) as [s|]; [|reflexivity]. cbn.
  destruct (String.eqb s ""); reflexivity.
Qed.

End ServiceFacts.

Section JwtFacts.

Lemma assoc_app_found (k : string) (fields more : list (string * Js.value))
    (v : Js.value) :
  Js.assoc k fields = Some v -> Js.assoc k (fields ++ more) = Some v.
Proof.
  induction fields as [|[k' v'] fields IH]; cbn; [discriminate|].
  destruct (String.eqb k' k); [trivial | exact IH].
Qed.

(** Signing adds [iat] and keeps every claim of the payload. *)
Lemma sign_keeps_claims (now : Z) (p : Js.value) (s k : string) :
  Js.has_property k p = true ->
  Js.get (Jwt.decode (Jwt.sign now p s)) k = Js.get p k.
Proof.
  destruct p; cbn; try reflexivity.
  destruct (Js.assoc k fields) as [v|] eqn:Hk; [|discriminate].
  intros _. now rewrite (assoc_app_found _ _ _ _ Hk).
Qed.

(** With the secret missing or empty the symbolic [jwt.verify] throws on
    every token. *)
Lemma verify_without_secret_throws (parse : string -> option Jwt.token) (now : Z)
    (tok secret : option string) :
  Js.falsy secret = true ->
  exists e, Jwt.verify parse now tok secret = Thrown e.
Proof.
  intros Hs. unfold Jwt.verify.
  destruct (Js.falsy tok); [eexists; reflexivity|].
  destruct tok as [t|]; [|eexists; reflexivity].
  destruct (parse t); [|eexists; reflexivity].
  rewrite Hs. eexists; reflexivity.
Qed.

End JwtFacts.

Section ServiceClaims.

Import userRepositories userService Lifecycle.

Context {Token : Type}.

(** Confirming the stored code verifies the record and clears the code; the
    same code presented again is refused and changes nothing. *)
Lemma confirm_then_confirm_again (E : env Token) (e code : string) (w : world)
    (u : User) :
  find (matches e) (rows (Users w)) = Some u ->
  verification_code u = Some code ->
  fst (verifyUser E e code w) = Returned (Js.message "User verified successfully")
  /\ flag e (snd (verifyUser E e code w)) = Some true
  /\ stored_code e (snd (verifyUser E e code w)) = None
  /\ verifyUser E e code (snd (verifyUser E e code w)) =
     (Thrown (Js.Error "Invalid verification code"), snd (verifyUser E e code w)).
Proof.
  intros Hfind Hcode.
  assert (Hd : code_differs (verification_code u) code = false)
    by now apply code_differs_false.
  rewrite (verifyUser_run E e code w), Hfind, Hd. cbn [fst snd].
  assert (Hfind' :
    find (matches e) (rows (update_where e set_verified (Users w)))
    = Some (set_verified u)).
  { rewrite find_update_where by apply email_set_verified.
    rewrite Hfind. cbn [option_map]. now rewrite (find_matches _ _ _ Hfind). }
  unfold flag, stored_code. cbn [Users]. rewrite Hfind'.
  repeat split.
  rewrite verifyUser_run. cbn [Users]. rewrite Hfind'. reflexivity.
Qed.

(** C8. [verifyUser(email, code)] of the service throws "User not found"
    when no record has the email, and "Invalid verification code" when the
    stored code is not the submitted string (a cleared code included).
    Either way nothing is written: the table and the outbox are as before,
    so [is_verified] and the stored code keep their values. *)
Theorem verifyUser_failure_keeps_state (E : env Token) (e code : string)
    (w : world) :
  match find (matches e) (rows (Users w)) with
  | None => verifyUser E e code w = (Thrown (Js.Error "User not found"), w)
  | Some u =>
      verification_code u <> Some code ->
      verifyUser E e code w = (Thrown (Js.Error "Invalid verification code"), w)
      /\ flag e (snd (verifyUser E e code w)) = Some (is_verified u)
      /\ stored_code e (snd (verifyUser E e code w)) = verification_code u
  end.
Proof.
  rewrite verifyUser_run. unfold flag, stored_code.
  destruct (find (matches e) (rows (Users w))) as [u|] eqn:Hfind; [|reflexivity].
  intros Hne.
  destruct (code_differs (verification_code u) code) eqn:Hd.
  - cbn [snd]. rewrite Hfind. repeat split.
  - apply code_differs_false in Hd. contradiction.
Qed.

(** C7. Registration of a new email draws a code and stores it with
    [is_verified] false; confirming with that code right away returns
    normally, sets [is_verified] and clears the code; confirming once more
    with the same code throws "Invalid verification code" and changes
    nothing.  Over the three steps the flag rises exactly once.  The same
    holds when the code is put on an existing record by
    [setVerificationCode] directly. *)
Theorem issue_confirm_round_trip (E : env Token) (w : world) :
  (forall random u,
     find (matches (new_email u)) (rows (Users w)) = None ->
     let e := new_email u in
     let code := verificationCode random in
     let w1 := step E (register random u) w in
     let w2 := step E (confirmCode e code) w1 in
     flag e w1 = Some false /\ stored_code e w1 = Some code
     /\ fst (verifyUser E e code w1) = Returned (Js.message "User verified successfully")
     /\ flag e w2 = Some true /\ stored_code e w2 = None
     /\ verifyUser E e code w2 = (Thrown (Js.Error "Invalid verification code"), w2)
     /\ history E [register random u; confirmCode e code; confirmCode e code] w e
        = [None; Some false; Some true; Some true]
     /\ rises (history E [register random u; confirmCode e code; confirmCode e code] w e)
        = 1%nat)
  /\
  (forall e code u0,
     find (matches e) (rows (Users w)) = Some u0 ->
     let w1 := step E (issueCode e code) w in
     let w2 := step E (confirmCode e code) w1 in
     flag e w1 = Some false /\ stored_code e w1 = Some code
     /\ fst (verifyUser E e code w1) = Returned (Js.message "User verified successfully")
     /\ flag e w2 = Some true /\ stored_code e w2 = None
     /\ verifyUser E e code w2 = (Thrown (Js.Error "Invalid verification code"), w2)
     /\ history E [issueCode e code; confirmCode e code; confirmCode e code] w e
        = [Some (is_verified u0); Some false; Some true; Some true]
     /\ (is_verified u0 = false ->
         rises (history E [issueCode e code; confirmCode e code; confirmCode e code] w e)
         = 1%nat)).
Proof.
  split.
  - intros random u Hnew. cbv zeta.
    set (e := new_email u) in *.
    set (code := verificationCode random).
    set (w1 := step E (register random u) w).
    set (w2 := step E (confirmCode e code) w1).
    assert (Hfind1 :
      find (matches e) (rows (Users w1))
      = Some (set_code code (inserted (hash_password (with_random E random) u)
                                      (identity (Users w))))).
    { subst w1. unfold step. rewrite createUser_run.
      fold e. rewrite (find_none_existsb _ _ Hnew). cbn [snd Users].
      change (verificationCode (Math_random (with_random E random))) with code.
      rewrite find_update_where by apply email_set_code. cbn [rows].
      assert (Hm : matches e (inserted (hash_password (with_random E random) u)
                                       (identity (Users w))) = true).
      { unfold matches, inserted. cbn [email]. rewrite hash_password_email.
        apply String.eqb_refl. }
      rewrite (find_app_new _ _ _ Hnew Hm). cbn [option_map]. now rewrite Hm. }
    destruct (confirm_then_confirm_again E e code w1 _ Hfind1 eq_refl)
      as (Hret & Hflag & Hcode & Hagain).
    assert (Hf1 : flag e w1 = Some false) by (unfold flag; now rewrite Hfind1).
    assert (Hf0 : flag e w = None) by (unfold flag; now rewrite Hnew).
    assert (Hh : history E [register random u; confirmCode e code; confirmCode e code] w e
                 = [None; Some false; Some true; Some true]).
    { unfold history. cbn [states map]. fold w1.
      change (step E (confirmCode e code) w1) with w2.
      change (step E (confirmCode e code) w2) with (snd (verifyUser E e code w2)).
      subst w2. unfold step at 2. rewrite Hagain. cbn [snd].
      unfold step. rewrite Hflag, Hf1, Hf0. reflexivity. }
    repeat split; try assumption.
    + unfold stored_code. now rewrite Hfind1.
    + now rewrite Hh.
  - intros e code u0 Hfind. cbv zeta.
    set (w1 := step E (issueCode e code) w).
    set (w2 := step E (confirmCode e code) w1).
    assert (Hfind1 : find (matches e) (rows (Users w1)) = Some (set_code code u0)).
    { subst w1. unfold step, on_table, setVerificationCode, Eff.bind, Eff.modify, Eff.ret.
      cbn [snd fst Users].
      rewrite find_update_where by apply email_set_code.
      rewrite Hfind. cbn [option_map]. now rewrite (find_matches _ _ _ Hfind). }
    destruct (confirm_then_confirm_again E e code w1 _ Hfind1 eq_refl)
      as (Hret & Hflag & Hcode & Hagain).
    assert (Hf1 : flag e w1 = Some false) by (unfold flag; now rewrite Hfind1).
    assert (Hf0 : flag e w = Some (is_verified u0)) by (unfold flag; now rewrite Hfind).
    assert (Hh : history E [issueCode e code; confirmCode e code; confirmCode e code] w e
                 = [Some (is_verified u0); Some false; Some true; Some true]).
    { unfold history. cbn [states map]. fold w1.
      change (step E (confirmCode e code) w1) with w2.
      change (step E (confirmCode e code) w2) with (snd (verifyUser E e code w2)).
      subst w2. unfold step at 2. rewrite Hagain. cbn [snd].
      unfold step. rewrite Hflag, Hf1, Hf0. reflexivity. }
    repeat split; try assumption.
    + unfold stored_code. now rewrite Hfind1.
    + intros Hu0. rewrite Hh, Hu0. reflexivity.
Qed.


(** C5, as the code has it.  [loginUser(email, password)] throws "User
    not found" when no record has the email and "Invalid credentials"
    when [bcrypt.compare] says no.  A valid pair gets a token only when
    the signing secret is in place: with [JWT_SECRET] missing or empty
    the call throws "JWT secret not defined" and returns nothing.  With
    the secret set it returns, and for any decoder that gives back the
    claims that were signed: the decoded role is the stored role, the
    decoded expiry is the clock in seconds plus 3600, the subject is the
    user id, and the returned user object has the five public members and
    no [password].  Every failing call leaves the state as it was. *)
Theorem loginUser_cases (E : env Token) (jwt_decode : Token -> Js.value)
    (e pw : string) (w : world) :
  (forall p s k,
     Js.has_property k p = true ->
     Js.get (jwt_decode (jwt_sign E p s)) k = Js.get p k) ->
  match find (matches e) (rows (Users w)) with
  | None => loginUser E e pw w = (Thrown (Js.Error "User not found"), w)
  | Some u =>
      if bcrypt_compare E pw (password u)
      then
        (Js.falsy (JWT_SECRET E) = true ->
         loginUser E e pw w = (Thrown (Js.Error "JWT secret not defined"), w))
        /\ (forall s, JWT_SECRET E = Some s -> s <> "" ->
            exists res,
              loginUser E e pw w = (Returned res, w)
              /\ Js.get (jwt_decode (token res)) "role" = Js.str (role u)
              /\ Js.get (jwt_decode (token res)) "exp"
                 = Js.number (Date_now E / 1000 + 3600)
              /\ Js.get (jwt_decode (token res)) "sub" = Js.number (userid u)
              /\ user res =
                 Js.object
                   [("userid", Js.number (userid u));
                    ("first_name", Js.str (first_name u));
                    ("last_name", Js.str (last_name u));
                    ("email", Js.str (email u));
                    ("phone_number", Js.str (phone_number u))]
              /\ Js.has_property "password" (user res) = false)
      else loginUser E e pw w = (Thrown (Js.Error "Invalid credentials"), w)
  end.
Proof.
  intros Hdecode. rewrite loginUser_run.
  destruct (find (matches e) (rows (Users w))) as [u|]; [|reflexivity].
  destruct (bcrypt_compare E pw (password u)); [|reflexivity].
  cbn [negb]. split.
  - intros Hs. destruct (JWT_SECRET E) as [s|]; [|reflexivity].
    cbn in Hs. now rewrite Hs.
  - intros s Hs Hne. rewrite Hs.
    apply String.eqb_neq in Hne. rewrite Hne.
    eexists. split; [reflexivity|]. cbn [token user].
    rewrite !Hdecode by reflexivity.
    repeat split.
Qed.

(** C9, as the code has it.  Nothing checks the secret when the process
    starts; each request meets its absence.  With [JWT_SECRET] undefined
    or empty, [loginUser] never returns a token and throws "JWT secret not
    defined" for every request whose credentials are right, and the
    guard, handing the missing secret to [jwt.verify], answers every
    Bearer header with 401 "Invalid Token". *)
Theorem missing_secret_seen_per_request (E : env Token) (e pw : string)
    (w : world) :
  Js.falsy (JWT_SECRET E) = true ->
  (forall res w', loginUser E e pw w <> (Returned res, w'))
  /\ (forall u,
        find (matches e) (rows (Users w)) = Some u ->
        bcrypt_compare E pw (password u) = true ->
        loginUser E e pw w = (Thrown (Js.Error "JWT secret not defined"), w))
  /\ (forall parse now nt r h,
        Js.startsWith h "Bearer " = true ->
        Guard.handle (Jwt.guard_env parse now (JWT_SECRET E) nt) r (Some h) =
        (Returned tt, None,
         [Guard.json_sent 401 (Guard.message "Invalid Token")])).
Proof.
  intros Hs.
  assert (Hsecret : JWT_SECRET E = None \/ JWT_SECRET E = Some "").
  { destruct (JWT_SECRET E) as [s|]; [|now left].
    cbn in Hs. apply String.eqb_eq in Hs. subst. now right. }
  repeat apply conj.
  - intros res w'. rewrite loginUser_run.
    destruct (find (matches e) (rows (Users w))) as [u|]; [|discriminate].
    destruct (negb _); [discriminate|].
    destruct Hsecret as [-> | ->]; discriminate.
  - intros u Hu Hc. rewrite loginUser_run, Hu, Hc. cbn [negb].
    destruct Hsecret as [-> | ->]; reflexivity.
  - intros parse now nt r h Hh.
    destruct (verify_without_secret_throws parse now
                (Verdict.token_of (Some h)) (JWT_SECRET E) Hs) as [err Herr].
    exact (handle_verify_throws (Jwt.guard_env parse now (JWT_SECRET E) nt)
             r h err Hh Herr).
Qed.

End ServiceClaims.

(** ** The claims at concrete inputs *)

Section Instances.

Import userRepositories userService Lifecycle.

(** "Token abc123" and a header with a trailing part, at the sample guard. *)
Lemma checkRoles_header_prefix_witness :
  Guard.handle Sample.guard Guard.user (Some "Token abc123")
  = Guard.handle Sample.guard Guard.user None
  /\ Guard.handle Sample.guard Guard.user (Some ("Bearer " ++ "usertoken" ++ " " ++ "x"))
     = Guard.handle Sample.guard Guard.user (Some ("Bearer " ++ "usertoken")).
Proof.
  split.
  - exact (proj1 (proj2 (proj2 (checkRoles_header_prefix Sample.guard Guard.user)))).
  - exact (proj2 (proj2 (proj2 (checkRoles_header_prefix Sample.guard Guard.user)))
             "usertoken" "x" eq_refl).
Defined.

(** The wrong code "000000" against a record holding "482913". *)
Lemma verifyUser_failure_keeps_state_witness :
  verifyUser (Sample.service (Some Sample.secret)) "a@x.com" "000000"
    (Sample.world_of Sample.alice_pending)
  = (Thrown (Js.Error "Invalid verification code"),
     Sample.world_of Sample.alice_pending)
  /\ flag "a@x.com"
       (snd (verifyUser (Sample.service (Some Sample.secret)) "a@x.com" "000000"
               (Sample.world_of Sample.alice_pending)))
     = Some false
  /\ stored_code "a@x.com"
       (snd (verifyUser (Sample.service (Some Sample.secret)) "a@x.com" "000000"
               (Sample.world_of Sample.alice_pending)))
     = Some "482913".
Proof.
  refine (verifyUser_failure_keeps_state (Sample.service (Some Sample.secret))
            "a@x.com" "000000" (Sample.world_of Sample.alice_pending) _).
  discriminate.
Defined.

(** Brian registers into an empty table, confirms, and confirms again. *)
Lemma issue_confirm_round_trip_witness :
  history (Sample.service (Some Sample.secret))
    [register (382913 # 900000) Sample.brian;
     confirmCode "b@x.com" "482913"; confirmCode "b@x.com" "482913"]
    Sample.empty_world "b@x.com"
  = [None; Some false; Some true; Some true].
Proof.
  exact (proj1 (proj2 (proj2 (proj2 (proj2 (proj2 (proj2
           (proj1 (issue_confirm_round_trip (Sample.service (Some Sample.secret))
                     Sample.empty_world)
              (382913 # 900000) Sample.brian eq_refl)))))))).
Defined.



(** Alice logs in at clock 1000 s: role "admin", expiry 4600, issued at 1000. *)
Lemma loginUser_cases_witness :
  exists res,
    loginUser (Sample.service (Some Sample.secret)) "a@x.com" "password123"
      (Sample.world_of Sample.alice)
    = (Returned res, Sample.world_of Sample.alice)
    /\ Js.get (Jwt.decode (token res)) "role" = Js.str "admin"
    /\ Js.get (Jwt.decode (token res)) "exp" = Js.number 4600
    /\ Js.get (Jwt.decode (token res)) "sub" = Js.number 1
    /\ user res =
       Js.object
         [("userid", Js.number 1);
          ("first_name", Js.str "Alice");
          ("last_name", Js.str "Mwangi");
          ("email", Js.str "a@x.com");
          ("phone_number", Js.str "0711000001")]
    /\ Js.has_property "password" (user res) = false.
Proof.
  refine (proj2 (loginUser_cases (Sample.service (Some Sample.secret)) Jwt.decode
                   "a@x.com" "password123" (Sample.world_of Sample.alice)
                   (fun p s k => sign_keeps_claims 1000 p s k))
            Sample.secret eq_refl _).
  discriminate.
Defined.

(** C5 as stated fails: Alice's pair is valid (her record is found and
    [bcrypt.compare] accepts the password), yet with [JWT_SECRET] unset
    or empty [loginUser] returns no token and throws. *)
Lemma valid_pair_without_secret_gets_no_token :
  find (matches "a@x.com") (rows (Users (Sample.world_of Sample.alice)))
  = Some Sample.alice
  /\ bcrypt_compare (Sample.service None) "password123" (password Sample.alice) = true
  /\ fst (loginUser (Sample.service None) "a@x.com" "password123"
            (Sample.world_of Sample.alice))
     = Thrown (Js.Error "JWT secret not defined")
  /\ fst (loginUser (Sample.service (Some "")) "a@x.com" "password123"
            (Sample.world_of Sample.alice))
     = Thrown (Js.Error "JWT secret not defined").
Proof. repeat split. Qed.

(** C9 as stated fails: with [JWT_SECRET] unset, a login with the right
    password fails at that request with "JWT secret not defined", and a
    token the guard accepts when the secret is set is refused. *)
Lemma missing_secret_fails_the_request :
  loginUser (Sample.service None) "a@x.com" "password123"
    (Sample.world_of Sample.alice)
  = (Thrown (Js.Error "JWT secret not defined"), Sample.world_of Sample.alice)
  /\ Guard.handle Sample.guard_no_secret Guard.admin (Some "Bearer good")
     = (Returned tt, None, [Guard.json_sent 401 (Guard.message "Invalid Token")])
  /\ Guard.handle Sample.guard Guard.admin (Some "Bearer good")
     = (Returned tt, Some Sample.admin_claims, [Guard.next_called]).
Proof. repeat split. Qed.

Lemma missing_secret_seen_per_request_witness :
  (forall res w',
     loginUser (Sample.service None) "a@x.com" "password123"
       (Sample.world_of Sample.alice) <> (Returned res, w'))
  /\ (forall u,
        find (matches "a@x.com") (rows (Users (Sample.world_of Sample.alice))) = Some u ->
        bcrypt_compare (Sample.service None) "password123" (password u) = true ->
        loginUser (Sample.service None) "a@x.com" "password123"
          (Sample.world_of Sample.alice)
        = (Thrown (Js.Error "JWT secret not defined"), Sample.world_of Sample.alice))
  /\ (forall parse now nt r h,
        Js.startsWith h "Bearer " = true ->
        Guard.handle (Jwt.guard_env parse now (JWT_SECRET (Sample.service None)) nt)
          r (Some h) =
        (Returned tt, None,
         [Guard.json_sent 401 (Guard.message "Invalid Token")])).
Proof.
  exact (missing_secret_seen_per_request (Sample.service None) "a@x.com"
           "password123" (Sample.world_of Sample.alice) eq_refl).
Defined.

End Instances.

(* ================================================================== *)
(** * Further properties of the guards                                 *)
(* ================================================================== *)

Section MoreGuardFacts.

Import Guard Verdict.

(** When the guard calls [next], read off the verdict. *)
Lemma proceeds_verdict (E : env) (r : RequiredRole) (header : option string) :
  proceeds (snd (verdict E r header)) =
  negb (rejected_header header)
  && match jwt_verify E (token_of header) (JWT_SECRET E) with
     | Returned d => has_role d && accepts r d
     | Thrown _ => false
     end.
Proof.
  unfold verdict. destruct (rejected_header header); [reflexivity|].
  destruct (jwt_verify E _ _) as [d|e]; [|reflexivity].
  cbn [snd negb andb]. destruct (has_role d); [|reflexivity].
  destruct (accepts r d); reflexivity.
Qed.

Lemma checkRoles_events (E : env) (r : RequiredRole) (header : option string) :
  events (snd (checkRoles E r (incoming header))) = snd (verdict E r header).
Proof. rewrite checkRoles_run. reflexivity. Qed.

Lemma accepts_both (d : Js.value) :
  accepts both d = accepts admin d || accepts user d.
Proof. reflexivity. Qed.

Lemma accepts_exclusive (d : Js.value) :
  accepts admin d && accepts user d = false.
Proof.
  unfold accepts. cbn [role_name].
  destruct (Js.get d "role"); try reflexivity. cbn.
  destruct (String.eqb_spec s "admin") as [->|]; reflexivity.
Qed.

(** What [isAuthenticated] does, as one expression. *)
Lemma isAuthenticated_run (E : env) (x : exchange) :
  Authorization.isAuthenticated E x =
  (Returned tt,
   if rejected_header (authorization x) || Js.falsy (token_of (authorization x))
   then mkExchange (authorization x) (req_user x)
                   (events x ++ [deny "Unauthorized"])
   else
     match jwt_verify E (token_of (authorization x)) (JWT_SECRET E) with
     | Thrown _ =>
         mkExchange (authorization x) (req_user x)
                    (events x ++ [deny "Unauthorized"])
     | Returned d =>
         mkExchange (authorization x) (Some d)
           (events x ++
            next_called :: match next_throws E with
                           | None => []
                           | Some _ => [deny "Unauthorized"]
                           end)
     end).
Proof.
  destruct x as [hdr usr evs].
  unfold Authorization.isAuthenticated, Eff.bind, Eff.read, Eff.try_catch, verify.
  cbn [authorization req_user events].
  fold (rejected_header hdr). fold (token_of hdr).
  destruct (rejected_header hdr); [reflexivity|]. cbn [orb].
  destruct (Js.falsy (token_of hdr)); [reflexivity|].
  destruct (jwt_verify E (token_of hdr) (JWT_SECRET E)) as [d|e]; [|reflexivity].
  unfold next, Eff.bind, emit, set_req_user, Eff.modify, res_status_json, emit,
    Eff.modify, Eff.ret, Eff.throw. cbn.
  destruct (next_throws E); cbn; rewrite <- ?app_assoc; reflexivity.
Qed.

Lemma prefix_append (p s : string) :
  String.prefix p s = true -> exists rest, s = p ++ rest.
Proof.
  revert s. induction p as [|a p IH]; intros s H.
  - now exists s.
  - destruct s as [|b s]; [discriminate|]. cbn in H.
    destruct (ascii_dec a b) as [->|]; [|discriminate].
    destruct (IH s H) as [rest ->]. now exists rest.
Qed.

Lemma split_not_empty (s : string) (c : ascii) :
  exists w ws, Js.split s c = w :: ws.
Proof.
  induction s as [|a s (w & ws & IH)]; cbn.
  - now eexists; eexists.
  - destruct (Ascii.eqb a c); [now eexists; eexists|].
    rewrite IH. now eexists; eexists.
Qed.

(** A header that passes the prefix test always has a second part. *)
Lemma token_of_accepted_header (header : option string) :
  rejected_header header = false -> exists tok, token_of header = Some tok.
Proof.
  unfold rejected_header, token_of. destruct header as [h|]; [|discriminate].
  intros H. apply orb_false_iff in H as [_ H]. apply negb_false_iff in H.
  destruct (prefix_append _ _ H) as [rest ->].
  change ("Bearer " ++ rest) with ("Bearer" ++ String " "%char rest).
  rewrite split_at_first_separator by reflexivity.
  destruct (split_not_empty rest " "%char) as (w & ws & ->).
  now exists w.
Qed.

End MoreGuardFacts.

Section MoreGuardProperties.

Import Guard Verdict.

(** X1. The three ready-made guards on one request: [adminUser] lets it
    through exactly when [adminOnly] or [userOnly] does, and [adminOnly]
    and [userOnly] never both do. *)
Theorem presets_union (E : env) (header : option string) :
  proceeds (events (snd (adminUser E (incoming header)))) =
  proceeds (events (snd (adminOnly E (incoming header))))
  || proceeds (events (snd (userOnly E (incoming header))))
  /\ proceeds (events (snd (adminOnly E (incoming header))))
     && proceeds (events (snd (userOnly E (incoming header)))) = false.
Proof.
  unfold adminUser, adminOnly, userOnly.
  rewrite !checkRoles_events, !proceeds_verdict.
  destruct (rejected_header header); [split; reflexivity|]. cbn [negb andb].
  destruct (jwt_verify E _ _) as [d|e]; [|split; reflexivity].
  rewrite accepts_both.
  destruct (has_role d); [|split; reflexivity]. cbn [andb].
  split; [reflexivity | apply accepts_exclusive].
Qed.

(** X2. What the guard leaves on the request.  The header is never
    changed.  [req.user] becomes the payload as soon as [jwt.verify]
    returns one, so every request that goes on carries it, and so does a
    request refused for its role or its payload; when the header is
    refused or [jwt.verify] throws, [req.user] stays as it was. *)
Theorem checkRoles_req_user (E : env) (r : RequiredRole) (x : exchange) :
  authorization (snd (checkRoles E r x)) = authorization x
  /\ (forall h d,
        authorization x = Some h ->
        Js.startsWith h "Bearer " = true ->
        jwt_verify E (Js.index (Js.split h " "%char) 1) (JWT_SECRET E) = Returned d ->
        req_user (snd (checkRoles E r x)) = Some d)
  /\ (authorization x = None
      \/ (exists h, authorization x = Some h /\ Js.startsWith h "Bearer " = false)
      \/ (exists h e,
            authorization x = Some h
            /\ jwt_verify E (Js.index (Js.split h " "%char) 1) (JWT_SECRET E)
               = Thrown e) ->
      req_user (snd (checkRoles E r x)) = req_user x)
  /\ (events x = [] ->
      proceeds (events (snd (checkRoles E r x))) = true ->
      exists h d,
        authorization x = Some h
        /\ jwt_verify E (Js.index (Js.split h " "%char) 1) (JWT_SECRET E) = Returned d
        /\ req_user (snd (checkRoles E r x)) = Some d).
Proof.
  rewrite checkRoles_run. cbn [snd authorization req_user events].
  split; [reflexivity|]. unfold verdict, rejected_header, token_of.
  repeat apply conj.
  - intros h d -> Hp Hv. rewrite Hp. cbn [negb orb].
    destruct (Js.falsy (Some h)) eqn:Hf.
    + destruct h; [discriminate Hp | discriminate Hf].
    + cbn [orb]. now rewrite Hv.
  - intros [-> | [(h & -> & Hp) | (h & e & -> & Hv)]].
    + reflexivity.
    + rewrite Hp. cbn [negb]. now rewrite orb_true_r.
    + destruct (_ || _); [reflexivity|]. now rewrite Hv.
  - intros -> Hgo. cbn [List.app] in Hgo.
    destruct (authorization x) as [h|]; [|discriminate Hgo].
    destruct (_ || _); [discriminate Hgo|].
    destruct (jwt_verify E _ _) as [d|e] eqn:Hv; [|discriminate Hgo].
    exists h, d. repeat split. exact Hv.
Qed.

Lemma checkRoles_req_user_witness :
  req_user (snd (checkRoles Sample.guard admin (incoming (Some "Bearer usertoken"))))
  = Some Sample.user_claims
  /\ events (snd (checkRoles Sample.guard admin (incoming (Some "Bearer usertoken"))))
     = [json_sent 401 (message "Unauthorized")].
Proof.
  split.
  - exact (proj1 (proj2 (checkRoles_req_user Sample.guard admin
                           (incoming (Some "Bearer usertoken"))))
             "Bearer usertoken" Sample.user_claims eq_refl eq_refl eq_refl).
  - reflexivity.
Defined.

(** X3. [isAuthenticated] never throws.  It calls [next] exactly when the
    header begins with "Bearer ", the part after the first space is not
    empty, and [jwt.verify] returns for it; in every other case the answer
    is the one response 401 "Unauthorized", whatever the cause, and for an
    empty token [jwt.verify] is not even asked. *)
Theorem isAuthenticated_outcomes (E : env) (header : option string) :
  fst (fst (Authorization.handle E header)) = Returned tt
  /\ (proceeds (snd (Authorization.handle E header)) = true <->
      exists h tok d,
        header = Some h /\ Js.startsWith h "Bearer " = true
        /\ Js.index (Js.split h " "%char) 1 = Some tok /\ tok <> ""
        /\ jwt_verify E (Some tok) (JWT_SECRET E) = Returned d)
  /\ (proceeds (snd (Authorization.handle E header)) = false ->
      Authorization.handle E header =
      (Returned tt, None, [json_sent 401 (message "Unauthorized")])).
Proof.
  unfold Authorization.handle. rewrite isAuthenticated_run.
  cbn [incoming authorization req_user events app].
  split.
  { destruct (_ || _); [reflexivity|]. destruct (jwt_verify E _ _); reflexivity. }
  unfold rejected_header, token_of.
  destruct header as [h|]; cbn [Js.falsy orb negb].
  2:{ split; [|reflexivity]. cbn. split; [discriminate|].
      intros (h & tok & d & H & _). discriminate. }
  destruct (String.eqb_spec h "") as [->|Hh].
  { split; [|reflexivity]. split; [discriminate|].
    intros (h & tok & d & H & Hp & _). injection H as <-. discriminate. }
  destruct (Js.startsWith h "Bearer ") eqn:Hp; cbn [negb orb].
  2:{ split; [|reflexivity]. split; [discriminate|].
      intros (h' & tok & d & H & Hp' & _). injection H as <-. congruence. }
  destruct (Js.index (Js.split h " "%char) 1) as [tok|] eqn:Ht; cbn [Js.falsy].
  2:{ split; [|reflexivity]. split; [discriminate|].
      intros (h' & tok & d & H & _ & Ht' & _). injection H as <-. congruence. }
  destruct (String.eqb_spec tok "") as [->|Htok].
  { split; [|reflexivity]. split; [discriminate|].
    intros (h' & tok & d & H & _ & Ht' & Hne & _). injection H as <-.
    rewrite Ht in Ht'. injection Ht' as <-. now elim Hne. }
  destruct (jwt_verify E (Some tok) (JWT_SECRET E)) as [d|e] eqn:Hv.
  - cbn [fst snd]. split.
    + split; [|reflexivity]. intros _. exists h, tok, d. repeat split; assumption.
    + destruct (next_throws E); discriminate.
  - split; [|reflexivity]. split; [discriminate|].
    intros (h' & tok' & d & H & _ & Ht' & _ & Hv'). injection H as <-.
    rewrite Ht in Ht'. injection Ht' as <-. congruence.
Qed.

Lemma isAuthenticated_outcomes_witness :
  Authorization.handle Sample.guard (Some "Bearer ") =
  (Returned tt, None, [json_sent 401 (message "Unauthorized")]).
Proof.
  exact (proj2 (proj2 (isAuthenticated_outcomes Sample.guard (Some "Bearer "))) eq_refl).
Defined.

(** X4. The role guard is at least as strict as the first guard: with a
    [jwt.verify] that throws on the empty token, as jsonwebtoken does,
    every request that [checkRoles] lets through under any required role
    is let through by [isAuthenticated] as well. *)
Theorem checkRoles_stricter_than_isAuthenticated (E : env) (r : RequiredRole)
    (header : option string) :
  (exists e, jwt_verify E (Some "") (JWT_SECRET E) = Thrown e) ->
  proceeds (snd (handle E r header)) = true ->
  proceeds (snd (Authorization.handle E header)) = true.
Proof.
  intros [e He] Hgo.
  rewrite handle_verdict in Hgo. cbn [snd] in Hgo.
  rewrite proceeds_verdict in Hgo.
  unfold Authorization.handle. rewrite isAuthenticated_run.
  cbn [incoming authorization req_user events app].
  destruct (rejected_header header) eqn:Hr; [discriminate|].
  cbn [negb andb orb] in *.
  destruct (token_of_accepted_header header Hr) as [tok Ht]. rewrite Ht in *.
  cbn [Js.falsy]. destruct (String.eqb_spec tok "") as [->|Hne].
  - rewrite He in Hgo. discriminate.
  - destruct (jwt_verify E (Some tok) (JWT_SECRET E)); [reflexivity | discriminate].
Qed.

Lemma checkRoles_stricter_than_isAuthenticated_witness :
  proceeds (snd (Authorization.handle Sample.guard (Some "Bearer usertoken"))) = true.
Proof.
  apply (checkRoles_stricter_than_isAuthenticated Sample.guard both
           (Some "Bearer usertoken")).
  - eexists. reflexivity.
  - reflexivity.
Defined.

End MoreGuardProperties.

(* ================================================================== *)
(** * Further properties of the repository and the services            *)
(* ================================================================== *)

Section MoreServiceFacts.

Import userRepositories userService Lifecycle.

Context {Token : Type}.

Lemma authService_createUser_run (E : env Token) (u : NewUser) (w : world) :
  authService.createUser E u w =
  if existsb (matches (new_email u)) (rows (Users w))
  then (Thrown unique_violation, w)
  else
    (Returned (Js.message "User created successfully"),
     mkWorld
       (mkTable (rows (Users w) ++ [inserted (hash_password E u) (identity (Users w))])
                (identity (Users w) + 1))
       (outbox w)).
Proof.
  destruct w as [t out].
  unfold authService.createUser, on_table, userRepositories.createUser. cbn.
  rewrite hash_password_email.
  destruct (existsb (matches (new_email u)) (rows t)); reflexivity.
Qed.

(** What [loginUser] answers depends on the found row only through the
    columns it reads. *)
Lemma loginUser_same_columns (E : env Token) (e pw : string) (w w' : world) :
  option_map (fun u => (userid u, first_name u, last_name u, email u,
                        phone_number u, password u, role u))
             (find (matches e) (rows (Users w)))
  = option_map (fun u => (userid u, first_name u, last_name u, email u,
                          phone_number u, password u, role u))
               (find (matches e) (rows (Users w'))) ->
  fst (loginUser E e pw w) = fst (loginUser E e pw w').
Proof.
  intros H. rewrite !loginUser_run.
  destruct (find (matches e) (rows (Users w))) as [u|],
           (find (matches e) (rows (Users w'))) as [u'|];
    try discriminate; [|reflexivity].
  cbn in H. injection H as H1 H2 H3 H4 H5 H6 H7.
  unfold login_payload. rewrite H1, H2, H3, H4, H5, H6, H7.
  destruct (negb _); [reflexivity|].
  destruct (JWT_SECRET E) as [s|]; [|reflexivity].
  destruct (String.eqb s ""); reflexivity.
Qed.

Lemma columns_after_update (e e' : string) (set : User -> User) (t : table) :
  (forall u, email (set u) = email u) ->
  (forall u, (userid (set u), first_name (set u), last_name (set u), email (set u),
              phone_number (set u), password (set u), role (set u))
             = (userid u, first_name u, last_name u, email u,
                phone_number u, password u, role u)) ->
  option_map (fun u => (userid u, first_name u, last_name u, email u,
                        phone_number u, password u, role u))
             (find (matches e) (rows (update_where e' set t)))
  = option_map (fun u => (userid u, first_name u, last_name u, email u,
                          phone_number u, password u, role u))
               (find (matches e) (rows t)).
Proof.
  intros He Hc. rewrite find_update_where by exact He.
  destruct (find (matches e) (rows t)) as [u|]; [|reflexivity].
  cbn [option_map]. destruct (matches e' u); [|reflexivity].
  now rewrite Hc.
Qed.

Lemma find_matches_email (e : string) (l : list User) (u : User) :
  find (matches e) l = Some u -> email u = e.
Proof.
  intros H. apply find_matches in H. now apply String.eqb_eq in H.
Qed.

End MoreServiceFacts.

Section MoreServiceProperties.

Import userRepositories userService Lifecycle.

Context {Token : Type}.

(** X5. Verification never comes into login: after a
    [setVerificationCode] or a [verifyUser], for any email and code,
    [loginUser] answers every email and password exactly as it did
    before.  It reads neither [is_verified] nor [verification_code]. *)
Theorem loginUser_ignores_verification (E : env Token) (e0 code e pw : string)
    (w : world) :
  fst (loginUser E e pw (step E (issueCode e0 code) w)) = fst (loginUser E e pw w)
  /\ fst (loginUser E e pw (step E (confirmCode e0 code) w)) = fst (loginUser E e pw w).
Proof.
  split; apply loginUser_same_columns.
  - unfold step, on_table, setVerificationCode, Eff.bind, Eff.modify, Eff.ret.
    cbn [snd fst Users].
    apply columns_after_update; reflexivity.
  - unfold step. rewrite verifyUser_run.
    destruct (find (matches e0) (rows (Users w))) as [u0|]; [|reflexivity].
    destruct (code_differs _ _); [reflexivity|]. cbn [snd Users].
    apply columns_after_update; reflexivity.
Qed.

(** X6. Register, then log in.  For an email not yet in the table and a
    non-empty password, with a [bcrypt.compare] that accepts a password
    against its own hash and the signing secret in place: after
    [createUser], of the Auth lessons or of the Sending-Mails lesson,
    [loginUser] with the same email and password returns a token signed
    over the new row, whose role is "user" and whose id is the table's
    identity value; after the Sending-Mails registration the record is
    still unverified when it logs in. *)
Theorem register_then_login (E : env Token) (u : NewUser) (w : world) (s : string) :
  find (matches (new_email u)) (rows (Users w)) = None ->
  new_password u <> "" ->
  bcrypt_compare E (new_password u) (bcrypt_hash E (new_password u)) = true ->
  JWT_SECRET E = Some s ->
  s <> "" ->
  let row := inserted (hash_password E u) (identity (Users w)) in
  role row = "user" /\ userid row = identity (Users w)
  /\ (exists res,
        loginUser E (new_email u) (new_password u) (snd (authService.createUser E u w))
        = (Returned res, snd (authService.createUser E u w))
        /\ token res = jwt_sign E (login_payload (Date_now E) row) s)
  /\ (exists res,
        loginUser E (new_email u) (new_password u) (snd (userService.createUser E u w))
        = (Returned res, snd (userService.createUser E u w))
        /\ token res = jwt_sign E (login_payload (Date_now E) row) s
        /\ flag (new_email u) (snd (userService.createUser E u w)) = Some false).
Proof.
  intros Hnew Hpw Hcmp Hs Hne. cbv zeta.
  set (row := inserted (hash_password E u) (identity (Users w))).
  assert (Hrow : matches (new_email u) row = true).
  { unfold matches, row, inserted. cbn [email]. rewrite hash_password_email.
    apply String.eqb_refl. }
  assert (Hpass : password row = bcrypt_hash E (new_password u)).
  { unfold row, inserted, hash_password. cbn [password].
    apply String.eqb_neq in Hpw. now rewrite Hpw. }
  apply String.eqb_neq in Hne.
  split; [reflexivity|]. split; [reflexivity|]. split.
  - rewrite authService_createUser_run, (find_none_existsb _ _ Hnew). cbn [snd].
    rewrite loginUser_run. cbn [Users rows]. fold row.
    rewrite (find_app_new _ _ _ Hnew Hrow), Hpass, Hcmp, Hs, Hne. cbn [negb].
    eexists. split; reflexivity.
  - rewrite createUser_run, (find_none_existsb _ _ Hnew). cbn [snd].
    rewrite loginUser_run. unfold flag. cbn [Users].
    rewrite find_update_where by apply email_set_code. cbn [rows]. fold row.
    rewrite (find_app_new _ _ _ Hnew Hrow). cbn [option_map]. rewrite Hrow.
    change (password (set_code (verificationCode (Math_random E)) row))
      with (password row).
    rewrite Hpass, Hcmp, Hs, Hne. cbn [negb].
    eexists. repeat split.
Qed.

(** X7. Registering an email that is already in the table changes nothing:
    both [createUser] functions throw at the insert, before any code is
    stored or mail sent, so the existing record keeps its password, its
    code and its [is_verified]. *)
Theorem duplicate_registration_changes_nothing (E : env Token) (u : NewUser)
    (w : world) (existing : User) :
  find (matches (new_email u)) (rows (Users w)) = Some existing ->
  userService.createUser E u w = (Thrown unique_violation, w)
  /\ authService.createUser E u w = (Thrown unique_violation, w).
Proof.
  intros H. rewrite createUser_run, authService_createUser_run.
  now rewrite (find_some_existsb _ _ _ H).
Qed.

(** X8. The mail transport has no say in registration or verification:
    whether it accepts, rejects or throws, [createUser] and [verifyUser]
    return the same value and leave the same table and the same list of
    mails handed over. *)
Theorem mail_outcome_is_ignored (E : env Token)
    (tr : mailer.mail -> outcome mailer.mailRes) (u : NewUser) (e code : string)
    (w : world) :
  userService.createUser (authService.with_transport E tr) u w
  = userService.createUser E u w
  /\ userService.verifyUser (authService.with_transport E tr) e code w
     = userService.verifyUser E e code w.
Proof.
  split.
  - rewrite !createUser_run. reflexivity.
  - rewrite !verifyUser_run. reflexivity.
Qed.

(** X10. The two verification UPDATEs of the repository report success
    whether or not a row has the email; with no such row the table is
    untouched.  They never add, drop or reorder rows, and in every row
    they leave id, names, email, phone number, password and role alone,
    touching only rows that have the email. *)
Theorem verification_updates_frame (e code : string) (t : table) (which : bool) :
  let c := if which then setVerificationCode e code
           else userRepositories.verifyUser e in
    (exists m, fst (c t) = Returned (Js.message m))
     /\ (find (matches e) (rows t) = None -> snd (c t) = t)
     /\ identity (snd (c t)) = identity t
     /\ length (rows (snd (c t))) = length (rows t)
     /\ (forall i u,
           nth_error (rows t) i = Some u ->
           exists u',
             nth_error (rows (snd (c t))) i = Some u'
             /\ (userid u', first_name u', last_name u', email u',
                 phone_number u', password u', role u')
                = (userid u, first_name u, last_name u, email u,
                   phone_number u, password u, role u)
             /\ (matches e u = false -> u' = u)).
Proof.
  assert (Hgen : forall set : User -> User,
    (forall u, (userid (set u), first_name (set u), last_name (set u), email (set u),
                phone_number (set u), password (set u), role (set u))
               = (userid u, first_name u, last_name u, email u,
                  phone_number u, password u, role u)) ->
    (find (matches e) (rows t) = None -> update_where e set t = t)
    /\ length (rows (update_where e set t)) = length (rows t)
    /\ (forall i u,
          nth_error (rows t) i = Some u ->
          exists u',
            nth_error (rows (update_where e set t)) i = Some u'
            /\ (userid u', first_name u', last_name u', email u',
                phone_number u', password u', role u')
               = (userid u, first_name u, last_name u, email u,
                  phone_number u, password u, role u)
            /\ (matches e u = false -> u' = u))).
  { intros set Hset. unfold update_where. cbn [rows]. repeat apply conj.
    - intros Hnone. destruct t as [l n]. cbn [rows identity] in *. f_equal.
      induction l as [|x l IH]; [reflexivity|]. cbn in *.
      destruct (matches e x); [discriminate|]. now rewrite IH.
    - apply length_map.
    - intros i u Hi. rewrite nth_error_map, Hi. cbn [option_map].
      eexists. split; [reflexivity|].
      destruct (matches e u); [split; [apply Hset | discriminate] | now split]. }
  destruct which; cbv zeta.
  - destruct (Hgen (set_code code) (fun _ => eq_refl)) as (H1 & H2 & H3).
    unfold setVerificationCode, Eff.bind, Eff.modify, Eff.ret. cbn [fst snd].
    repeat apply conj; try assumption; try reflexivity. now eexists.
  - destruct (Hgen set_verified (fun _ => eq_refl)) as (H1 & H2 & H3).
    unfold userRepositories.verifyUser, Eff.bind, Eff.modify, Eff.ret. cbn [fst snd].
    repeat apply conj; try assumption; try reflexivity. now eexists.
Qed.

End MoreServiceProperties.

Section DoubleFacts.

Import Double.

(** Powers of two. *)
Lemma pow2_pos (z : Z) : 0 < 2 ^ z.
Proof. apply Qpower_0_lt. reflexivity. Qed.

Lemma pow2_le (a b : Z) : (a <= b)%Z -> 2 ^ a <= 2 ^ b.
Proof. intros H. apply Qpower_le_compat_l; [exact H | discriminate]. Qed.

Lemma pow2_lt_inv (a b : Z) : 2 ^ a < 2 ^ b -> (a < b)%Z.
Proof. intros H. apply (Qpower_lt_compat_l_inv 2); [exact H | reflexivity]. Qed.

Lemma pow2_Z (n : Z) : (0 <= n)%Z -> 2 ^ n == inject_Z (2 ^ n).
Proof. intros H. now rewrite (Zpower_Qpower 2 n H). Qed.

Lemma pow2_minus (a b : Z) :
  (0 <= a)%Z -> (0 <= b)%Z -> 2 ^ (a - b) == inject_Z (2 ^ a) / inject_Z (2 ^ b).
Proof.
  intros Ha Hb. rewrite Qpower_minus by discriminate.
  now rewrite (pow2_Z a Ha), (pow2_Z b Hb).
Qed.

Lemma exponent_spec (q : Q) :
  0 < q -> 2 ^ exponent q <= q /\ q < 2 ^ (exponent q + 1).
Proof.
  intros Hq. destruct q as [n d].
  assert (Hn : (0 < n)%Z).
  { unfold Qlt in Hq. cbn in Hq. lia. }
  unfold exponent. cbn [Qnum Qden].
  rewrite (Z.abs_eq n) by lia.
  rewrite (Qabs_pos (n # d)) by (now apply Qlt_le_weak).
  pose proof (Z.log2_spec n Hn) as [Hnl Hnu].
  pose proof (Z.log2_spec (Zpos d) eq_refl) as [Hdl Hdu].
  pose proof (Z.log2_nonneg n) as Ha.
  pose proof (Z.log2_nonneg (Zpos d)) as Hb.
  set (a := Z.log2 n) in *. set (b := Z.log2 (Zpos d)) in *.
  assert (Hpa : (0 < 2 ^ a)%Z) by (apply Z.pow_pos_nonneg; lia).
  assert (Hpb : (0 < 2 ^ b)%Z) by (apply Z.pow_pos_nonneg; lia).
  assert (Hsa : (2 ^ Z.succ a = 2 * 2 ^ a)%Z) by (apply Z.pow_succ_r; lia).
  assert (Hsb : (2 ^ Z.succ b = 2 * 2 ^ b)%Z) by (apply Z.pow_succ_r; lia).
  destruct (Qle_bool (2 ^ (a - b)) (n # d)) eqn:Hle.
  - apply Qle_bool_iff in Hle. split; [exact Hle|].
    replace (a - b + 1)%Z with (Z.succ a - b)%Z by lia.
    rewrite pow2_minus by lia.
    apply Qlt_shift_div_l.
    + rewrite <- (Zlt_Qlt 0). exact Hpb.
    + unfold Qlt, Qmult, inject_Z. cbn [Qnum Qden]. nia.
  - assert (Hlt : (n # d) < 2 ^ (a - b)).
    { apply Qnot_le_lt. intros H. apply Qle_bool_iff in H. congruence. }
    split.
    + replace (a - b - 1)%Z with (a - Z.succ b)%Z by lia.
      rewrite pow2_minus by lia.
      apply Qle_shift_div_r.
      * rewrite <- (Zlt_Qlt 0). lia.
      * unfold Qle, Qmult, inject_Z. cbn [Qnum Qden]. nia.
    + now replace (a - b - 1 + 1)%Z with (a - b)%Z by lia.
Qed.


Lemma exponent_below (q : Q) (c : Z) :
  0 <= q -> q < 2 ^ c -> (0 <= c)%Z -> (exponent q < c)%Z.
Proof.
  intros H0 Hc Hc0. destruct (Qlt_le_dec 0 q) as [Hpos|Hneg].
  - destruct (exponent_spec q Hpos) as [Hl _].
    apply pow2_lt_inv. now apply Qle_lt_trans with q.
  - destruct q as [n d].
    assert (n = 0%Z) as ->.
    { unfold Qle in H0, Hneg. cbn in H0, Hneg. lia. }
    unfold exponent. cbn [Qnum Qden Z.abs].
    pose proof (Z.log2_nonneg (Zpos d)) as Hb.
    change (Z.log2 0) with 0%Z.
    destruct (Qle_bool (2 ^ (0 - Z.log2 (Zpos d))) (Qabs (0 # d))) eqn:Hle; [|lia].
    apply Qle_bool_iff in Hle.
    pose proof (pow2_pos (0 - Z.log2 (Zpos d))) as Hp.
    exfalso. apply (Qlt_irrefl 0).
    apply Qlt_le_trans with (2 ^ (0 - Z.log2 (Zpos d))); [exact Hp|].
    apply Qle_trans with (Qabs (0 # d)); [exact Hle|].
    unfold Qabs, Qle. cbn. lia.
Qed.

Lemma exponent_above (q : Q) (c : Z) : 2 ^ c <= q -> (c <= exponent q)%Z.
Proof.
  intros Hc.
  assert (Hpos : 0 < q) by (apply Qlt_le_trans with (2 ^ c); [apply pow2_pos | exact Hc]).
  destruct (exponent_spec q Hpos) as [_ Hu].
  assert (H : (c < exponent q + 1)%Z); [|lia].
  apply pow2_lt_inv. now apply Qle_lt_trans with q.
Qed.

Lemma ulp_pos (q : Q) : 0 < ulp q.
Proof. apply pow2_pos. Qed.

Lemma nearest_even_floor (t : Q) :
  (Qfloor t <= nearest_even t <= Qfloor t + 1)%Z.
Proof.
  unfold nearest_even.
  destruct (Qcompare (t - inject_Z (Qfloor t)) (1 # 2)); [|lia|lia].
  destruct (Z.even (Qfloor t)); lia.
Qed.

Lemma nearest_even_ge (t : Q) (m : Z) :
  inject_Z m <= t -> (m <= nearest_even t)%Z.
Proof.
  intros H. apply Qfloor_resp_le in H. rewrite Qfloor_Z in H.
  pose proof (nearest_even_floor t). lia.
Qed.

Lemma nearest_even_le (t : Q) (m : Z) :
  t < inject_Z m + (1 # 2) -> (nearest_even t <= m)%Z.
Proof.
  intros H.
  assert (Hf : (Qfloor t <= m)%Z).
  { assert (Hlt : (Qfloor t < m + 1)%Z); [|lia].
    rewrite Zlt_Qlt. apply Qle_lt_trans with t; [apply Qfloor_le|].
    rewrite inject_Z_plus. change (inject_Z 1) with 1. lra. }
  destruct (Z.eq_dec (Qfloor t) m) as [Heq|Hne].
  - unfold nearest_even. rewrite Heq.
    assert (Hc : Qcompare (t - inject_Z m) (1 # 2) = Lt).
    { rewrite <- Qlt_alt. lra. }
    now rewrite Hc.
  - pose proof (nearest_even_floor t). lia.
Qed.

(** Rounding does not pass a number of the grid around [q], and goes
    down to it from less than half a step above. *)
Lemma round_le (q a : Q) (m : Z) :
  a == inject_Z m * ulp q -> q < a + ulp q * (1 # 2) -> round q <= a.
Proof.
  intros Ha Hq. pose proof (ulp_pos q) as Hu.
  unfold round. rewrite Ha.
  apply Qmult_le_compat_r; [|now apply Qlt_le_weak].
  rewrite <- Zle_Qle. apply nearest_even_le.
  apply Qlt_shift_div_r; [exact Hu|].
  rewrite Ha in Hq. lra.
Qed.

Lemma round_ge (q a : Q) (m : Z) :
  a == inject_Z m * ulp q -> a <= q -> a <= round q.
Proof.
  intros Ha Hq. pose proof (ulp_pos q) as Hu.
  unfold round. rewrite Ha.
  apply Qmult_le_compat_r; [|now apply Qlt_le_weak].
  rewrite <- Zle_Qle. apply nearest_even_ge.
  apply Qle_shift_div_l; [exact Hu|].
  now rewrite <- Ha.
Qed.

(** Below [2^20] the grid is at least as fine as [2^-33]. *)
Lemma ulp_below_2_20 (q : Q) (N : Z) :
  0 <= q -> q < 2 ^ 20 ->
  exists m, inject_Z N * 2 ^ (-33) == inject_Z m * ulp q.
Proof.
  intros H0 H20.
  pose proof (exponent_below q 20 H0 H20 ltac:(lia)) as He.
  unfold ulp. set (j := (Z.max (exponent q) (-1022) - 52)%Z).
  assert (Hj : (j <= -33)%Z) by (unfold j; lia).
  exists (N * 2 ^ (-33 - j))%Z.
  rewrite inject_Z_mult, <- (pow2_Z (-33 - j)) by lia.
  rewrite <- Qmult_assoc, <- Qpower_plus by discriminate.
  now replace (-33 - j + j)%Z with (-33)%Z by lia.
Qed.


(** The largest double below 1 is [1 - 2^-53]. *)
Lemma double_below_one (r : Q) :
  is_double r -> r < 1 -> r <= 1 - 2 ^ (-53).
Proof.
  intros Hd H1.
  assert (Hc : 1 - 2 ^ (-53) == 9007199254740991 # 9007199254740992) by reflexivity.
  destruct (Qlt_le_dec 0 r) as [Hpos|Hneg]; [|rewrite Hc; lra].
  pose proof (exponent_below r 0 (Qlt_le_weak _ _ Hpos) H1 ltac:(lia)) as He.
  destruct (exponent_spec r Hpos) as [_ Hu].
  destruct (Z.eq_dec (exponent r) (-1)) as [Heq|Hne].
  - unfold is_double, round, ulp in Hd. rewrite Heq in Hd.
    change (2 ^ (Z.max (-1) (-1022) - 52)) with (1 # 9007199254740992) in Hd.
    set (k := nearest_even _) in Hd.
    assert (Hk : (k < 9007199254740992)%Z).
    { rewrite Zlt_Qlt. unfold inject_Z at 2. lra. }
    assert (Hk' : inject_Z k <= inject_Z 9007199254740991).
    { rewrite <- Zle_Qle. lia. }
    unfold inject_Z at 2 in Hk'. rewrite Hc. lra.
  - assert (Hle : 2 ^ (exponent r + 1) <= 2 ^ (-1)) by (apply pow2_le; lia).
    change (2 ^ (-1)) with (1 # 2) in Hle. rewrite Hc. lra.
Qed.

(** The code as a number, for a draw that is a double in [0, 1): the
    product rounds to at most [900000 - 2^-33], the sum stays a step
    below 1000000. *)
Lemma code_number_range (r : Q) :
  is_double r -> 0 <= r -> r < 1 ->
  (100000 <= Qfloor (add 100000 (mul r 900000)) <= 999999)%Z.
Proof.
  intros Hd H0 H1.
  pose proof (double_below_one r Hd H1) as Hmax.
  assert (Hc : 1 - 2 ^ (-53) == 9007199254740991 # 9007199254740992) by reflexivity.
  rewrite Hc in Hmax. clear Hc.
  assert (H20 : 2 ^ 20 == 1048576) by reflexivity.
  assert (H19 : 2 ^ 19 == 524288) by reflexivity.
  assert (H33 : 2 ^ (-33) == 1 # 8589934592) by reflexivity.
  unfold add, mul.
  set (x := r * 900000).
  assert (Hx0 : 0 <= x) by (unfold x; lra).
  assert (Hx1 : x <= 900000 * (9007199254740991 # 9007199254740992)) by (unfold x; lra).
  assert (Hx20 : x < 2 ^ 20) by (rewrite H20; lra).
  (* the product *)
  assert (Hy0 : 0 <= round x).
  { apply (round_ge x 0 0); [ring | exact Hx0]. }
  assert (Hy1 : round x <= inject_Z 7730941132799999 * 2 ^ (-33)).
  { destruct (ulp_below_2_20 x 7730941132799999 Hx0 Hx20) as [m Hm].
    apply (round_le x _ m Hm).
    destruct (Qlt_le_dec x (2 ^ 19)) as [Hlow|Hhigh].
    - pose proof (ulp_pos x). rewrite H33. unfold inject_Z. rewrite H19 in Hlow. lra.
    - pose proof (exponent_above x 19 Hhigh) as He.
      pose proof (exponent_below x 20 Hx0 Hx20 ltac:(lia)) as He'.
      unfold ulp. replace (exponent x) with 19%Z by lia.
      change (2 ^ (Z.max 19 (-1022) - 52)) with (1 # 8589934592).
      rewrite H33. unfold inject_Z. lra. }
  set (y := round x) in *.
  rewrite H33 in Hy1. unfold inject_Z in Hy1.
  (* the sum *)
  set (z := 100000 + y).
  assert (Hz0 : 0 <= z) by (unfold z; lra).
  assert (Hz20 : z < 2 ^ 20) by (rewrite H20; unfold z; lra).
  assert (Hz : z == 100000 + y) by reflexivity.
  clearbody z.
  assert (Hlow : inject_Z 858993459200000 * 2 ^ (-33) <= round z).
  { destruct (ulp_below_2_20 z 858993459200000 Hz0 Hz20) as [m Hm].
    apply (round_ge z _ m Hm). rewrite H33. unfold inject_Z. lra. }
  assert (Hhigh : round z <= inject_Z 8589934591999999 * 2 ^ (-33)).
  { destruct (ulp_below_2_20 z 8589934591999999 Hz0 Hz20) as [m Hm].
    apply (round_le z _ m Hm).
    pose proof (ulp_pos z). rewrite H33. unfold inject_Z. lra. }
  rewrite H33 in Hlow, Hhigh. unfold inject_Z in Hlow, Hhigh.
  split.
  - assert (H : (Qfloor (inject_Z 100000) <= Qfloor (round z))%Z).
    { apply Qfloor_resp_le. unfold inject_Z. lra. }
    now rewrite Qfloor_Z in H.
  - assert (H : (Qfloor (round z) < 1000000)%Z); [|lia].
    rewrite Zlt_Qlt. apply Qle_lt_trans with (round z); [apply Qfloor_le|].
    unfold inject_Z. lra.
Qed.


End DoubleFacts.

Section CodeAndLookup.

Import userRepositories userService.

(** X9. The verification code is the decimal numeral of an integer
    between 100000 and 999999, for every draw that is a double in
    [0, 1), with the product and the sum rounded as JavaScript rounds
    them. *)
Theorem verificationCode_range (random : Q) :
  Double.is_double random -> 0 <= random -> random < 1 ->
  exists n : Z,
    verificationCode random = Js.toString n
    /\ (100000 <= n <= 999999)%Z.
Proof.
  intros Hd H0 H1.
  exists (Qfloor (Double.add 100000 (Double.mul random 900000))).
  split; [reflexivity|]. now apply code_number_range.
Qed.

(** A draw for which the rounding decides the last digit: on exact
    rationals the floor would be 482912. *)
Lemma verificationCode_range_witness :
  verificationCode (7664385973845861 # 18014398509481984) = "482913"
  /\ Qfloor (100000 + (7664385973845861 # 18014398509481984) * 900000) = 482912%Z
  /\ exists n : Z,
       verificationCode (7664385973845861 # 18014398509481984) = Js.toString n
       /\ (100000 <= n <= 999999)%Z.
Proof.
  split; [vm_compute; reflexivity|]. split; [vm_compute; reflexivity|].
  apply (verificationCode_range (7664385973845861 # 18014398509481984)).
  - vm_compute. reflexivity.
  - unfold Qle. cbn. lia.
  - unfold Qlt. cbn. lia.
Defined.

(** X11. Insert, then look up.  [createUser] of the repository is refused
    exactly when a row already has the email, and then nothing is
    written.  Otherwise [getUserByEmail] afterwards finds the new row,
    with the next identity value as id, role "user", no code and
    [is_verified] false, and finds for every other email what it found
    before. *)
Theorem createUser_then_getUserByEmail (u : NewUser) (t : table) :
  if existsb (matches (new_email u)) (rows t)
  then userRepositories.createUser u t = (Thrown unique_violation, t)
  else
    fst (userRepositories.createUser u t)
    = Returned (Js.message "User created successfully")
    /\ fst (getUserByEmail (new_email u) (snd (userRepositories.createUser u t)))
       = Returned (Some (mkUser (identity t) (new_first_name u) (new_last_name u)
                                (new_email u) (new_phone_number u) (new_password u)
                                "user" None false))
    /\ (forall e, e <> new_email u ->
          fst (getUserByEmail e (snd (userRepositories.createUser u t)))
          = fst (getUserByEmail e t))
    /\ identity (snd (userRepositories.createUser u t)) = (identity t + 1)%Z.
Proof.
  unfold userRepositories.createUser.
  destruct (existsb (matches (new_email u)) (rows t)) eqn:Hex; [reflexivity|].
  cbn [fst snd]. unfold getUserByEmail, Eff.read. cbn [fst rows identity].
  assert (Hnone : find (matches (new_email u)) (rows t) = None).
  { destruct (find (matches (new_email u)) (rows t)) eqn:Hf; [|reflexivity].
    rewrite (find_some_existsb _ _ _ Hf) in Hex. discriminate. }
  repeat apply conj; try reflexivity.
  - rewrite (find_app_new _ _ _ Hnone); [reflexivity|].
    unfold matches, inserted. cbn [email]. apply String.eqb_refl.
  - intros e He. rewrite find_app_other; [reflexivity|].
    unfold matches, inserted. cbn [email]. apply String.eqb_neq. congruence.
Qed.

End CodeAndLookup.

(* ================================================================== *)
(** * Controllers                                                      *)
(* ================================================================== *)

Section ControllerFacts.

Import Http userRepositories userService Lifecycle.

Context {Token : Type}.

Lemma verifyUser_controller_run (E : env Token) (email code : option string)
    (x : served world) :
  userController.verifyUser E email code x =
  (Returned tt,
   match email, code with
   | Some e, Some c =>
       if String.eqb e "" || String.eqb c ""
       then mkServed (store x) (replies x ++ [userController.fields_required])
       else
         match userService.verifyUser E e c (store x) with
         | (Returned v, s) => mkServed s (replies x ++ [Guard.json_sent 200 v])
         | (Thrown err, s) =>
             mkServed s (replies x ++
                         [Guard.json_sent 400 (Js.message (Js.err_message err))])
         end
   | _, _ => mkServed (store x) (replies x ++ [userController.fields_required])
   end).
Proof.
  destruct x as [w sent].
  unfold userController.verifyUser, Eff.try_catch, userController.fields_required.
  destruct email as [e|], code as [c|]; cbn [Js.falsy orb]; try reflexivity.
  - destruct (String.eqb e ""); cbn [orb]; [reflexivity|].
    destruct (String.eqb c ""); [reflexivity|].
    unfold Eff.bind, on_store. cbn [store replies].
    destruct (userService.verifyUser E e c w) as [[v|err] s]; reflexivity.
  - destruct (String.eqb e ""); reflexivity.
Qed.

Lemma loginUser_controller_run (E : env Token)
    (untyped : Js.value -> Js.value -> Eff.t world (LoginResult Token))
    (text : Token -> string) (member_email member_password : Js.value) (x : served world) :
  userController.loginUser E untyped text member_email member_password x =
  (Returned tt,
   mkServed (snd (userController.loginUser_call E untyped member_email member_password (store x)))
     (replies x ++
      [match fst (userController.loginUser_call E untyped member_email member_password (store x)) with
       | Returned r => Guard.json_sent 200 (userController.login_body text r)
       | Thrown err =>
           if String.eqb (Js.err_message err) "User not found"
           then Guard.json_sent 404 (error_body (Js.err_message err))
           else if String.eqb (Js.err_message err) "Invalid credentials"
           then Guard.json_sent 401 (error_body (Js.err_message err))
           else Guard.json_sent 500 (error_body (Js.err_message err))
       end])).
Proof.
  destruct x as [w sent].
  unfold userController.loginUser, Eff.try_catch, Eff.bind, on_store.
  cbn [store replies].
  destruct (userController.loginUser_call E untyped member_email member_password w) as [[r|err] w'];
    cbn [fst snd]; [reflexivity|].
  destruct (String.eqb (Js.err_message err) "User not found"); [reflexivity|].
  destruct (String.eqb (Js.err_message err) "Invalid credentials"); reflexivity.
Qed.

End ControllerFacts.

Section ControllerProperties.

Import Http userRepositories userService Lifecycle.

Context {Token : Type}.

(** X12. The verify endpoint never throws and answers once, with 200 or
    400.  It answers 200 exactly when the body has a non-empty email and
    a non-empty code, a record has that email, and its stored code is the
    submitted one; the record is then verified and its code cleared.
    Every 400 (a member missing or empty, no such user, wrong code)
    leaves the state as it was. *)
Theorem verify_endpoint (E : env Token) (email code : option string)
    (x : served world) :
  fst (userController.verifyUser E email code x) = Returned tt
  /\ exists status body,
       replies (snd (userController.verifyUser E email code x))
       = (replies x ++ [Guard.json_sent status body])%list
       /\ (status = 200 \/ status = 400)%Z
       /\ (status = 200%Z <->
           exists e c u,
             email = Some e /\ code = Some c /\ e <> "" /\ c <> ""
             /\ find (matches e) (rows (Users (store x))) = Some u
             /\ verification_code u = Some c)
       /\ (status = 400%Z ->
           store (snd (userController.verifyUser E email code x)) = store x)
       /\ (status = 200%Z ->
           forall e, email = Some e ->
             flag e (store (snd (userController.verifyUser E email code x))) = Some true
             /\ stored_code e (store (snd (userController.verifyUser E email code x)))
                = None).
Proof.
  rewrite verifyUser_controller_run. cbn [fst snd]. split; [reflexivity|].
  destruct email as [e|].
  2:{ eexists 400%Z, _. split; [reflexivity|]. split; [now right|].
      repeat split; try discriminate.
      intros (e & c & u & H & _). discriminate. }
  destruct code as [c|].
  2:{ eexists 400%Z, _. split; [reflexivity|]. split; [now right|].
      repeat split; try discriminate.
      intros (e' & c & u & _ & H & _). discriminate. }
  destruct (String.eqb_spec e "") as [->|He].
  { eexists 400%Z, _. split; [reflexivity|]. split; [now right|].
    repeat split; try discriminate.
    intros (e' & c' & u & H & _ & Hne & _). injection H as <-. now elim Hne. }
  destruct (String.eqb_spec c "") as [->|Hc]; cbn [orb].
  { eexists 400%Z, _. split; [reflexivity|]. split; [now right|].
    repeat split; try discriminate.
    intros (e' & c' & u & _ & H & _ & Hne & _). injection H as <-. now elim Hne. }
  pose proof (verifyUser_run E e c (store x)) as Hrun.
  destruct (find (matches e) (rows (Users (store x)))) as [u|] eqn:Hfind.
  2:{ rewrite Hrun. eexists 400%Z, _. split; [reflexivity|]. split; [now right|].
      repeat split; try discriminate.
      intros (e' & c' & u & H & _ & _ & _ & Hf & _). injection H as <-. congruence. }
  destruct (code_differs (verification_code u) c) eqn:Hd.
  { rewrite Hrun. eexists 400%Z, _. split; [reflexivity|]. split; [now right|].
    repeat split; try discriminate.
    intros (e' & c' & u' & H & H' & _ & _ & Hf & Hv).
    injection H as <-. injection H' as <-.
    rewrite Hfind in Hf. injection Hf as <-.
    apply code_differs_false in Hv. congruence. }
  apply code_differs_false in Hd.
  destruct (confirm_then_confirm_again E e c (store x) u Hfind Hd)
    as (Hret & Hflag & Hcode & _).
  clear Hrun.
  destruct (userService.verifyUser E e c (store x)) as [[v|err] s];
    cbn [fst snd] in *; [|discriminate].
  eexists 200%Z, _. split; [reflexivity|]. split; [now left|].
  repeat split; try discriminate.
  - intros _. exists e, c, u. repeat split; assumption.
  - injection H0 as <-. exact Hflag.
  - injection H0 as <-. exact Hcode.
Qed.

(** X13. The login endpoint never throws and answers once, by what the
    service call does.  It answers 200 with the result exactly when the
    call returns; when the call throws, the body is the error's message,
    the status is 404 exactly for "User not found", 401 exactly for
    "Invalid credentials" and 500 for every other error, such as the one
    [bcrypt.compare] raises for a body without a password.  For a body
    whose email and password are strings nothing is written and the
    answer is: 404 when no record has the email, 401 when the password
    does not match, 500 with "JWT secret not defined" when the
    credentials are right but the secret is missing or empty, and
    otherwise 200 with the token and a user object that has no
    [password] member. *)
Theorem login_endpoint (E : env Token)
    (untyped : Js.value -> Js.value -> Eff.t world (LoginResult Token))
    (text : Token -> string) (member_email member_password : Js.value) (e pw : string)
    (x : served world) :
  (fst (userController.loginUser E untyped text member_email member_password x) = Returned tt
   /\ store (snd (userController.loginUser E untyped text member_email member_password x))
      = snd (userController.loginUser_call E untyped member_email member_password (store x))
   /\ exists status body,
        replies (snd (userController.loginUser E untyped text member_email member_password x))
        = (replies x ++ [Guard.json_sent status body])%list
        /\ (status = 200 \/ status = 404 \/ status = 401 \/ status = 500)%Z
        /\ (status = 200%Z <->
            exists r,
              fst (userController.loginUser_call E untyped member_email member_password (store x))
              = Returned r)
        /\ (forall r,
              fst (userController.loginUser_call E untyped member_email member_password (store x))
              = Returned r ->
              body = userController.login_body text r)
        /\ (forall err,
              fst (userController.loginUser_call E untyped member_email member_password (store x))
              = Thrown err ->
              body = error_body (Js.err_message err)
              /\ (status = 404%Z <-> Js.err_message err = "User not found")
              /\ (status = 401%Z <-> Js.err_message err = "Invalid credentials")))
  /\ store (snd (userController.loginUser E untyped text (Js.str e) (Js.str pw) x))
     = store x
  /\ exists status body,
       replies (snd (userController.loginUser E untyped text (Js.str e) (Js.str pw) x))
       = (replies x ++ [Guard.json_sent status body])%list
       /\ match find (matches e) (rows (Users (store x))) with
          | None => status = 404%Z /\ body = error_body "User not found"
          | Some u =>
              if bcrypt_compare E pw (password u)
              then
                if Js.falsy (JWT_SECRET E)
                then status = 500%Z /\ body = error_body "JWT secret not defined"
                else
                  status = 200%Z
                  /\ (exists s,
                        JWT_SECRET E = Some s
                        /\ Js.get body "token"
                           = Js.str (text (jwt_sign E (login_payload (Date_now E) u) s)))
                  /\ Js.has_property "password" (Js.get body "user") = false
                  /\ Js.has_property "password" body = false
              else status = 401%Z /\ body = error_body "Invalid credentials"
          end.
Proof.
  rewrite !loginUser_controller_run. cbn [fst snd store replies].
  split; [|split].
  - split; [reflexivity|]. split; [reflexivity|].
    destruct (fst (userController.loginUser_call E untyped member_email member_password (store x)))
      as [r|err].
    + eexists 200%Z, _. split; [reflexivity|]. split; [now left|].
      split; [split; [intros _; now exists r | reflexivity]|].
      split; [now intros r' [= <-] | discriminate].
    + destruct (String.eqb_spec (Js.err_message err) "User not found") as [Hm|Hm].
      { eexists 404%Z, _. split; [reflexivity|]. split; [now right; left|].
        split; [split; [discriminate | intros [r Hr]; discriminate]|].
        split; [discriminate|]. intros err' [= <-].
        split; [reflexivity|]. split; [now split|].
        split; [discriminate|]. rewrite Hm. discriminate. }
      destruct (String.eqb_spec (Js.err_message err) "Invalid credentials") as [Hc|Hc].
      { eexists 401%Z, _. split; [reflexivity|]. split; [now right; right; left|].
        split; [split; [discriminate | intros [r Hr]; discriminate]|].
        split; [discriminate|]. intros err' [= <-].
        split; [reflexivity|]. split; [|now split].
        split; [discriminate|]. intros H. now elim Hm. }
      eexists 500%Z, _. split; [reflexivity|]. split; [now right; right; right|].
      split; [split; [discriminate | intros [r Hr]; discriminate]|].
      split; [discriminate|]. intros err' [= <-].
      split; [reflexivity|].
      split; (split; [discriminate | intros H; contradiction]).
  - unfold userController.loginUser_call. rewrite loginUser_run.
    destruct (find (matches e) (rows (Users (store x)))) as [u|]; [|reflexivity].
    destruct (negb _); [reflexivity|].
    destruct (JWT_SECRET E) as [s|]; [|reflexivity].
    destruct (String.eqb s ""); reflexivity.
  - unfold userController.loginUser_call. rewrite loginUser_run.
    destruct (find (matches e) (rows (Users (store x)))) as [u|].
    2:{ eexists _, _. repeat split. }
    destruct (bcrypt_compare E pw (password u)); cbn [negb].
    2:{ eexists _, _. repeat split. }
    destruct (JWT_SECRET E) as [s|]; cbn [Js.falsy].
    2:{ eexists _, _. repeat split. }
    destruct (String.eqb s "").
    { eexists _, _. repeat split. }
    eexists _, _. split; [reflexivity|].
    split; [reflexivity|]. split; [now exists s|]. split; reflexivity.
Qed.

End ControllerProperties.

Section ControllerInstances.

Import Http userRepositories userService.

(** Alice logs in with a body that has no password: 500, with the
    library's message. *)
Lemma login_endpoint_witness :
  exists status body,
    replies
      (snd (userController.loginUser (Sample.service (Some Sample.secret))
              Sample.login_without_strings (fun _ => "token")
              (Js.str "a@x.com") Js.undefined
              (arriving (Sample.world_of Sample.alice))))
    = [Guard.json_sent status body]
    /\ status = 500%Z
    /\ body = error_body "data and hash arguments required".
Proof.
  destruct (login_endpoint (Sample.service (Some Sample.secret))
              Sample.login_without_strings (fun _ => "token")
              (Js.str "a@x.com") Js.undefined "a@x.com" "password123"
              (arriving (Sample.world_of Sample.alice)))
    as [(_ & _ & status & body & Hreplies & Hstatus & H200 & _ & Hthrown) _].
  exists status, body. split; [exact Hreplies|].
  destruct (Hthrown (Js.Error "data and hash arguments required") eq_refl)
    as (Hbody & H404 & H401).
  split; [|exact Hbody].
  destruct Hstatus as [H | [H | [H | H]]]; [| | |exact H].
  - destruct (proj1 H200 H) as [r Hr]. discriminate Hr.
  - pose proof (proj1 H404 H) as Hm. discriminate Hm.
  - pose proof (proj1 H401 H) as Hm. discriminate Hm.
Defined.

End ControllerInstances.

Section TodoProperties.

Import Http.

Context {S : Type}.

(** The part the three controllers with an id have in common: look the todo
    up, then act on it. *)
Lemma by_id_run (R : todoServices.repository S) (id : option Z)
    (act : Z -> Js.value -> Eff.t S Js.value) (ok : Z) (x : served S)
    (service : Eff.t S Js.value) :
  service =
    match id with
    | None => Eff.throw (Js.Error "Inavlid todoid")
    | Some n =>
        (existingtodo <- todoServices.getTodoById R n ;;
         if negb (JsText.truthy existingtodo)
         then Eff.throw (Js.Error "Todo not found")
         else act n existingtodo)%eff
    end ->
  Eff.try_catch
    (result <- on_store service ;; res_status_json ok result)%eff
    todoController.by_message x
  = match id with
    | None =>
        (Returned tt,
         mkServed (store x)
           (replies x ++ [Guard.json_sent 400 (Js.message "Inavlid todoid")]))
    | Some n =>
        match todoServices.getTodoById R n (store x) with
        | (Thrown err, s) => todoController.by_message err (mkServed s (replies x))
        | (Returned v, s) =>
            if JsText.truthy v
            then
              match act n v s with
              | (Returned res, s') =>
                  (Returned tt, mkServed s' (replies x ++ [Guard.json_sent ok res]))
              | (Thrown err, s') =>
                  todoController.by_message err (mkServed s' (replies x))
              end
            else
              (Returned tt,
               mkServed s
                 (replies x ++ [Guard.json_sent 404 (Js.message "Todo not found")]))
        end
    end.
Proof.
  intros ->. destruct x as [st sent].
  unfold Eff.try_catch, Eff.bind, on_store. cbn [store replies].
  destruct id as [n|]; [|reflexivity].
  destruct (todoServices.getTodoById R n st) as [[v|err] s]; [|reflexivity].
  destruct (JsText.truthy v); [|reflexivity]. cbn [negb].
  destruct (act n v s) as [[res|err] s']; reflexivity.
Qed.

Lemma getTodoById_run (R : todoServices.repository S) (id : option Z) (x : served S) :
  todoController.getTodoById R id x =
  match id with
  | None =>
      (Returned tt,
       mkServed (store x)
         (replies x ++ [Guard.json_sent 400 (Js.message "Inavlid todoid")]))
  | Some n =>
      match todoServices.getTodoById R n (store x) with
      | (Thrown err, s) => todoController.by_message err (mkServed s (replies x))
      | (Returned v, s) =>
          if JsText.truthy v
          then (Returned tt, mkServed s (replies x ++ [Guard.json_sent 200 v]))
          else
            (Returned tt,
             mkServed s
               (replies x ++ [Guard.json_sent 404 (Js.message "Todo not found")]))
      end
  end.
Proof.
  unfold todoController.getTodoById.
  rewrite (by_id_run R id (fun _ v => Eff.ret v) 200 x) by reflexivity.
  destruct id as [n|]; [|reflexivity].
  destruct (todoServices.getTodoById R n (store x)) as [[v|err] s]; reflexivity.
Qed.

Lemma updateTodo_run (R : todoServices.repository S) (id : option Z)
    (todo : Js.value) (x : served S) :
  todoController.updateTodo R id todo x =
  match id with
  | None =>
      (Returned tt,
       mkServed (store x)
         (replies x ++ [Guard.json_sent 400 (Js.message "Inavlid todoid")]))
  | Some n =>
      match todoServices.getTodoById R n (store x) with
      | (Thrown err, s) => todoController.by_message err (mkServed s (replies x))
      | (Returned v, s) =>
          if JsText.truthy v
          then
            match todoServices.repo_updateTodo R n todo s with
            | (Returned res, s') =>
                (Returned tt, mkServed s' (replies x ++ [Guard.json_sent 200 res]))
            | (Thrown err, s') =>
                todoController.by_message err (mkServed s' (replies x))
            end
          else
            (Returned tt,
             mkServed s
               (replies x ++ [Guard.json_sent 404 (Js.message "Todo not found")]))
      end
  end.
Proof.
  unfold todoController.updateTodo.
  now rewrite (by_id_run R id (fun n _ => todoServices.repo_updateTodo R n todo) 200 x).
Qed.

Lemma deleteTodo_run (R : todoServices.repository S) (id : option Z) (x : served S) :
  todoController.deleteTodo R id x =
  match id with
  | None =>
      (Returned tt,
       mkServed (store x)
         (replies x ++ [Guard.json_sent 400 (Js.message "Inavlid todoid")]))
  | Some n =>
      match todoServices.getTodoById R n (store x) with
      | (Thrown err, s) => todoController.by_message err (mkServed s (replies x))
      | (Returned v, s) =>
          if JsText.truthy v
          then
            match todoServices.deleteTodo R n s with
            | (Returned res, s') =>
                (Returned tt, mkServed s' (replies x ++ [Guard.json_sent 204 res]))
            | (Thrown err, s') =>
                todoController.by_message err (mkServed s' (replies x))
            end
          else
            (Returned tt,
             mkServed s
               (replies x ++ [Guard.json_sent 404 (Js.message "Todo not found")]))
      end
  end.
Proof.
  unfold todoController.deleteTodo.
  now rewrite (by_id_run R id (fun n _ => todoServices.deleteTodo R n) 204 x).
Qed.

Lemma by_message_one_reply (err : Js.error) (x : served S) :
  exists status body,
    todoController.by_message err x =
    (Returned tt, mkServed (store x) (replies x ++ [Guard.json_sent status body])).
Proof.
  unfold todoController.by_message.
  destruct (String.eqb _ "Inavlid todoid"); [now eexists; eexists|].
  destruct (String.eqb _ "Todo not found"); now eexists; eexists.
Qed.

(** X14. The three todo controllers that take an id, for any repository.
    None of them throws and each answers exactly once.  When the id is
    not a number the answer is 400 and the repository is not touched.
    When the lookup finds nothing the answer is 404 and neither the
    update nor the delete is run.  When it finds a row, the row goes out
    with 200, an update that returns goes out with 200 and a delete that
    returns with 204. *)
Theorem todo_by_id_endpoints (R : todoServices.repository S) (id : option Z)
    (todo : Js.value) (x : served S) :
  (forall c,
     c = todoController.getTodoById R id \/ c = todoController.updateTodo R id todo
     \/ c = todoController.deleteTodo R id ->
     fst (c x) = Returned tt
     /\ (exists status body,
          replies (snd (c x)) = (replies x ++ [Guard.json_sent status body])%list)
     /\ (id = None ->
         c x = (Returned tt,
                mkServed (store x)
                  (replies x ++ [Guard.json_sent 400 (Js.message "Inavlid todoid")])))
     /\ (forall n v s,
           id = Some n ->
           todoServices.getTodoById R n (store x) = (Returned v, s) ->
           JsText.truthy v = false ->
           c x = (Returned tt,
                  mkServed s
                    (replies x ++ [Guard.json_sent 404 (Js.message "Todo not found")]))))
  /\ (forall n v s,
        id = Some n ->
        todoServices.getTodoById R n (store x) = (Returned v, s) ->
        JsText.truthy v = true ->
        todoController.getTodoById R id x
        = (Returned tt, mkServed s (replies x ++ [Guard.json_sent 200 v]))
        /\ (forall res s',
              todoServices.repo_updateTodo R n todo s = (Returned res, s') ->
              todoController.updateTodo R id todo x
              = (Returned tt, mkServed s' (replies x ++ [Guard.json_sent 200 res])))
        /\ (forall res s',
              todoServices.deleteTodo R n s = (Returned res, s') ->
              todoController.deleteTodo R id x
              = (Returned tt, mkServed s' (replies x ++ [Guard.json_sent 204 res])))).
Proof.
  split.
  - intros c Hc.
    assert (Hshape : exists (act : Z -> Js.value -> Eff.t S Js.value) (ok : Z),
      c x =
      match id with
      | None =>
          (Returned tt,
           mkServed (store x)
             (replies x ++ [Guard.json_sent 400 (Js.message "Inavlid todoid")]))
      | Some n =>
          match todoServices.getTodoById R n (store x) with
          | (Thrown err, s) => todoController.by_message err (mkServed s (replies x))
          | (Returned v, s) =>
              if JsText.truthy v
              then
                match act n v s with
                | (Returned res, s') =>
                    (Returned tt, mkServed s' (replies x ++ [Guard.json_sent ok res]))
                | (Thrown err, s') =>
                    todoController.by_message err (mkServed s' (replies x))
                end
              else
                (Returned tt,
                 mkServed s
                   (replies x ++ [Guard.json_sent 404 (Js.message "Todo not found")]))
          end
      end).
    { destruct Hc as [-> | [-> | ->]].
      - exists (fun _ v => Eff.ret v), 200%Z. apply by_id_run. reflexivity.
      - exists (fun n _ => todoServices.repo_updateTodo R n todo), 200%Z.
        apply by_id_run. reflexivity.
      - exists (fun n _ => todoServices.deleteTodo R n), 204%Z.
        apply by_id_run. reflexivity. }
    destruct Hshape as (act & ok & ->).
    destruct id as [n|].
    2:{ repeat split; try discriminate. now eexists; eexists. }
    destruct (todoServices.getTodoById R n (store x)) as [[v|err] s] eqn:Hlook.
    + destruct (JsText.truthy v) eqn:Hv.
      * destruct (act n v s) as [[res|err] s'].
        -- repeat split; try discriminate; [now eexists; eexists|].
           intros n' v' s0 [= <-] Hl Hv'. rewrite Hlook in Hl.
           injection Hl as <- <-. congruence.
        -- destruct (by_message_one_reply err (mkServed s' (replies x)))
             as (st & body & ->). cbn [fst snd replies].
           repeat split; try discriminate; [now eexists; eexists|].
           intros n' v' s0 [= <-] Hl Hv'. rewrite Hlook in Hl.
           injection Hl as <- <-. congruence.
      * repeat split; try discriminate; [now eexists; eexists|].
        intros n' v' s0 [= <-] Hl _. rewrite Hlook in Hl.
        injection Hl as <- <-. reflexivity.
    + destruct (by_message_one_reply err (mkServed s (replies x)))
        as (st & body & ->). cbn [fst snd replies].
      repeat split; try discriminate; [now eexists; eexists|].
      intros n' v' s0 [= <-] Hl. rewrite Hlook in Hl. discriminate.
  - intros n v s -> Hlook Hv.
    rewrite getTodoById_run, updateTodo_run, deleteTodo_run, Hlook, Hv.
    repeat split.
    + intros res s' ->. reflexivity.
    + intros res s' ->. reflexivity.
Qed.

End TodoProperties.

Section RouteProperties.

Import Http Guard.

Context {S : Type}.

(** X15. The todo routes of the Auth-Roles lesson.  On a guarded route a
    request either gets the controller, and then its header carries a
    token that [jwt.verify] accepts with role "admin" (or with role
    "user", but only on the routes guarded for both: GET /todos and PUT
    /todos/:id), or it gets a 401 and the store is left as it was.  So
    POST /todos and DELETE /todos/:id reach the repository only for an
    admin.  GET /todos/:id has no guard: its answer does not depend on
    the header. *)
Theorem todo_routes_protection (E : env) (R : todoServices.repository S)
    (header : option string) (r : todoRoutes.route) (x : served S) :
  match todoRoutes.guard_of r with
  | None =>
      forall E' header',
        todoRoutes.serve E R header r x = todoRoutes.serve E' R header' r x
  | Some required =>
      (todoRoutes.serve E R header r x = todoRoutes.controller_of R r x
       /\ exists h d,
            header = Some h /\ Js.startsWith h "Bearer " = true
            /\ jwt_verify E (Js.index (Js.split h " "%char) 1) (JWT_SECRET E)
               = Returned d
            /\ (Js.get d "role" = Js.str "admin"
                \/ (required = both /\ Js.get d "role" = Js.str "user")))
      \/ (exists m,
            todoRoutes.serve E R header r x
            = (Returned tt,
               mkServed (store x) (replies x ++ [json_sent 401 (message m)])))
  end.
Proof.
  assert (Hguarded : forall required,
    required <> user ->
    todoRoutes.guard_of r = Some required ->
    (todoRoutes.serve E R header r x = todoRoutes.controller_of R r x
     /\ exists h d,
          header = Some h /\ Js.startsWith h "Bearer " = true
          /\ jwt_verify E (Js.index (Js.split h " "%char) 1) (JWT_SECRET E)
             = Returned d
          /\ (Js.get d "role" = Js.str "admin"
              \/ (required = both /\ Js.get d "role" = Js.str "user")))
    \/ (exists m,
          todoRoutes.serve E R header r x
          = (Returned tt,
             mkServed (store x) (replies x ++ [json_sent 401 (message m)])))).
  { intros required Hnu Hg. unfold todoRoutes.serve. rewrite Hg.
    rewrite handle_verdict. unfold Verdict.verdict, Verdict.rejected_header.
    cbn [JWT_SECRET jwt_verify next_throws fst snd].
    destruct header as [h|]; cbn [Js.falsy orb negb Verdict.token_of].
    2:{ right. now eexists. }
    destruct (String.eqb h ""); cbn [orb]; [right; now eexists|].
    destruct (Js.startsWith h "Bearer ") eqn:Hp; cbn [negb];
      [|right; now eexists].
    destruct (jwt_verify E (Js.index (Js.split h " "%char) 1) (JWT_SECRET E))
      as [d|e] eqn:Hv; [|right; now eexists].
    destruct (Verdict.has_role d); [|right; now eexists].
    destruct (Verdict.accepts required d) eqn:Ha; [|right; now eexists].
    left. split; [reflexivity|]. exists h, d. repeat split; try assumption.
    apply accepts_iff in Ha. destruct required.
    - now left.
    - now elim Hnu.
    - destruct Ha as [Ha | Ha]; [now left | right; now split]. }
  destruct r; cbn [todoRoutes.guard_of];
    try (apply Hguarded; [discriminate | reflexivity]).
  intros E' header'. reflexivity.
Qed.

End RouteProperties.

(* ================================================================== *)
(** * The rate limiter and the logger                                  *)
(* ================================================================== *)

Section LimiterFacts.

Import RateLimiterMemory middleware.

Lemma lookup_set_same (st : storage) (k : string) (v : Z * Z) :
  lookup (set st k v) k = Some v.
Proof.
  induction st as [|[k' old] st IH]; cbn.
  - now rewrite String.eqb_refl.
  - destruct (String.eqb k' k) eqn:Hk; cbn; now rewrite Hk.
Qed.

Lemma lookup_set_other (st : storage) (k k' : string) (v : Z * Z) :
  k <> k' -> lookup (set st k v) k' = lookup st k'.
Proof.
  intros Hne. induction st as [|[k0 old] st IH]; cbn.
  - apply String.eqb_neq in Hne. now rewrite Hne.
  - destruct (String.eqb_spec k0 k) as [->|Hk]; cbn.
    + apply String.eqb_neq in Hne. now rewrite Hne.
    + destruct (String.eqb k0 k'); [reflexivity | exact IH].
Qed.

(** Inside a live window the count goes up by one per request, and a
    request passes while the count stays within the ten points. *)
Lemma arrivals_in_window (req : request) (clocks : list Z) :
  forall (st : storage) (n expiresAt : Z),
    lookup st (limiter_key req) = Some (n, expiresAt) ->
    (forall c, In c clocks -> (c < expiresAt)%Z) ->
    arrivals req clocks st
    = map (fun i => (n + 1 + Z.of_nat i <=? 10)%Z) (seq 0 (length clocks)).
Proof.
  induction clocks as [|c rest IH]; intros st n expiresAt Hl Hin; [reflexivity|].
  cbn [arrivals length seq map].
  unfold rateLimiter, consume, incrby. rewrite Hl.
  assert (Hc : (c <? expiresAt)%Z = true).
  { apply Z.ltb_lt, Hin. now left. }
  rewrite Hc. cbn [fst].
  rewrite (IH _ (n + 1)%Z expiresAt (lookup_set_same _ _ _)
             (fun c' H => Hin c' (or_intror H))).
  rewrite <- seq_shift, map_map. f_equal.
  - unfold points. destruct (Z.ltb_spec 10 (n + 1)), (Z.leb_spec (n + 1 + Z.of_nat 0) 10);
      try reflexivity; lia.
  - apply map_ext. intros i. f_equal. lia.
Qed.

(** The limiter's answers to one client depend on the storage only through
    that client's record. *)
Lemma arrivals_same_record (req : request) (clocks : list Z) :
  forall st st' : storage,
    lookup st (limiter_key req) = lookup st' (limiter_key req) ->
    arrivals req clocks st = arrivals req clocks st'.
Proof.
  induction clocks as [|c rest IH]; intros st st' H; [reflexivity|].
  cbn [arrivals]. unfold rateLimiter, consume, incrby. rewrite H.
  f_equal. apply IH. now rewrite !lookup_set_same.
Qed.

(** A client whose key has no live count: ten go on, the rest of the
    window is refused. *)
Lemma arrivals_fresh_window (req : request) (st : storage) (c0 : Z) (clocks : list Z) :
  (forall n expiresAt,
     lookup st (limiter_key req) = Some (n, expiresAt) -> (expiresAt <= c0)%Z) ->
  (forall c, In c clocks -> (c < c0 + 60 * 1000)%Z) ->
  arrivals req (c0 :: clocks) st
  = map (fun i => (i <? 10)%nat) (seq 0 (S (length clocks))).
Proof.
  intros Hexpired Hin.
  cbn [arrivals length seq map].
  unfold rateLimiter at 1. unfold consume, incrby.
  assert (Hfresh :
    match lookup st (limiter_key req) with
    | Some (consumed, expiresAt) =>
        if (c0 <? expiresAt)%Z then (consumed + 1, expiresAt)%Z
        else (1, c0 + duration * 1000)%Z
    | None => (1, c0 + duration * 1000)%Z
    end = (1, c0 + 60 * 1000)%Z).
  { destruct (lookup st (limiter_key req)) as [[n ex]|] eqn:Hl; [|reflexivity].
    specialize (Hexpired n ex eq_refl).
    destruct (Z.ltb_spec c0 ex); [lia | reflexivity]. }
  rewrite Hfresh. cbn [fst].
  rewrite (arrivals_in_window req clocks _ 1 (c0 + 60 * 1000)%Z
             (lookup_set_same _ _ _) Hin).
  rewrite <- seq_shift, map_map. f_equal.
  apply map_ext. intros i.
  destruct (Z.leb_spec (1 + 1 + Z.of_nat i) 10), (Nat.ltb_spec (Datatypes.S i) 10);
    try reflexivity; lia.
Qed.

(** The middleware sends 429 exactly when [consume] rejects. *)
Lemma admitted_run (clock : Z) (req : request) (st : storage) :
  admitted clock req st
  = (match fst (rateLimiter clock (limiter_key req) st) with
     | Returned _ => true
     | Thrown _ => false
     end,
     snd (rateLimiter clock (limiter_key req) st)).
Proof.
  unfold admitted, rateLimiterMiddleware, Eff.try_catch, Eff.bind, on_limiter,
    console_log, res_status_json, Eff.modify, Eff.ret.
  cbn [limiter console replies].
  destruct (rateLimiter clock (limiter_key req) st) as [[u|err] l]; reflexivity.
Qed.

(** In any traffic, the answers to one client are the answers its own
    requests would get alone, from any state that holds the same record
    for its key. *)
Lemma traffic_answers (req : request) (reqs : list (request * Z)) :
  forall st st0 : storage,
    lookup st (limiter_key req) = lookup st0 (limiter_key req) ->
    answers_to (limiter_key req) (traffic reqs st)
    = arrivals req (clocks_of (limiter_key req) reqs) st0.
Proof.
  induction reqs as [|[r c] rest IH]; intros st st0 H; [reflexivity|].
  cbn [traffic]. rewrite admitted_run.
  unfold answers_to, clocks_of in *. cbn [filter map fst snd].
  destruct (String.eqb_spec (limiter_key r) (limiter_key req)) as [Hk|Hk].
  - cbn [map snd arrivals]. rewrite Hk.
    unfold rateLimiter, consume, incrby. rewrite H. cbn [fst snd].
    f_equal. apply IH. now rewrite !lookup_set_same.
  - apply IH. rewrite <- H.
    unfold rateLimiter, consume. cbn [snd]. now apply lookup_set_other.
Qed.

End LimiterFacts.

Section LimiterProperties.

Import RateLimiterMemory middleware.

(** X16. Ten requests per window and client, in any traffic.  Requests
    of any clients arrive interleaved.  With no live count for a client's
    key when its first request arrives, of the requests it sends before
    sixty seconds have passed the first ten go on and every later one is
    refused with 429, whatever the other clients send in between.  In
    general the answers to a client depend only on the count held for its
    key and on the clocks of its own requests: two runs of traffic that
    agree on these give it the same answers.  Every request that has no
    address is counted under the one key "unknown". *)
Theorem ten_per_window (req : request) (st : storage) (c0 : Z)
    (reqs : list (request * Z)) :
  (forall n expiresAt,
     lookup st (limiter_key req) = Some (n, expiresAt) -> (expiresAt <= c0)%Z) ->
  (forall c, In c (clocks_of (limiter_key req) reqs) -> (c < c0 + 60 * 1000)%Z) ->
  answers_to (limiter_key req) (traffic ((req, c0) :: reqs) st)
  = map (fun i => (i <? 10)%nat)
        (seq 0 (S (length (clocks_of (limiter_key req) reqs))))
  /\ (forall reqs1 reqs2 st1 st2,
        clocks_of (limiter_key req) reqs1 = clocks_of (limiter_key req) reqs2 ->
        lookup st1 (limiter_key req) = lookup st2 (limiter_key req) ->
        answers_to (limiter_key req) (traffic reqs1 st1)
        = answers_to (limiter_key req) (traffic reqs2 st2))
  /\ (ip req = None \/ ip req = Some "" -> limiter_key req = "unknown").
Proof.
  intros Hexpired Hin. repeat apply conj.
  - rewrite (traffic_answers req _ st st eq_refl).
    unfold clocks_of at 1. cbn [filter fst snd]. rewrite String.eqb_refl.
    cbn [map snd]. fold (clocks_of (limiter_key req) reqs).
    now apply arrivals_fresh_window.
  - intros reqs1 reqs2 st1 st2 Hclocks Hrecord.
    rewrite (traffic_answers req reqs1 st1 st2 Hrecord).
    rewrite (traffic_answers req reqs2 st2 st2 eq_refl).
    now rewrite Hclocks.
  - unfold limiter_key. intros [-> | ->]; reflexivity.
Qed.

(** X17. The chain of the app: limiter, logger, routes.  A request the
    limiter refuses gets 429 and a console line saying so; neither the
    logger's line nor the routes are reached.  A request the limiter
    passes is logged by both before the routes run. *)
Theorem app_logs_what_passes {L : Type} (consume : string -> Eff.t L unit)
    (now : string) (routes : request -> Eff.t (served L) unit) (req : request)
    (x : served L) :
  match consume (limiter_key req) (limiter x) with
  | (Thrown _, l) =>
      app consume now routes req x =
      (Returned tt,
       mkServed l
         (console x ++ ["Rate limit exceeded for IP: " ++ ip_text req])
         (replies x ++
          [Guard.json_sent 429 (Js.message "Too Many Requests, please try again later")]))
  | (Returned _, l) =>
      forall x',
        routes req
          (mkServed l
             (console x ++
              ["Rate limit check passed for IP: " ++ ip_text req;
               method req ++ " " ++ url req ++ " - " ++ now])
             (replies x))
        = (Returned tt, x') ->
        app consume now routes req x = (Returned tt, x')
  end.
Proof.
  destruct x as [l0 out sent].
  unfold app, rateLimiterMiddleware, logger, Eff.try_catch, Eff.bind, on_limiter,
    console_log, res_status_json, Eff.modify.
  cbn [limiter console replies].
  destruct (consume (limiter_key req) l0) as [[u|err] l]; [|reflexivity].
  intros x' Hx'. cbn [limiter console replies].
  rewrite <- app_assoc. cbn [List.app]. now rewrite Hx'.
Qed.

End LimiterProperties.

(* ================================================================== *)
(** * BasicUtils                                                       *)
(* ================================================================== *)

Section BasicUtilsFacts.

Import JsText.

Lemma lower_char_not_upper (c : ascii) : is_upper (lower_char c) = false.
Proof. destruct c as [[] [] [] [] [] [] [] []]; reflexivity. Qed.

Lemma lower_char_ascii (c : ascii) :
  (nat_of_ascii c <? 128)%nat = true ->
  (nat_of_ascii (lower_char c) <? 128)%nat = true.
Proof. destruct c as [[] [] [] [] [] [] [] []]; trivial. Qed.

Lemma toLowerCase_no_upper (s : string) : has_upper (toLowerCase s) = false.
Proof.
  induction s as [|c s IH]; [reflexivity|].
  cbn. now rewrite lower_char_not_upper, IH.
Qed.

Lemma toLowerCase_fixed (s : string) : has_upper s = false -> toLowerCase s = s.
Proof.
  induction s as [|c s IH]; [reflexivity|]. cbn.
  intros H. apply orb_false_iff in H as [Hc Hs].
  unfold lower_char. now rewrite Hc, (IH Hs).
Qed.

Lemma toLowerCase_length (s : string) :
  String.length (toLowerCase s) = String.length s.
Proof. induction s as [|c s IH]; [reflexivity|]. cbn. now rewrite IH. Qed.

Lemma toLowerCase_ascii (s : string) :
  ascii_only s = true -> ascii_only (toLowerCase s) = true.
Proof.
  induction s as [|c s IH]; [reflexivity|]. cbn [ascii_only toLowerCase].
  intros H. apply andb_true_iff in H as [Hc Hs].
  now rewrite (lower_char_ascii c Hc), (IH Hs).
Qed.

Lemma join_chars (s : string) : join (chars s) = s.
Proof.
  unfold join. induction s as [|c s IH]; [reflexivity|].
  cbn [chars]. destruct s as [|d s]; [reflexivity|].
  cbn [chars String.concat] in *. now rewrite IH.
Qed.

Lemma length_chars (s : string) : length (chars s) = String.length s.
Proof. induction s as [|c s IH]; [reflexivity|]. cbn. now rewrite IH. Qed.

End BasicUtilsFacts.

Section BasicUtilsProperties.

Import JsText BasicUtils.

(** X18. [UserNameToLowerCase] on ASCII text throws "Username cannot be
    empty" exactly for the empty string.  Otherwise it returns a string
    that is not empty, has the length of the input, holds none of the
    letters A to Z, and is returned unchanged when passed in again. *)
Theorem UserNameToLowerCase_cases (username : string) :
  ascii_only username = true ->
  (username = "" ->
   UserNameToLowerCase username = Thrown (Js.Error "Username cannot be empty"))
  /\ (username <> "" ->
      exists low,
        UserNameToLowerCase username = Returned low
        /\ low <> ""
        /\ String.length low = String.length username
        /\ has_upper low = false
        /\ ascii_only low = true
        /\ UserNameToLowerCase low = Returned low).
Proof.
  intros Hascii. split.
  - intros ->. reflexivity.
  - intros Hne. exists (toLowerCase username).
    assert (Hlow : toLowerCase username <> "").
    { destruct username; [now elim Hne | discriminate]. }
    unfold UserNameToLowerCase.
    apply String.eqb_neq in Hne. rewrite Hne.
    repeat split.
    + exact Hlow.
    + apply toLowerCase_length.
    + apply toLowerCase_no_upper.
    + now apply toLowerCase_ascii.
    + apply String.eqb_neq in Hlow. rewrite Hlow.
      now rewrite (toLowerCase_fixed _ (toLowerCase_no_upper username)).
Qed.

Lemma UserNameToLowerCase_cases_witness :
  exists low,
    UserNameToLowerCase "deveLOPER" = Returned low
    /\ low <> ""
    /\ String.length low = String.length "deveLOPER"
    /\ has_upper low = false
    /\ ascii_only low = true
    /\ UserNameToLowerCase low = Returned low.
Proof.
  refine (proj2 (UserNameToLowerCase_cases "deveLOPER" eq_refl) _).
  discriminate.
Defined.

(** X19. [authenticateUser] on an ASCII user name says yes for the one
    pair "deveLOPER", "dev", compared letter by letter; it hands out the
    same admin details whether it says yes or no; its list of characters
    has one entry per character and joins back to the name; the
    lower-case name has the length of the name, holds none of the letters
    A to Z and is itself never accepted as a user name. *)
Theorem authenticateUser_facts (username password : string) :
  ascii_only username = true ->
  (isAuthenticated (authenticateUser username password) = true <->
   username = "deveLOPER" /\ password = "dev")
  /\ userDetails (authenticateUser username password) = mkUserDetails "Developer" "admin"
  /\ join (usernameCharacters (authenticateUser username password)) = username
  /\ length (usernameCharacters (authenticateUser username password))
     = String.length username
  /\ String.length (usernameToLower (authenticateUser username password))
     = String.length username
  /\ has_upper (usernameToLower (authenticateUser username password)) = false
  /\ ascii_only (usernameToLower (authenticateUser username password)) = true
  /\ (forall p,
        isAuthenticated
          (authenticateUser (usernameToLower (authenticateUser username password)) p)
        = false).
Proof.
  intros Hascii. unfold authenticateUser.
  cbn [isAuthenticated userDetails usernameCharacters usernameToLower].
  repeat apply conj.
  - intros H. apply andb_true_iff in H as [Hu Hp].
    now apply String.eqb_eq in Hu, Hp.
  - intros [-> ->]. reflexivity.
  - reflexivity.
  - apply join_chars.
  - apply length_chars.
  - apply toLowerCase_length.
  - apply toLowerCase_no_upper.
  - now apply toLowerCase_ascii.
  - intros p. apply andb_false_iff. left. apply String.eqb_neq.
    intros H. pose proof (toLowerCase_no_upper username) as Hno.
    rewrite H in Hno. discriminate.
Qed.

(** The accepted pair itself: yes, nine characters, "developer". *)
Lemma authenticateUser_facts_witness :
  ascii_only "deveLOPER" = true
  /\ isAuthenticated (authenticateUser "deveLOPER" "dev") = true
  /\ length (usernameCharacters (authenticateUser "deveLOPER" "dev")) = 9%nat
  /\ usernameToLower (authenticateUser "deveLOPER" "dev") = "developer"
  /\ (forall p,
        isAuthenticated
          (authenticateUser (usernameToLower (authenticateUser "deveLOPER" "dev")) p)
        = false).
Proof.
  pose proof (authenticateUser_facts "deveLOPER" "dev" eq_refl)
    as (Hyes & _ & _ & Hlen & _ & _ & _ & Hlow).
  split; [reflexivity|]. split; [now apply Hyes|].
  split; [exact Hlen|]. split; [reflexivity|]. exact Hlow.
Defined.

End BasicUtilsProperties.

(* ================================================================== *)
(** * From login to the guard                                          *)
(* ================================================================== *)

Section IssuedToken.

Import userRepositories userService Guard.

(** X20. A token from [loginUser] at the guard, with jsonwebtoken read
    symbolically on both sides.  Presented in a Bearer header to a guard
    that holds the same secret, before 3600 seconds have passed since the
    login, the token is let through exactly when the stored role fits the
    required role; from 3600 seconds on it is refused with 401 "Invalid
    Token", and so it is at any time by a guard that holds another
    secret. *)
Theorem issued_token_at_the_guard (E : userService.env Jwt.token) (e pw : string)
    (w : world)
    (res : LoginResult Jwt.token) (u : User)
    (parse : string -> option Jwt.token) (clock : Z) (nt : option Js.error)
    (r : RequiredRole) (h tok : string) :
  (forall p s, jwt_sign E p s = Jwt.sign (Date_now E / 1000) p s) ->
  loginUser E e pw w = (Returned res, w) ->
  find (matches e) (rows (Users w)) = Some u ->
  Js.startsWith h "Bearer " = true ->
  Js.index (Js.split h " "%char) 1 = Some tok ->
  tok <> "" ->
  parse tok = Some (token res) ->
  ((clock < Date_now E / 1000 + 3600)%Z ->
   (proceeds (snd (handle (Jwt.guard_env parse clock (userService.JWT_SECRET E) nt)
                          r (Some h))) = true <->
    match r with
    | both => role u = "admin" \/ role u = "user"
    | _ => role u = role_name r
    end))
  /\ ((Date_now E / 1000 + 3600 <= clock)%Z ->
      handle (Jwt.guard_env parse clock (userService.JWT_SECRET E) nt) r (Some h)
      = (Returned tt, None, [json_sent 401 (message "Invalid Token")]))
  /\ (forall other,
        other <> userService.JWT_SECRET E ->
        handle (Jwt.guard_env parse clock other nt) r (Some h)
        = (Returned tt, None, [json_sent 401 (message "Invalid Token")])).
Proof.
  intros Hsign Hlogin Hfind Hp Ht Htok Hparse.
  rewrite loginUser_run, Hfind in Hlogin.
  destruct (negb (bcrypt_compare E pw (password u))); [discriminate|].
  destruct (userService.JWT_SECRET E) as [s|] eqn:Hs; [|discriminate].
  destruct (String.eqb s "") eqn:Hse; [discriminate|].
  injection Hlogin as <-. cbn [token] in Hparse.
  rewrite Hsign in Hparse. unfold Jwt.sign, login_payload in Hparse.
  set (claims := Js.object _) in Hparse.
  assert (Hverify : forall secret,
    Jwt.verify parse clock (Some tok) secret =
    if Js.falsy secret
    then Thrown (Jwt.JsonWebTokenError "secret or public key must be provided")
    else if negb (match secret with
                  | Some k => String.eqb k s
                  | None => false
                  end)
    then Thrown (Jwt.JsonWebTokenError "invalid signature")
    else if (Date_now E / 1000 + 3600 <=? clock)%Z
    then Thrown Jwt.TokenExpiredError
    else Returned claims).
  { intros secret. unfold Jwt.verify. cbn [Js.falsy].
    apply String.eqb_neq in Htok. rewrite Htok, Hparse. reflexivity. }
  repeat apply conj.
  - intros Hclock.
    assert (Hv : Jwt.verify parse clock (Some tok) (Some s) = Returned claims).
    { rewrite Hverify. cbn [Js.falsy]. rewrite Hse, String.eqb_refl. cbn [negb].
      destruct (Z.leb_spec (Date_now E / 1000 + 3600) clock); [lia | reflexivity]. }
    destruct (handle_verify_returns (Jwt.guard_env parse clock (Some s) nt) r h claims Hp)
      as [H1 H2].
    { unfold Verdict.token_of. rewrite Ht. exact Hv. }
    rewrite H1, H2. cbn [snd].
    change (Verdict.has_role claims) with true. cbn iota.
    assert (Hgo : proceeds
      (if Verdict.accepts r claims
       then next_called :: match next_throws (Jwt.guard_env parse clock (Some s) nt) with
                           | None => []
                           | Some _ => [Verdict.deny "Invalid Token"]
                           end
       else [Verdict.deny "Unauthorized"]) = Verdict.accepts r claims).
    { destruct (Verdict.accepts r claims); reflexivity. }
    rewrite Hgo, accepts_iff.
    change (Js.get claims "role") with (Js.str (role u)).
    destruct r; cbn [role_name]; split; intros H;
      repeat match goal with
             | H : _ \/ _ |- _ => destruct H
             | H : Js.str _ = Js.str _ |- _ => injection H as H
             end; subst; auto; try congruence.
    + left. congruence.
    + right. congruence.
  - intros Hclock.
    apply (handle_verify_throws (Jwt.guard_env parse clock (Some s) nt) r h
             Jwt.TokenExpiredError Hp).
    unfold Verdict.token_of. rewrite Ht. cbn [jwt_verify Jwt.guard_env Guard.JWT_SECRET].
    rewrite Hverify. cbn [Js.falsy]. rewrite Hse, String.eqb_refl. cbn [negb].
    destruct (Z.leb_spec (Date_now E / 1000 + 3600) clock); [reflexivity | lia].
  - intros other Hother.
    assert (Hthrow : exists err, Jwt.verify parse clock (Some tok) other = Thrown err).
    { rewrite Hverify. destruct (Js.falsy other); [now eexists|].
      destruct other as [k|]; cbn [negb]; [|now eexists].
      destruct (String.eqb_spec k s) as [->|]; [now elim Hother|].
      now eexists. }
    destruct Hthrow as [err Herr].
    apply (handle_verify_throws (Jwt.guard_env parse clock other nt) r h err Hp).
    unfold Verdict.token_of. rewrite Ht. exact Herr.
Qed.

End IssuedToken.

(* ================================================================== *)
(** * The further properties at concrete inputs                        *)
(* ================================================================== *)

Section MoreInstances.

Import userRepositories userService Lifecycle.

(** Brian registers into the empty table and logs in at once. *)
Lemma register_then_login_witness :
  role (inserted (hash_password (Sample.service (Some Sample.secret)) Sample.brian)
                 (identity (Users Sample.empty_world))) = "user"
  /\ userid (inserted (hash_password (Sample.service (Some Sample.secret)) Sample.brian)
                      (identity (Users Sample.empty_world))) = 1%Z
  /\ (exists res,
        loginUser (Sample.service (Some Sample.secret)) "b@x.com" "password123"
          (snd (authService.createUser (Sample.service (Some Sample.secret))
                  Sample.brian Sample.empty_world))
        = (Returned res,
           snd (authService.createUser (Sample.service (Some Sample.secret))
                  Sample.brian Sample.empty_world))
        /\ token res
           = Jwt.sign 1000
               (login_payload 1000000
                  (inserted (hash_password (Sample.service (Some Sample.secret))
                                           Sample.brian) 1))
               Sample.secret)
  /\ (exists res,
        loginUser (Sample.service (Some Sample.secret)) "b@x.com" "password123"
          (snd (userService.createUser (Sample.service (Some Sample.secret))
                  Sample.brian Sample.empty_world))
        = (Returned res,
           snd (userService.createUser (Sample.service (Some Sample.secret))
                  Sample.brian Sample.empty_world))
        /\ token res
           = Jwt.sign 1000
               (login_payload 1000000
                  (inserted (hash_password (Sample.service (Some Sample.secret))
                                           Sample.brian) 1))
               Sample.secret
        /\ flag "b@x.com"
             (snd (userService.createUser (Sample.service (Some Sample.secret))
                     Sample.brian Sample.empty_world)) = Some false).
Proof.
  refine (register_then_login (Sample.service (Some Sample.secret)) Sample.brian
            Sample.empty_world Sample.secret eq_refl _ eq_refl eq_refl _);
    discriminate.
Defined.

(** Alice, already registered, is registered again. *)
Lemma duplicate_registration_changes_nothing_witness :
  userService.createUser (Sample.service (Some Sample.secret))
    (mkNewUser "Mallory" "M" "a@x.com" "0700000000" "letmein")
    (Sample.world_of Sample.alice)
  = (Thrown unique_violation, Sample.world_of Sample.alice)
  /\ authService.createUser (Sample.service (Some Sample.secret))
       (mkNewUser "Mallory" "M" "a@x.com" "0700000000" "letmein")
       (Sample.world_of Sample.alice)
     = (Thrown unique_violation, Sample.world_of Sample.alice).
Proof.
  exact (duplicate_registration_changes_nothing (Sample.service (Some Sample.secret))
           (mkNewUser "Mallory" "M" "a@x.com" "0700000000" "letmein")
           (Sample.world_of Sample.alice) Sample.alice eq_refl).
Defined.

(** Twelve requests of 10.0.0.7 within twelve seconds, with requests of
    10.0.0.8 and of a client without an address in between. *)
Lemma ten_per_window_witness :
  middleware.answers_to "10.0.0.7"
    (middleware.traffic
       [(middleware.mkRequest (Some "10.0.0.7") "GET" "/todos", 0%Z);
        (middleware.mkRequest (Some "10.0.0.8") "GET" "/todos", 0%Z);
        (middleware.mkRequest (Some "10.0.0.7") "GET" "/todos", 1%Z);
        (middleware.mkRequest (Some "10.0.0.7") "GET" "/todos", 2%Z);
        (middleware.mkRequest None "POST" "/todos", 2%Z);
        (middleware.mkRequest (Some "10.0.0.7") "GET" "/todos", 3%Z);
        (middleware.mkRequest (Some "10.0.0.7") "GET" "/todos", 4%Z);
        (middleware.mkRequest (Some "10.0.0.8") "GET" "/todos", 4%Z);
        (middleware.mkRequest (Some "10.0.0.7") "GET" "/todos", 5%Z);
        (middleware.mkRequest (Some "10.0.0.7") "GET" "/todos", 6%Z);
        (middleware.mkRequest (Some "10.0.0.7") "GET" "/todos", 7%Z);
        (middleware.mkRequest (Some "10.0.0.7") "GET" "/todos", 8%Z);
        (middleware.mkRequest (Some "10.0.0.7") "GET" "/todos", 9%Z);
        (middleware.mkRequest (Some "10.0.0.8") "GET" "/todos", 9%Z);
        (middleware.mkRequest (Some "10.0.0.7") "GET" "/todos", 10%Z);
        (middleware.mkRequest (Some "10.0.0.7") "GET" "/todos", 11%Z)]
       [])
  = [true; true; true; true; true; true; true; true; true; true; false; false].
Proof.
  refine (proj1 (ten_per_window
                   (middleware.mkRequest (Some "10.0.0.7") "GET" "/todos") [] 0%Z
                   [(middleware.mkRequest (Some "10.0.0.8") "GET" "/todos", 0%Z);
                    (middleware.mkRequest (Some "10.0.0.7") "GET" "/todos", 1%Z);
                    (middleware.mkRequest (Some "10.0.0.7") "GET" "/todos", 2%Z);
                    (middleware.mkRequest None "POST" "/todos", 2%Z);
                    (middleware.mkRequest (Some "10.0.0.7") "GET" "/todos", 3%Z);
                    (middleware.mkRequest (Some "10.0.0.7") "GET" "/todos", 4%Z);
                    (middleware.mkRequest (Some "10.0.0.8") "GET" "/todos", 4%Z);
                    (middleware.mkRequest (Some "10.0.0.7") "GET" "/todos", 5%Z);
                    (middleware.mkRequest (Some "10.0.0.7") "GET" "/todos", 6%Z);
                    (middleware.mkRequest (Some "10.0.0.7") "GET" "/todos", 7%Z);
                    (middleware.mkRequest (Some "10.0.0.7") "GET" "/todos", 8%Z);
                    (middleware.mkRequest (Some "10.0.0.7") "GET" "/todos", 9%Z);
                    (middleware.mkRequest (Some "10.0.0.8") "GET" "/todos", 9%Z);
                    (middleware.mkRequest (Some "10.0.0.7") "GET" "/todos", 10%Z);
                    (middleware.mkRequest (Some "10.0.0.7") "GET" "/todos", 11%Z)]
                   _ _)).
  - intros n expiresAt H. discriminate H.
  - intros c Hc. cbn in Hc.
    repeat (destruct Hc as [<- | Hc]; [lia|]). now elim Hc.
Defined.

(** Alice's token, issued at 1000 s: good at 2000 s for the admin guard. *)
Lemma issued_token_at_the_guard_witness :
  Guard.proceeds
    (snd (Guard.handle
            (Jwt.guard_env
               (fun _ => Some (Jwt.sign 1000 (login_payload 1000000 Sample.alice)
                                        Sample.secret))
               2000 (Some Sample.secret) None)
            Guard.admin (Some "Bearer t"))) = true
  <-> "admin" = "admin".
Proof.
  refine (proj1 (issued_token_at_the_guard (Sample.service (Some Sample.secret))
                   "a@x.com" "password123" (Sample.world_of Sample.alice)
                   (mkLoginResult "Login successful"
                      (Jwt.sign 1000 (login_payload 1000000 Sample.alice) Sample.secret)
                      (Js.object
                         [("userid", Js.number 1);
                          ("first_name", Js.str "Alice");
                          ("last_name", Js.str "Mwangi");
                          ("email", Js.str "a@x.com");
                          ("phone_number", Js.str "0711000001")]))
                   Sample.alice
                   (fun _ => Some (Jwt.sign 1000 (login_payload 1000000 Sample.alice)
                                            Sample.secret))
                   2000 None Guard.admin "Bearer t" "t"
                   (fun _ _ => eq_refl) eq_refl eq_refl eq_refl eq_refl _ eq_refl) _).
  - discriminate.
  - reflexivity.
Defined.

End MoreInstances.

(* ================================================================== *)
(** * The first user controllers and the first login                   *)
(* ================================================================== *)

Section UserCrudProperties.

Import Http userCrud.

Context {S : Type}.

(** X21. The first [updateUser] and [deleteUser] controllers, for any user
    service.  A [NaN] id is answered 400 without asking the service; a
    lookup that finds nothing is answered 404 and nothing is written; a
    write that throws is answered 500 with the error's message and one
    that returns is answered 200.  But the lookup stands before the
    [try]: when it throws, the controller throws too and no response is
    sent, whereas [getUserById] answers 500 in that case. *)
Theorem first_user_controllers (V : services S) (id : option Z) (user : Js.value)
    (x : served S) :
  (id = None ->
   updateUser_controller V id user x
   = (Returned tt,
      mkServed (store x) (replies x ++ [Guard.json_sent 400 (Js.message "Invalid user id")]))
   /\ deleteUser_controller V id x
      = (Returned tt,
         mkServed (store x)
           (replies x ++ [Guard.json_sent 400 (Js.message "Invalid user id")])))
  /\ (forall n err s,
        id = Some n ->
        getUser V id (store x) = (Thrown err, s) ->
        updateUser_controller V id user x = (Thrown err, mkServed s (replies x))
        /\ deleteUser_controller V id x = (Thrown err, mkServed s (replies x))
        /\ getUserById_controller V id x
           = (Returned tt,
              mkServed s
                (replies x ++ [Guard.json_sent 500 (error_body (Js.err_message err))])))
  /\ (forall n v s,
        id = Some n ->
        getUser V id (store x) = (Returned v, s) ->
        JsText.truthy v = false ->
        updateUser_controller V id user x
        = (Returned tt,
           mkServed s (replies x ++ [Guard.json_sent 404 (Js.message "User not found")]))
        /\ deleteUser_controller V id x
           = (Returned tt,
              mkServed s (replies x ++ [Guard.json_sent 404 (Js.message "User not found")])))
  /\ (forall n v s,
        id = Some n ->
        getUser V id (store x) = (Returned v, s) ->
        JsText.truthy v = true ->
        (forall res s',
           updateUser V id user s = (Returned res, s') ->
           updateUser_controller V id user x
           = (Returned tt, mkServed s' (replies x ++ [Guard.json_sent 200 res])))
        /\ (forall err s',
              updateUser V id user s = (Thrown err, s') ->
              updateUser_controller V id user x
              = (Returned tt,
                 mkServed s'
                   (replies x ++ [Guard.json_sent 500 (error_body (Js.err_message err))])))
        /\ (forall res s',
              deleteUser V id s = (Returned res, s') ->
              deleteUser_controller V id x
              = (Returned tt, mkServed s' (replies x ++ [Guard.json_sent 200 res])))
        /\ (forall err s',
              deleteUser V id s = (Thrown err, s') ->
              deleteUser_controller V id x
              = (Returned tt,
                 mkServed s'
                   (replies x ++ [Guard.json_sent 500 (error_body (Js.err_message err))])))).
Proof.
  destruct x as [st sent].
  unfold updateUser_controller, deleteUser_controller, getUserById_controller,
    Eff.try_catch, Eff.bind, on_store, res_status_json, Eff.modify.
  cbn [store replies].
  repeat apply conj.
  - intros ->. split; reflexivity.
  - intros n err s -> Hl. cbn [store replies]. rewrite Hl. repeat split.
  - intros n v s -> Hl Hv. cbn [store replies]. rewrite Hl, Hv.
    split; reflexivity.
  - intros n v s -> Hl Hv. cbn [store replies]. rewrite Hl, Hv.
    cbn [negb store replies].
    repeat split; intros a s' Hw; rewrite Hw; reflexivity.
Qed.

End UserCrudProperties.

Section RolelessToken.

Import userRepositories userService Guard.

Lemma authentication_loginUser_run {Token : Type} (E : userService.env Token)
    (e pw : string) (w : world) :
  authentication.loginUser E e pw w =
  match find (matches e) (rows (Users w)) with
  | None => (Thrown (Js.Error "User not found"), w)
  | Some u =>
      if negb (bcrypt_compare E pw (password u))
      then (Thrown (Js.Error "Invalid credentials"), w)
      else
        match userService.JWT_SECRET E with
        | None => (Thrown (Js.Error "JWT secret not defined"), w)
        | Some s =>
            if String.eqb s "" then (Thrown (Js.Error "JWT secret not defined"), w)
            else
              (Returned
                 (mkLoginResult "Login successful"
                    (jwt_sign E (authentication.login_payload (Date_now E) u) s)
                    (Js.object
                       [("userid", Js.number (userid u));
                        ("first_name", Js.str (first_name u));
                        ("last_name", Js.str (last_name u));
                        ("email", Js.str (email u));
                        ("phone_number", Js.str (phone_number u))])),
               w)
        end
  end.
Proof.
  destruct w as [t out].
  unfold authentication.loginUser, Eff.bind, on_table, getUserByEmail, Eff.read. cbn.
  destruct (find (matches e) (rows t)) as [u|]; [|reflexivity].
  destruct (bcrypt_compare E pw (password u)); [|reflexivity]. cbn.
  destruct (userService.JWT_SECRET E) as [s|]; [|reflexivity]. cbn.
  destruct (String.eqb s ""); reflexivity.
Qed.

(** X22. A token from the Authentication lesson's [loginUser] carries no
    role.  With jsonwebtoken read symbolically, the same secret on both
    sides and less than 3600 seconds since the login, [isAuthenticated]
    lets its bearer through, while [checkRoles] refuses it under every
    required role with 401 "Invalid Token Payload". *)
Theorem roleless_token_at_the_guards (E : userService.env Jwt.token) (e pw : string)
    (w : world) (res : LoginResult Jwt.token)
    (parse : string -> option Jwt.token) (clock : Z) (r : RequiredRole)
    (h tok : string) :
  (forall p s, jwt_sign E p s = Jwt.sign (Date_now E / 1000) p s) ->
  authentication.loginUser E e pw w = (Returned res, w) ->
  Js.startsWith h "Bearer " = true ->
  Js.index (Js.split h " "%char) 1 = Some tok ->
  tok <> "" ->
  parse tok = Some (token res) ->
  (clock < Date_now E / 1000 + 3600)%Z ->
  proceeds (snd (Authorization.handle
                   (Jwt.guard_env parse clock (userService.JWT_SECRET E) None)
                   (Some h))) = true
  /\ handle (Jwt.guard_env parse clock (userService.JWT_SECRET E) None) r (Some h)
     = (Returned tt, Some (Jwt.payload (token res)),
        [json_sent 401 (message "Invalid Token Payload")]).
Proof.
  intros Hsign Hlogin Hp Ht Htok Hparse Hclock.
  rewrite authentication_loginUser_run in Hlogin.
  destruct (find (matches e) (rows (Users w))) as [u|]; [|discriminate].
  destruct (negb (bcrypt_compare E pw (password u))); [discriminate|].
  destruct (userService.JWT_SECRET E) as [s|] eqn:Hs; [|discriminate].
  destruct (String.eqb s "") eqn:Hse; [discriminate|].
  injection Hlogin as <-. cbn [token] in *.
  rewrite Hsign in *. unfold Jwt.sign, authentication.login_payload in *.
  cbn [Jwt.payload].
  set (claims := Js.object _) in *.
  assert (Hv : Jwt.verify parse clock (Some tok) (Some s) = Returned claims).
  { unfold Jwt.verify. cbn [Js.falsy].
    apply String.eqb_neq in Htok. rewrite Htok, Hparse, Hse.
    cbn [Jwt.key]. rewrite String.eqb_refl. cbn [negb Jwt.payload].
    change (Js.get claims "exp") with (Js.number (Date_now E / 1000 + 60 * 60)).
    cbv beta iota.
    destruct (Z.leb_spec (Date_now E / 1000 + 60 * 60) clock); [lia | reflexivity]. }
  split.
  - apply (proj2 (proj1 (proj2 (isAuthenticated_outcomes
                                  (Jwt.guard_env parse clock (Some s) None) (Some h))))).
    exists h, tok, claims. repeat split; assumption.
  - destruct (handle_verify_returns (Jwt.guard_env parse clock (Some s) None) r h claims Hp)
      as [H1 H2].
    { unfold Verdict.token_of. rewrite Ht. exact Hv. }
    rewrite H1, H2. reflexivity.
Qed.

Lemma roleless_token_at_the_guards_witness :
  proceeds
    (snd (Authorization.handle
            (Jwt.guard_env
               (fun _ => Some (Jwt.sign 1000
                                 (authentication.login_payload 1000000 Sample.alice)
                                 Sample.secret))
               2000 (Some Sample.secret) None)
            (Some "Bearer t"))) = true
  /\ handle
       (Jwt.guard_env
          (fun _ => Some (Jwt.sign 1000
                            (authentication.login_payload 1000000 Sample.alice)
                            Sample.secret))
          2000 (Some Sample.secret) None)
       both (Some "Bearer t")
     = (Returned tt,
        Some (Jwt.payload (Jwt.sign 1000
                             (authentication.login_payload 1000000 Sample.alice)
                             Sample.secret)),
        [json_sent 401 (message "Invalid Token Payload")]).
Proof.
  refine (roleless_token_at_the_guards (Sample.service (Some Sample.secret))
            "a@x.com" "password123" (Sample.world_of Sample.alice)
            (mkLoginResult "Login successful"
               (Jwt.sign 1000 (authentication.login_payload 1000000 Sample.alice)
                         Sample.secret)
               (Js.object
                  [("userid", Js.number 1);
                   ("first_name", Js.str "Alice");
                   ("last_name", Js.str "Mwangi");
                   ("email", Js.str "a@x.com");
                   ("phone_number", Js.str "0711000001")]))
            (fun _ => Some (Jwt.sign 1000
                              (authentication.login_payload 1000000 Sample.alice)
                              Sample.secret))
            2000 both "Bearer t" "t"
            (fun _ _ => eq_refl) eq_refl eq_refl eq_refl _ eq_refl _).
  - discriminate.
  - reflexivity.
Defined.

End RolelessToken.
